(** * Data-access layer of the Users / Posts / Tags demo service

    A shallow embedding of [Tools/models.py] (the entity model) and
    [Tools/db.py] (the [DatabaseManager]) together with the properties of the
    service specification that concern them, followed by the handlers of
    [api_service.py], [graphql_service.py] and [mcp_service.py] and the tag
    test of [Tools/testing.py], with properties of their own.

    Modelling conventions.
    - A mapped object (a row) is the dictionary of its column attributes,
      [gmap string Value]; a table is the list of its rows in scan order.
    - A public method of [DatabaseManager] is a function from the store to a
      result and a new store; a Python exception is the [Raise] result.
    - The relational engine is modelled through what the code relies on:
      serial primary keys, column defaults, NOT NULL / UNIQUE / length
      checks at flush time, cascading deletes, [ILIKE], [OFFSET]/[LIMIT],
      commit and rollback.
    - An UPDATE keeps the row at its place in the scan order.
    - Characters are single bytes; case folding is ASCII case folding.
    - [Tools/schemas.py] is not among the sources: the input and output
      schemas are modelled from the specification and from their uses in the
      adapters and in [Tools/testing.py].
    - A handler of a service is a function from the store to an outcome
      (a returned value or a raised exception) and a new store; the text of
      a message is kept as the way the source builds it. *)

From Stdlib Require Import Ascii.
From stdpp Require Import base option list gmap strings.

Open Scope Z_scope.

(** ** Values and rows *)

(** Python values that can be stored in a column attribute. Dates and
    timestamps are kept as integers (ordinal day, seconds since the epoch). *)
Inductive Value : Type :=
  | VNone
  | VInt (z : Z)
  | VStr (s : string)
  | VBool (b : bool)
  | VDate (d : Z)
  | VDateTime (t : Z).

#[global] Instance Value_eq_dec : EqDecision Value.
Proof. solve_decision. Defined.

Abbreviation Row := (gmap string Value).

(** [getattr obj key] for a column attribute: an attribute that was never
    assigned reads as [None]. *)
Definition getattr (obj : Row) (key : string) : Value :=
  default VNone (obj !! key).

Definition setattr (obj : Row) (key : string) (value : Value) : Row :=
  <[key := value]> obj.

Definition row_id (obj : Row) : option Z :=
  match obj !! "id" with
  | Some (VInt z) => Some z
  | _ => None
  end.

(** ** Entity model: Tools/models.py *)

Inductive SqlType : Type :=
  | String_ (n : nat)
  | Text
  | Integer
  | Date
  | DateTime
  | Boolean.

Inductive ColumnDefault : Type :=
  | NoDefault
  | Serial                 (* primary key fed by the table's sequence *)
  | Const (v : Value)      (* default=<constant> *)
  | UtcNow.                (* default=datetime.utcnow *)

Record Column : Type := mapped_column {
  col_name : string;
  col_type : SqlType;
  nullable : bool;         (* Mapped[Optional[...]] *)
  unique : bool;           (* unique=True or primary_key=True *)
  col_default : ColumnDefault;
  onupdate : bool          (* onupdate=datetime.utcnow *)
}.

Inductive Model : Type := User | Post | Tag.

#[global] Instance Model_eq_dec : EqDecision Model.
Proof. solve_decision. Defined.

Definition columns (model : Model) : list Column :=
  match model with
  | User =>
      [ mapped_column "id" Integer false true Serial false;
        mapped_column "first_name" (String_ 50) false false NoDefault false;
        mapped_column "last_name" (String_ 50) false false NoDefault false;
        mapped_column "nickname" (String_ 30) false true NoDefault false;
        mapped_column "password" (String_ 255) false false NoDefault false;
        mapped_column "email" (String_ 100) false true NoDefault false;
        mapped_column "birthdate" Date false false NoDefault false;
        mapped_column "location" (String_ 100) true false NoDefault false;
        mapped_column "gender" (String_ 20) true false NoDefault false;
        mapped_column "job_title" (String_ 100) true false NoDefault false;
        mapped_column "phone" (String_ 20) true false NoDefault false;
        mapped_column "created_at" DateTime false false UtcNow false ]
  | Post =>
      [ mapped_column "id" Integer false true Serial false;
        mapped_column "author_id" Integer false false NoDefault false;
        mapped_column "title" (String_ 200) false false NoDefault false;
        mapped_column "content" Text false false NoDefault false;
        mapped_column "created_at" DateTime false false UtcNow false;
        mapped_column "rating" Integer false false (Const (VInt 0)) false;
        mapped_column "views" Integer false false (Const (VInt 0)) false;
        mapped_column "is_published" Boolean false false (Const (VBool true)) false;
        mapped_column "updated_at" DateTime false false UtcNow true ]
  | Tag =>
      [ mapped_column "id" Integer false true Serial false;
        mapped_column "title" (String_ 50) false true NoDefault false;
        mapped_column "description" Text true false NoDefault false;
        mapped_column "created_at" DateTime false false UtcNow false ]
  end.

Definition column_names (model : Model) : list string :=
  col_name <$> columns model.

(** A row of the association table [posts_tags]. *)
Record PostTag : Type := mk_post_tag {
  pt_post_id : Z;
  pt_tag_id : Z;
  pt_created_at : Z
}.

#[global] Instance PostTag_eq_dec : EqDecision PostTag.
Proof. solve_decision. Defined.

(** ** The store *)

(** Tables in scan order, and the next value of each serial sequence. *)
Record Database : Type := mk_database {
  users : list Row;
  posts : list Row;
  tags : list Row;
  posts_tags : list PostTag;
  users_id_seq : Z;
  posts_id_seq : Z;
  tags_id_seq : Z
}.

(** [Base.metadata.drop_all] followed by [Base.metadata.create_all]. *)
Definition empty_database : Database :=
  mk_database [] [] [] [] 1 1 1.

Definition table (model : Model) (db : Database) : list Row :=
  match model with
  | User => users db
  | Post => posts db
  | Tag => tags db
  end.

Definition set_table (model : Model) (rows : list Row) (db : Database) : Database :=
  match model with
  | User => mk_database rows (posts db) (tags db) (posts_tags db)
              (users_id_seq db) (posts_id_seq db) (tags_id_seq db)
  | Post => mk_database (users db) rows (tags db) (posts_tags db)
              (users_id_seq db) (posts_id_seq db) (tags_id_seq db)
  | Tag => mk_database (users db) (posts db) rows (posts_tags db)
              (users_id_seq db) (posts_id_seq db) (tags_id_seq db)
  end.

Definition set_posts_tags (rows : list PostTag) (db : Database) : Database :=
  mk_database (users db) (posts db) (tags db) rows
    (users_id_seq db) (posts_id_seq db) (tags_id_seq db).

Definition id_seq (model : Model) (db : Database) : Z :=
  match model with
  | User => users_id_seq db
  | Post => posts_id_seq db
  | Tag => tags_id_seq db
  end.

Definition set_id_seq (model : Model) (next : Z) (db : Database) : Database :=
  match model with
  | User => mk_database (users db) (posts db) (tags db) (posts_tags db)
              next (posts_id_seq db) (tags_id_seq db)
  | Post => mk_database (users db) (posts db) (tags db) (posts_tags db)
              (users_id_seq db) next (tags_id_seq db)
  | Tag => mk_database (users db) (posts db) (tags db) (posts_tags db)
              (users_id_seq db) (posts_id_seq db) next
  end.

(** ** Results and the unit of work *)

Inductive Error : Type :=
  | TagsNotFound (missing_ids : gset Z)  (* ValueError("Tags not found: ...") *)
  | IntegrityError                       (* NOT NULL, UNIQUE or key violation *)
  | DataError                            (* value outside the column type *)
  | MultipleResultsFound                 (* scalar_one_or_none on several rows *)
  | StatementError (statement : string). (* a seed statement the engine rejects *)

Inductive Result (A : Type) : Type :=
  | Ok (a : A)
  | Raise (e : Error).
Arguments Ok {A} a.
Arguments Raise {A} e.

#[global] Instance Error_eq_dec : EqDecision Error.
Proof. solve_decision. Defined.

#[global] Instance Result_eq_dec {A : Type} `{EqDecision A} : EqDecision (Result A).
Proof. solve_decision. Defined.

#[global] Instance Database_eq_dec : EqDecision Database.
Proof. solve_decision. Defined.

(** A computation inside a session: it reads and writes the working state of
    the transaction and either returns or raises. *)
Definition Session (A : Type) : Type := Database → Result A * Database.

#[global] Instance Session_ret : MRet Session :=
  λ A a db, (Ok a, db).

#[global] Instance Session_bind : MBind Session :=
  λ A B k c db,
    match c db with
    | (Ok a, db') => k a db'
    | (Raise e, db') => (Raise e, db')
    end.

Definition raise {A : Type} (e : Error) : Session A :=
  λ db, (Raise e, db).

Definition get_state : Session Database := λ db, (Ok db, db).
Definition put_state (db' : Database) : Session unit := λ _, (Ok tt, db').

(** [session.rollback()]: table contents return to the state at the start of
    the transaction; sequence values drawn meanwhile are not given back. *)
Definition rollback (before now_ : Database) : Database :=
  mk_database (users before) (posts before) (tags before) (posts_tags before)
    (users_id_seq now_) (posts_id_seq now_) (tags_id_seq now_).

(** [DatabaseManager.get_session]: commit when the body completes (also when
    it returns from inside the [with] block), roll back and re-raise when it
    raises. *)
Definition get_session {A : Type} (body : Session A) : Session A :=
  λ db,
    match body db with
    | (Ok a, db') => (Ok a, db')
    | (Raise e, db') => (Raise e, rollback db db')
    end.

(** ** Flush: what the engine checks when a row is written *)

Definition type_ok (t : SqlType) (v : Value) : bool :=
  match v, t with
  | VNone, _ => true
  | VStr s, String_ n => bool_decide (String.length s ≤ n)%nat
  | VStr _, Text => true
  | VInt z, Integer => bool_decide (-2147483648 ≤ z ≤ 2147483647)
  | VDate _, Date => true
  | VDateTime _, DateTime => true
  | VBool _, Boolean => true
  | _, _ => false
  end.

Definition not_null_ok (c : Column) (v : Value) : bool :=
  nullable c || negb (bool_decide (v = VNone)).

(** NULL never collides with NULL in a unique index. *)
Definition unique_ok (c : Column) (v : Value) (others : list Row) : bool :=
  negb (unique c) || bool_decide (v = VNone)
  || forallb (λ r, negb (bool_decide (getattr r (col_name c) = v))) others.

(** [posts.author_id] references [users.id]; the reference is checked when
    the column is written. *)
Definition foreign_keys_ok (model : Model) (cols : list Column) (obj : Row)
    (db : Database) : bool :=
  match model with
  | Post =>
      if bool_decide ("author_id" ∈ col_name <$> cols) then
        match getattr obj "author_id" with
        | VInt a => bool_decide (Exists (λ u, row_id u = Some a) (users db))
        | _ => true
        end
      else true
  | _ => true
  end.

(** The checks on the written columns [cols] of [obj], in the order the
    engine performs them: coercion to the column type, NOT NULL, unique
    indexes, foreign keys. *)
Definition check_columns (model : Model) (cols : list Column) (obj : Row)
    (others : list Row) (db : Database) : Result unit :=
  if negb (forallb (λ c, type_ok (col_type c) (getattr obj (col_name c))) cols)
  then Raise DataError
  else if negb (forallb (λ c, not_null_ok c (getattr obj (col_name c))) cols)
  then Raise IntegrityError
  else if negb (forallb (λ c, unique_ok c (getattr obj (col_name c)) others) cols)
  then Raise IntegrityError
  else if negb (foreign_keys_ok model cols obj db)
  then Raise IntegrityError
  else Ok tt.

(** Value written for column [c] by an INSERT: an attribute left at [None]
    takes the column default when there is one. *)
Definition insert_value (now next_id : Z) (obj : Row) (c : Column) : Value :=
  match getattr obj (col_name c), col_default c with
  | VNone, Serial => VInt next_id
  | VNone, Const v => v
  | VNone, UtcNow => VDateTime now
  | v, _ => v
  end.

(** [session.add(obj); session.flush()]: INSERT, the row goes to the end of
    the table. The sequence value drawn for the key is consumed even when the
    INSERT is rejected. *)
Definition insert (model : Model) (obj : Row) (now : Z) : Session Row :=
  λ db,
    let next_id := id_seq model db in
    let db1 :=
      if bool_decide (getattr obj "id" = VNone)
      then set_id_seq model (next_id + 1) db else db in
    let row :=
      foldl (λ r c, setattr r (col_name c) (insert_value now next_id obj c))
        obj (columns model) in
    match check_columns model (columns model) row (table model db1) db1 with
    | Raise e => (Raise e, db1)
    | Ok _ => (Ok row, set_table model (table model db1 ++ [row]) db1)
    end.

(** [session.flush()] for a loaded object [old] (primary key [id]) whose
    attributes now read [new]: no statement when no column changed; otherwise
    UPDATE ... WHERE id = :id of the changed columns, with [onupdate] columns
    refreshed, checked against the other rows. *)
Definition flush_update (model : Model) (id : Z) (old new : Row) (now : Z)
    : Session Row :=
  λ db,
    let changed :=
      filter (λ c, getattr new (col_name c) ≠ getattr old (col_name c))
        (columns model) in
    match changed with
    | [] => (Ok new, db)
    | _ :: _ =>
        let row :=
          foldl (λ r c,
                   if onupdate c && bool_decide (col_name c ∉ col_name <$> changed)
                   then setattr r (col_name c) (VDateTime now) else r)
            new (columns model) in
        let others := filter (λ r, row_id r ≠ Some id) (table model db) in
        match check_columns model changed row others db with
        | Raise e => (Raise e, db)
        | Ok _ =>
            (Ok row,
             set_table model
               ((λ r, if bool_decide (row_id r = Some id) then row else r)
                  <$> table model db) db)
        end
    end.

(** DELETE FROM posts WHERE id = :id, with the rows of [posts_tags] that
    reference the post. *)
Definition delete_post_rows (id : Z) (db : Database) : Database :=
  set_posts_tags (filter (λ a, pt_post_id a ≠ id) (posts_tags db))
    (set_table Post (filter (λ r, row_id r ≠ Some id) (posts db)) db).

(** [session.delete(obj); session.flush()] for an object with primary key
    [id]. For a User the relationship [posts] (cascade all, delete-orphan)
    is loaded and every post is deleted first; for a Post or a Tag the rows
    of the secondary table go with it. The foreign keys carry ON DELETE
    CASCADE as well. *)
Definition delete_rows (model : Model) (id : Z) (db : Database) : Database :=
  match model with
  | User =>
      let user_posts :=
        omap row_id (filter (λ p, getattr p "author_id" = VInt id) (posts db)) in
      let db1 := foldl (λ d pid, delete_post_rows pid d) db user_posts in
      let db2 := set_table User (filter (λ r, row_id r ≠ Some id) (users db1)) db1 in
      set_table Post (filter (λ p, getattr p "author_id" ≠ VInt id) (posts db2)) db2
  | Post => delete_post_rows id db
  | Tag =>
      set_posts_tags (filter (λ a, pt_tag_id a ≠ id) (posts_tags db))
        (set_table Tag (filter (λ r, row_id r ≠ Some id) (tags db)) db)
  end.

(** ** Generic primitives of DatabaseManager *)

(** [session.get(model, id)] *)
Definition _get_by_id (model : Model) (id : Z) : Session (option Row) :=
  λ db, (Ok (head (filter (λ r, row_id r = Some id) (table model db))), db).

(** The mapped class is called with [data] as keyword arguments, then
    [session.add(db_obj); session.flush()]. *)
Definition _create (model : Model) (data : list (string * Value)) (now : Z)
    : Session Row :=
  insert model (list_to_map data) now.

(** [hasattr(db_obj, key)] for the keys an input schema can carry: the
    column attributes of the mapped class. *)
Definition hasattr (model : Model) (key : string) : bool :=
  bool_decide (key ∈ column_names model).

(** The loop of [_update]: [for key, value in data.items(): if hasattr(db_obj,
    key): setattr(db_obj, key, value)]. *)
Definition update_attrs (model : Model) (db_obj : Row)
    (data : list (string * Value)) : Row :=
  foldl (λ obj kv, if hasattr model kv.1 then setattr obj kv.1 kv.2 else obj)
    db_obj data.

(** [_update]: the loop, then [session.flush()]. The object is given with
    the primary key [id] under which it was loaded. *)
Definition _update (model : Model) (id : Z) (db_obj : Row)
    (data : list (string * Value)) (now : Z) : Session Row :=
  flush_update model id db_obj (update_attrs model db_obj data) now.

(** [_delete]: [session.delete(db_obj); session.flush()], for the object
    loaded under the primary key [id]. *)
Definition _delete (model : Model) (id : Z) : Session unit :=
  λ db, (Ok tt, delete_rows model id db).

(** ** Relationships *)

Definition id_in (ids : list Z) (obj : Row) : bool :=
  match row_id obj with
  | Some z => bool_decide (z ∈ ids)
  | None => false
  end.

(** [User.posts] *)
Definition user_posts (db : Database) (user_id : Z) : list Row :=
  filter (λ p, getattr p "author_id" = VInt user_id) (posts db).

(** [Post.author] *)
Definition post_author (db : Database) (post : Row) : option Row :=
  match getattr post "author_id" with
  | VInt a => head (filter (λ u, row_id u = Some a) (users db))
  | _ => None
  end.

(** Tag ids linked to a post, and post ids linked to a tag, in [posts_tags]. *)
Definition post_tag_ids (db : Database) (post_id : Z) : list Z :=
  pt_tag_id <$> filter (λ a, pt_post_id a = post_id) (posts_tags db).

Definition tag_post_ids (db : Database) (tag_id : Z) : list Z :=
  pt_post_id <$> filter (λ a, pt_tag_id a = tag_id) (posts_tags db).

(** [Post.tags] and [Tag.posts], through the secondary table. *)
Definition post_tags (db : Database) (post_id : Z) : list Row :=
  filter (λ t, id_in (post_tag_ids db post_id) t) (tags db).

Definition tag_posts (db : Database) (tag_id : Z) : list Row :=
  filter (λ p, id_in (tag_post_ids db tag_id) p) (posts db).

(** Flush of an assignment [post.tags = tags] (the ids of [tags] are
    [tag_ids]): association rows of the post that are no longer wanted are
    deleted, missing ones are inserted, the others stay as they are. *)
Definition set_post_tags (post_id : Z) (tag_ids : list Z) (now : Z)
    : Session unit :=
  λ db,
    let kept :=
      filter (λ a, pt_post_id a ≠ post_id ∨ pt_tag_id a ∈ tag_ids)
        (posts_tags db) in
    let added :=
      (λ t, mk_post_tag post_id t now)
        <$> filter (λ t, t ∉ post_tag_ids db post_id) tag_ids in
    (Ok tt, set_posts_tags (kept ++ added) db).

(** ** Input and output schemas *)

Definition opt_str (o : option string) : Value := from_option VStr VNone o.
Definition opt_date (o : option Z) : Value := from_option VDate VNone o.
Definition opt_bool (o : option bool) : Value := from_option VBool VNone o.

(** One entry of [model_dump(exclude_unset=True)]: present only when the
    field was set, with the value it was set to. *)
Definition dump_field {A : Type} (key : string) (to_value : A → Value)
    (field : option A) : list (string * Value) :=
  match field with
  | Some v => [(key, to_value v)]
  | None => []
  end.

(** Modelled from the spec: Tools/schemas.py is not among the sources. The
    Create shape has the required fields mandatory and the optional ones
    nullable; the field list is the one the callers pass. *)
Module UserCreate.
Record t : Type := mk {
  first_name : string;
  last_name : string;
  nickname : string;
  email : string;
  password : string;
  birthdate : Z;
  location : option string;
  gender : option string;
  job_title : option string;
  phone : option string
}.

Definition model_dump (d : t) : list (string * Value) :=
  [ ("first_name", VStr (first_name d));
    ("last_name", VStr (last_name d));
    ("nickname", VStr (nickname d));
    ("email", VStr (email d));
    ("password", VStr (password d));
    ("birthdate", VDate (birthdate d));
    ("location", opt_str (location d));
    ("gender", opt_str (gender d));
    ("job_title", opt_str (job_title d));
    ("phone", opt_str (phone d)) ].
End UserCreate.

(** Modelled from the spec: Tools/schemas.py is not among the sources. The
    Update shape has every field optional; a field is unset ([None] here) or
    set to a value that may itself be null. *)
Module UserUpdate.
Record t : Type := mk {
  first_name : option (option string);
  last_name : option (option string);
  nickname : option (option string);
  email : option (option string);
  password : option (option string);
  birthdate : option (option Z);
  location : option (option string);
  gender : option (option string);
  job_title : option (option string);
  phone : option (option string)
}.

Definition model_dump_exclude_unset (d : t) : list (string * Value) :=
  dump_field "first_name" opt_str (first_name d)
  ++ dump_field "last_name" opt_str (last_name d)
  ++ dump_field "nickname" opt_str (nickname d)
  ++ dump_field "email" opt_str (email d)
  ++ dump_field "password" opt_str (password d)
  ++ dump_field "birthdate" opt_date (birthdate d)
  ++ dump_field "location" opt_str (location d)
  ++ dump_field "gender" opt_str (gender d)
  ++ dump_field "job_title" opt_str (job_title d)
  ++ dump_field "phone" opt_str (phone d).

Definition unset : t :=
  mk None None None None None None None None None None.
End UserUpdate.

(** Modelled from the spec: Tools/schemas.py is not among the sources. All
    filters optional; [skip] is a non-negative integer and [limit] a positive
    one. *)
Module UserSearch.
Record t : Type := mk {
  nickname : option string;
  email : option string;
  location : option string;
  job_title : option string;
  include_posts : bool;
  skip : nat;
  limit : nat
}.
End UserSearch.

(** Modelled from the spec: Tools/schemas.py is not among the sources. The
    response is a snapshot of the row with the related rows that were
    loaded. *)
Module UserResponse.
Record t : Type := mk {
  row : Row;
  posts : list Row
}.
End UserResponse.

#[global] Instance UserResponse_eq_dec : EqDecision UserResponse.t.
Proof. solve_decision. Defined.

(** Modelled from the spec: Tools/schemas.py is not among the sources. *)
Module PostCreate.
Record t : Type := mk {
  title : string;
  content : string;
  is_published : bool;
  tag_ids : option (list Z)
}.
End PostCreate.

(** Modelled from the spec: Tools/schemas.py is not among the sources. *)
Module PostUpdate.
Record t : Type := mk {
  title : option (option string);
  content : option (option string);
  is_published : option (option bool);
  tag_ids : option (option (list Z))
}.

(** The dump once the entry [tag_ids] has been popped from it. *)
Definition model_dump_exclude_unset (d : t) : list (string * Value) :=
  dump_field "title" opt_str (title d)
  ++ dump_field "content" opt_str (content d)
  ++ dump_field "is_published" opt_bool (is_published d).

Definition unset : t := mk None None None None.
End PostUpdate.

(** Modelled from the spec: Tools/schemas.py is not among the sources. *)
Module PostSearch.
Record t : Type := mk {
  title : option string;
  content : option string;
  include_author : bool;
  include_tags : bool;
  skip : nat;
  limit : nat
}.
End PostSearch.

(** Modelled from the spec: Tools/schemas.py is not among the sources. *)
Module PostResponse.
Record t : Type := mk {
  row : Row;
  author : option Row;
  tags : list Row
}.
End PostResponse.

#[global] Instance PostResponse_eq_dec : EqDecision PostResponse.t.
Proof. solve_decision. Defined.

(** Modelled from the spec: Tools/schemas.py is not among the sources. *)
Module TagCreate.
Record t : Type := mk {
  title : string;
  description : option string
}.

Definition model_dump (d : t) : list (string * Value) :=
  [ ("title", VStr (title d)); ("description", opt_str (description d)) ].
End TagCreate.

(** Modelled from the spec: Tools/schemas.py is not among the sources. *)
Module TagUpdate.
Record t : Type := mk {
  title : option (option string);
  description : option (option string)
}.

Definition model_dump_exclude_unset (d : t) : list (string * Value) :=
  dump_field "title" opt_str (title d)
  ++ dump_field "description" opt_str (description d).

Definition unset : t := mk None None.
End TagUpdate.

(** Modelled from the spec: Tools/schemas.py is not among the sources. *)
Module TagResponse.
Record t : Type := mk {
  row : Row;
  posts : list Row
}.
End TagResponse.

#[global] Instance TagResponse_eq_dec : EqDecision TagResponse.t.
Proof. solve_decision. Defined.

(** [XResponse.model_validate(obj)]: relationships are read from the
    session, or left empty when the query was built with [noload]. *)
Definition user_response (db : Database) (include_posts : bool) (u : Row)
    : UserResponse.t :=
  UserResponse.mk u
    (if include_posts then
       match row_id u with Some id => user_posts db id | None => [] end
     else []).

Definition post_response (db : Database) (include_author include_tags : bool)
    (p : Row) : PostResponse.t :=
  PostResponse.mk p
    (if include_author then post_author db p else None)
    (if include_tags then
       match row_id p with Some id => post_tags db id | None => [] end
     else []).

Definition tag_response (db : Database) (include_posts : bool) (t : Row)
    : TagResponse.t :=
  TagResponse.mk t
    (if include_posts then
       match row_id t with Some id => tag_posts db id | None => [] end
     else []).

(** ** ILIKE *)

Definition lower (c : ascii) : ascii :=
  let n := N_of_ascii c in
  if ((65 <=? n) && (n <=? 90))%N then ascii_of_N (n + 32) else c.

(** [s LIKE pattern]: [%] stands for any run of characters, [_] for any one
    character, and a backslash makes the next pattern character literal. A
    pattern ending in a lone backslash is rejected by the engine; the patterns
    built below always end in [%]. *)
Fixpoint like (pattern : list ascii) : list ascii → bool :=
  match pattern with
  | [] => λ s, match s with [] => true | _ :: _ => false end
  | c :: p =>
      if Ascii.eqb c "%" then
        fix any (s : list ascii) : bool :=
          like p s || match s with [] => false | _ :: s' => any s' end
      else if Ascii.eqb c "_" then
        λ s, match s with [] => false | _ :: s' => like p s' end
      else if Ascii.eqb c "\" then
        match p with
        | [] => λ _, false
        | e :: p' =>
            λ s, match s with
                 | [] => false
                 | x :: s' => Ascii.eqb x e && like p' s'
                 end
        end
      else
        λ s, match s with
             | [] => false
             | x :: s' => Ascii.eqb x c && like p s'
             end
  end.

(** [column.ilike(pattern)] as a WHERE condition: a NULL column never
    satisfies it. *)
Definition ilike (v : Value) (pattern : string) : bool :=
  match v with
  | VStr s =>
      like (lower <$> String.list_ascii_of_string pattern)
        (lower <$> String.list_ascii_of_string s)
  | _ => false
  end.

(** ** Search *)

(** [if search_params.x: filters.append(X.x.ilike(f"%{search_params.x}%"))]:
    [None] and the empty string are both falsy. *)
Definition add_filter (column : string) (param : option string)
    : list (string * string) :=
  match param with
  | Some s => if bool_decide (s = "") then [] else [(column, "%" +:+ s +:+ "%")]
  | None => []
  end.

Definition or_ (filters : list (string * string)) (r : Row) : bool :=
  existsb (λ f, ilike (getattr r f.1) f.2) filters.

(** [query.filter(or_( *filters)) if filters], then [offset(skip).limit(limit)]. *)
Definition search_rows (filters : list (string * string)) (skip limit : nat)
    (rows : list Row) : list Row :=
  take limit
    (drop skip
       (match filters with
        | [] => rows
        | _ :: _ => filter (λ r, or_ filters r) rows
        end)).

Definition user_filters (search_params : UserSearch.t) : list (string * string) :=
  add_filter "nickname" (UserSearch.nickname search_params)
  ++ add_filter "email" (UserSearch.email search_params)
  ++ add_filter "location" (UserSearch.location search_params)
  ++ add_filter "job_title" (UserSearch.job_title search_params).

Definition post_filters (search_params : PostSearch.t) : list (string * string) :=
  add_filter "title" (PostSearch.title search_params)
  ++ add_filter "content" (PostSearch.content search_params).

(** ** User operations *)

Definition create_user (user_data : UserCreate.t) (now : Z)
    : Session (option UserResponse.t) :=
  get_session (
    user ← _create User (UserCreate.model_dump user_data) now;
    db ← get_state;
    mret (Some (user_response db true user))).

(** [scalar_one_or_none()] *)
Definition scalar_one_or_none (rows : list Row) : Session (option Row) :=
  match rows with
  | [] => mret None
  | [r] => mret (Some r)
  | _ :: _ :: _ => raise MultipleResultsFound
  end.

Definition get_user (user_id : Z) (include_posts : bool)
    : Session (option UserResponse.t) :=
  get_session (
    db ← get_state;
    user ← scalar_one_or_none (filter (λ r, row_id r = Some user_id) (users db));
    mret (user_response db include_posts <$> user)).

Definition update_user (user_id : Z) (user_data : UserUpdate.t) (now : Z)
    : Session (option UserResponse.t) :=
  get_session (
    found ← _get_by_id User user_id;
    match found with
    | Some db_user =>
        updated_user ←
          _update User user_id db_user
            (UserUpdate.model_dump_exclude_unset user_data) now;
        db ← get_state;
        mret (Some (user_response db true updated_user))
    | None => mret None
    end).

Definition delete_user (user_id : Z) : Session bool :=
  get_session (
    found ← _get_by_id User user_id;
    match found with
    | Some _ => _delete User user_id;; mret true
    | None => mret false
    end).

Definition search_users (search_params : UserSearch.t)
    : Session (list UserResponse.t) :=
  get_session (
    db ← get_state;
    let users :=
      search_rows (user_filters search_params)
        (UserSearch.skip search_params) (UserSearch.limit search_params)
        (users db) in
    mret (user_response db (UserSearch.include_posts search_params) <$> users)).

(** ** Post operations *)

(** [select(Tag).where(Tag.id.in_(tag_ids))] followed by the length check. *)
Definition resolve_tags (tag_ids : list Z) : Session (list Row) :=
  db ← get_state;
  let tags := filter (λ t, id_in tag_ids t) (tags db) in
  if bool_decide (length tags ≠ length tag_ids) then
    let missing_ids : gset Z :=
      list_to_set tag_ids ∖ list_to_set (omap row_id tags) in
    raise (TagsNotFound missing_ids)
  else mret tags.

(** [create_post]: the author is looked up first; the tags are resolved only
    for a non-empty list ([if post_data.tag_ids]); the flush inserts the post
    and then the association rows of [post.tags]. *)
Definition create_post (author_id : Z) (post_data : PostCreate.t) (now : Z)
    : Session (option PostResponse.t) :=
  get_session (
    author ← _get_by_id User author_id;
    match author with
    | None => mret None
    | Some _ =>
        let post : Row :=
          {[ "author_id" := VInt author_id;
             "title" := VStr (PostCreate.title post_data);
             "content" := VStr (PostCreate.content post_data);
             "is_published" := VBool (PostCreate.is_published post_data) ]} in
        assigned ←
          match PostCreate.tag_ids post_data with
          | Some ((_ :: _) as tag_ids) =>
              tags ← resolve_tags tag_ids; mret (Some tags)
          | _ => mret None
          end;
        post ← insert Post post now;
        match assigned, row_id post with
        | Some tags, Some post_id => set_post_tags post_id (omap row_id tags) now
        | _, _ => mret tt
        end;;
        db ← get_state;
        mret (Some (post_response db true true post))
    end).

Definition get_post (post_id : Z) (include_author include_tags : bool)
    : Session (option PostResponse.t) :=
  get_session (
    db ← get_state;
    post ← scalar_one_or_none (filter (λ r, row_id r = Some post_id) (posts db));
    mret (post_response db include_author include_tags <$> post)).

(** [update_post]: the entry [tag_ids] is popped from the dump and resolved
    when it is a list ([if tag_ids is not None]); the assignment
    [db_post.tags = tags] stays pending until the flush of [_update], which
    writes the row of the post and then the association rows. *)
Definition update_post (post_id : Z) (post_data : PostUpdate.t) (now : Z)
    : Session (option PostResponse.t) :=
  get_session (
    found ← _get_by_id Post post_id;
    match found with
    | Some db_post =>
        let update_data := PostUpdate.model_dump_exclude_unset post_data in
        assigned ←
          match PostUpdate.tag_ids post_data with
          | Some (Some tag_ids) =>
              tags ← resolve_tags tag_ids; mret (Some tags)
          | _ => mret None
          end;
        updated_post ← _update Post post_id db_post update_data now;
        match assigned with
        | Some tags => set_post_tags post_id (omap row_id tags) now
        | None => mret tt
        end;;
        db ← get_state;
        mret (Some (post_response db true true updated_post))
    | None => mret None
    end).

Definition delete_post (post_id : Z) : Session bool :=
  get_session (
    found ← _get_by_id Post post_id;
    match found with
    | Some _ => _delete Post post_id;; mret true
    | None => mret false
    end).

Definition search_posts (search_params : PostSearch.t)
    : Session (list PostResponse.t) :=
  get_session (
    db ← get_state;
    let posts :=
      search_rows (post_filters search_params)
        (PostSearch.skip search_params) (PostSearch.limit search_params)
        (posts db) in
    mret (post_response db (PostSearch.include_author search_params)
            (PostSearch.include_tags search_params) <$> posts)).

(** ** Tag operations *)

Definition create_tag (tag_data : TagCreate.t) (now : Z) : Session TagResponse.t :=
  get_session (
    tag ← _create Tag (TagCreate.model_dump tag_data) now;
    db ← get_state;
    mret (tag_response db true tag)).

Definition get_tag (tag_id : Z) (include_posts : bool)
    : Session (option TagResponse.t) :=
  get_session (
    db ← get_state;
    tag ← scalar_one_or_none (filter (λ r, row_id r = Some tag_id) (tags db));
    mret (tag_response db include_posts <$> tag)).

Definition update_tag (tag_id : Z) (tag_data : TagUpdate.t) (now : Z)
    : Session (option TagResponse.t) :=
  get_session (
    found ← _get_by_id Tag tag_id;
    match found with
    | Some db_tag =>
        updated_tag ←
          _update Tag tag_id db_tag
            (TagUpdate.model_dump_exclude_unset tag_data) now;
        db ← get_state;
        mret (Some (tag_response db true updated_tag))
    | None => mret None
    end).

Definition delete_tag (tag_id : Z) : Session bool :=
  get_session (
    found ← _get_by_id Tag tag_id;
    match found with
    | Some _ => _delete Tag tag_id;; mret true
    | None => mret false
    end).

Definition get_all_tags (include_posts : bool) : Session (list TagResponse.t) :=
  get_session (
    db ← get_state;
    mret (tag_response db include_posts <$> tags db)).

(** ** Reset *)

(** [str.split(sep)] for a one-character separator. *)
Fixpoint split (sep : ascii) (s : string) : list string :=
  match s with
  | EmptyString => [EmptyString]
  | String c s' =>
      if Ascii.eqb c sep then EmptyString :: split sep s'
      else
        match split sep s' with
        | piece :: pieces => String c piece :: pieces
        | [] => [String c EmptyString]
        end
  end.

(** Characters removed by [str.strip()]. *)
Definition is_space (c : ascii) : bool :=
  let n := N_of_ascii c in
  (((9 <=? n) && (n <=? 13)) || ((28 <=? n) && (n <=? 32))
   || (n =? 133) || (n =? 160))%N.

(** [statement.strip()] is the empty string. *)
Definition blank (statement : string) : bool :=
  forallb is_space (String.list_ascii_of_string statement).

Section Reset.
(** [session.execute(text(statement))]: the engine's reading of one
    statement of the seed script, on the working state of the transaction. *)
Variable execute : string → Session unit.

Fixpoint execute_all (statements : list string) : Session unit :=
  match statements with
  | [] => mret tt
  | statement :: rest =>
      (if blank statement then mret tt else execute statement);;
      execute_all rest
  end.

(** [reset_database]: the schema is dropped and recreated (committed on its
    own), then the script is run statement by statement in one session. *)
Definition reset_database (sql_script : string) : Session unit :=
  λ _, get_session (execute_all (split ";" sql_script)) empty_database.

End Reset.

(** ** Vocabulary of the specification *)

(** The identifier [id] resolves to an existing row of [model]. *)
Definition resolves (model : Model) (id : Z) (db : Database) : Prop :=
  Exists (λ r, row_id r = Some id) (table model db).

(** Primary keys: no two rows of a table carry the same identifier. *)
Definition primary_key_ok (model : Model) (db : Database) : Prop :=
  NoDup (omap row_id (table model db)).

(** Every table has unique primary keys. *)
Definition primary_keys_ok (db : Database) : Prop :=
  ∀ model, primary_key_ok model db.

(** The row that [session.get(model, id)] finds in a store. *)
Definition stored (model : Model) (id : Z) (db : Database) : option Row :=
  head (filter (λ r, row_id r = Some id) (table model db)).

Definition onupdate_names (model : Model) : list string :=
  col_name <$> filter (λ c, onupdate c) (columns model).

(** Partial update of a record by the field set [data]: a supplied field
    reads as supplied, an omitted one reads as before (columns refreshed by
    [onupdate] apart). *)
Definition partial_update (model : Model) (data : list (string * Value))
    (before after : Row) : Prop :=
  (∀ k v, (k, v) ∈ data → getattr after k = v)
  ∧ (∀ k, k ∉ data.*1 → k ∉ onupdate_names model →
          getattr after k = getattr before k).

(** The store accepts [value] in column [key] of the row [id]: it fits the
    column type, is not a NULL in a NOT NULL column, and does not collide
    with another row in a unique column. *)
Definition accepts (model : Model) (id : Z) (db : Database) (key : string)
    (value : Value) : Prop :=
  ∀ c, c ∈ columns model → col_name c = key →
    type_ok (col_type c) value
    ∧ not_null_ok c value
    ∧ unique_ok c value (filter (λ r, row_id r ≠ Some id) (table model db)).

(** ** Search as the specification words it *)











(** The pattern built for a provided filter. *)
Definition pattern (f : string * string) : string * string :=
  (f.1, "%" +:+ f.2 +:+ "%").

(** ** Sample data *)

Definition sample_user (id : Z) (nickname email : string) (job_title : Value)
    : Row :=
  list_to_map
    [ ("id", VInt id); ("first_name", VStr "Ann"); ("last_name", VStr "Lee");
      ("nickname", VStr nickname); ("password", VStr "secret");
      ("email", VStr email); ("birthdate", VDate 726468);
      ("location", VNone); ("gender", VNone); ("job_title", job_title);
      ("phone", VNone); ("created_at", VDateTime 1700000000) ].

Definition sample_post (id author_id : Z) (title content : string) : Row :=
  list_to_map
    [ ("id", VInt id); ("author_id", VInt author_id); ("title", VStr title);
      ("content", VStr content); ("created_at", VDateTime 1700000100);
      ("rating", VInt 0); ("views", VInt 0); ("is_published", VBool true);
      ("updated_at", VDateTime 1700000100) ].

Definition sample_tag (id : Z) (title : string) : Row :=
  list_to_map
    [ ("id", VInt id); ("title", VStr title); ("description", VNone);
      ("created_at", VDateTime 1700000050) ].

(** Two users, a post of each, two tags; post 1 carries both tags. *)
Definition sample_db : Database :=
  mk_database
    [ sample_user 1 "abc" "abc@example.com" (VStr "Senior Tester");
      sample_user 2 "bob" "bob@example.com" VNone ]
    [ sample_post 1 1 "Hello" "First post"; sample_post 2 2 "Notes" "Second post" ]
    [ sample_tag 1 "news"; sample_tag 2 "tech" ]
    [ mk_post_tag 1 1 1700000100; mk_post_tag 1 2 1700000100 ]
    3 3 3.

(** A seed statement, and an engine that reads it (and nothing else). *)
Definition insert_news : string :=
  "INSERT INTO public.tags (title) VALUES ('news')".

Definition sample_execute (statement : string) : Session unit :=
  if bool_decide (statement = insert_news)
  then _create Tag [("title", VStr "news")] 1700000000;; mret tt
  else raise (StatementError statement).

(** ** Auxiliary definitions for the further properties *)

(** The column named [key] exists and has no default. *)
Definition plain_column (model : Model) (key : string) : bool :=
  match head (filter (λ c, col_name c = key) (columns model)) with
  | Some c => match col_default c with NoDefault => true | _ => false end
  | None => false
  end.


(** Referential integrity, as the foreign keys of models.py declare it:
    every post names an existing author, and every row of [posts_tags]
    names an existing post and an existing tag. *)
Definition references_ok (db : Database) : Prop :=
  (∀ p, p ∈ posts db →
        ∃ a, getattr p "author_id" = VInt a ∧ resolves User a db)
  ∧ (∀ a, a ∈ posts_tags db →
          resolves Post (pt_post_id a) db ∧ resolves Tag (pt_tag_id a) db).

(** * The services on top of the data-access layer *)

(** [db_manager = DatabaseManager()]: the instance the services call. *)
Module db_manager.
Abbreviation create_user := create_user.
Abbreviation get_user := get_user.
Abbreviation update_user := update_user.
Abbreviation delete_user := delete_user.
Abbreviation search_users := search_users.
Abbreviation create_post := create_post.
Abbreviation get_post := get_post.
Abbreviation update_post := update_post.
Abbreviation delete_post := delete_post.
Abbreviation search_posts := search_posts.
Abbreviation get_all_tags := get_all_tags.
Abbreviation get_tag := get_tag.
End db_manager.

(** Exceptions seen by a caller of [DatabaseManager]: its own, the ones a
    service raises itself, and the failed assertion of a test. A text is
    kept as the way it is put together (a literal, an f-string of the
    source, [str(e)]), not as characters. *)
Inductive BaseException : Type :=
  | DatabaseError (e : Error)
  | HTTPException (status_code : Z) (detail : Message)
  | Exception (message : Message)
  | ValueError (message : Message)
  | AssertionError
with Message : Type :=
  | Literal (s : string)
  | NotFound (what : string) (id : Z)   (* f"{what} with ID {id} not found" *)
  | Deleted (what : string) (id : Z)    (* f"{what} {id} deleted successfully" *)
  | Failed (action : string) (cause : Message) (* f"Failed to {action}: {cause}" *)
  | str (e : BaseException).

(** [isinstance(e, ValueError)]: the data-access layer raises a
    [ValueError] for tags that are not found; the errors of the engine and
    [HTTPException] are not [ValueError]s. *)
Definition is_ValueError (e : BaseException) : bool :=
  match e with
  | ValueError _ | DatabaseError (TagsNotFound _) => true
  | _ => false
  end.

Inductive Outcome (A : Type) : Type :=
  | Returns (a : A)
  | Raises (e : BaseException).
Arguments Returns {A} a.
Arguments Raises {A} e.

(** A handler of a service, on the store behind [db_manager]. *)
Definition Endpoint (A : Type) : Type := Database → Outcome A * Database.

#[global] Instance Endpoint_ret : MRet Endpoint :=
  λ A a db, (Returns a, db).

#[global] Instance Endpoint_bind : MBind Endpoint :=
  λ A B k c db,
    match c db with
    | (Returns a, db') => k a db'
    | (Raises e, db') => (Raises e, db')
    end.

Definition raise_ {A : Type} (e : BaseException) : Endpoint A :=
  λ db, (Raises e, db).

(** A call of a method of [db_manager]. *)
Definition call {A : Type} (method : Session A) : Endpoint A :=
  λ db,
    match method db with
    | (Ok a, db') => (Returns a, db')
    | (Raise e, db') => (Raises (DatabaseError e), db')
    end.

(** [try: body / except ... as e: raise handler(e)], every [except] clause
    of the services raising in its turn. *)
Definition try_except {A : Type} (body : Endpoint A)
    (handler : BaseException → BaseException) : Endpoint A :=
  λ db,
    match body db with
    | (Returns a, db') => (Returns a, db')
    | (Raises e, db') => (Raises (handler e), db')
    end.

(** ** api_service.py *)

Module api_service.

Definition create_user (user_data : UserCreate.t) (now : Z)
    : Endpoint UserResponse.t :=
  try_except
    (user ← call (db_manager.create_user user_data now);
     match user with
     | None => raise_ (HTTPException 400 (Literal "Failed to create user"))
     | Some user => mret user
     end)
    (λ e, HTTPException 400 (str e)).

Definition get_user (user_id : Z) (include_posts : bool)
    : Endpoint UserResponse.t :=
  user ← call (db_manager.get_user user_id include_posts);
  match user with
  | None => raise_ (HTTPException 404 (NotFound "User" user_id))
  | Some user => mret user
  end.

Definition update_user (user_data : UserUpdate.t) (user_id : Z) (now : Z)
    : Endpoint UserResponse.t :=
  try_except
    (user ← call (db_manager.update_user user_id user_data now);
     match user with
     | None => raise_ (HTTPException 404 (NotFound "User" user_id))
     | Some user => mret user
     end)
    (λ e, HTTPException 400 (str e)).

Definition delete_user (user_id : Z) : Endpoint Message :=
  success ← call (db_manager.delete_user user_id);
  if negb success
  then raise_ (HTTPException 404 (NotFound "User" user_id))
  else mret (Deleted "User" user_id).

Definition search_users (params : UserSearch.t)
    : Endpoint (list UserResponse.t) :=
  call (db_manager.search_users params).

(** [except ValueError as e: raise HTTPException(400, str(e))] before
    [except Exception as e: raise HTTPException(500, str(e))]. *)
Definition bad_request_or_server_error (e : BaseException) : BaseException :=
  if is_ValueError e then HTTPException 400 (str e)
  else HTTPException 500 (str e).

Definition create_post (post_data : PostCreate.t) (author_id : Z) (now : Z)
    : Endpoint PostResponse.t :=
  try_except
    (post ← call (db_manager.create_post author_id post_data now);
     match post with
     | None => raise_ (HTTPException 404 (NotFound "Author" author_id))
     | Some post => mret post
     end)
    bad_request_or_server_error.

Definition get_post (post_id : Z) (include_author include_tags : bool)
    : Endpoint PostResponse.t :=
  post ← call (db_manager.get_post post_id include_author include_tags);
  match post with
  | None => raise_ (HTTPException 404 (NotFound "Post" post_id))
  | Some post => mret post
  end.

Definition update_post (post_data : PostUpdate.t) (post_id : Z) (now : Z)
    : Endpoint PostResponse.t :=
  try_except
    (post ← call (db_manager.update_post post_id post_data now);
     match post with
     | None => raise_ (HTTPException 404 (NotFound "Post" post_id))
     | Some post => mret post
     end)
    bad_request_or_server_error.

Definition delete_post (post_id : Z) : Endpoint Message :=
  success ← call (db_manager.delete_post post_id);
  if negb success
  then raise_ (HTTPException 404 (NotFound "Post" post_id))
  else mret (Deleted "Post" post_id).

Definition search_posts (params : PostSearch.t)
    : Endpoint (list PostResponse.t) :=
  call (db_manager.search_posts params).

Definition get_all_tags (include_posts : bool)
    : Endpoint (list TagResponse.t) :=
  call (db_manager.get_all_tags include_posts).

Definition get_tag (tag_id : Z) (include_posts : bool)
    : Endpoint TagResponse.t :=
  tag ← call (db_manager.get_tag tag_id include_posts);
  match tag with
  | None => raise_ (HTTPException 404 (NotFound "Tag" tag_id))
  | Some tag => mret tag
  end.

End api_service.

(** ** graphql_service.py *)

Module graphql_service.

Module UserMinimal.
Record t : Type := mk {
  id : Value;
  first_name : Value;
  last_name : Value;
  nickname : Value
}.
End UserMinimal.

Module PostMinimal.
Record t : Type := mk {
  id : Value;
  author_id : Value;
  title : Value;
  content : Value;
  is_published : Value;
  created_at : Value;
  updated_at : Value
}.
End PostMinimal.

Module TagMinimal.
Record t : Type := mk {
  id : Value;
  title : Value;
  description : Value
}.
End TagMinimal.

Module User.
Record t : Type := mk {
  id : Value;
  first_name : Value;
  last_name : Value;
  nickname : Value;
  email : Value;
  birthdate : Value;
  location : Value;
  gender : Value;
  job_title : Value;
  phone : Value;
  created_at : Value;
  posts : list PostMinimal.t
}.
End User.

Module Post.
Record t : Type := mk {
  id : Value;
  author_id : Value;
  title : Value;
  content : Value;
  is_published : Value;
  rating : Value;
  views : Value;
  created_at : Value;
  updated_at : Value;
  author : option UserMinimal.t;
  tags : list TagMinimal.t
}.
End Post.

Module Tag.
Record t : Type := mk {
  id : Value;
  title : Value;
  description : Value;
  created_at : Value;
  posts : list PostMinimal.t
}.
End Tag.

Module UserCreateInput.
Record t : Type := mk {
  first_name : string;
  last_name : string;
  nickname : string;
  email : string;
  password : string;
  birthdate : Z;
  location : option string;
  gender : option string;
  job_title : option string;
  phone : option string
}.
End UserCreateInput.

(** Every field is [Optional[...] = None]: an omitted field and an explicit
    null both read [None]. *)
Module UserUpdateInput.
Record t : Type := mk {
  first_name : option string;
  last_name : option string;
  nickname : option string;
  email : option string;
  password : option string;
  birthdate : option Z;
  location : option string;
  gender : option string;
  job_title : option string;
  phone : option string
}.
End UserUpdateInput.

(** [skip] and [limit] range over the values that [UserSearch] accepts. *)
Module UserSearchInput.
Record t : Type := mk {
  nickname : option string;
  email : option string;
  location : option string;
  job_title : option string;
  include_posts : bool;
  skip : nat;
  limit : nat
}.

(** [UserSearchInput()] *)
Definition default : t := mk None None None None false 0 100.
End UserSearchInput.

Module PostCreateInput.
Record t : Type := mk {
  title : string;
  content : string;
  is_published : bool;
  tag_ids : option (list Z)
}.
End PostCreateInput.

Module PostUpdateInput.
Record t : Type := mk {
  title : option string;
  content : option string;
  is_published : option bool;
  tag_ids : option (list Z)
}.
End PostUpdateInput.

(** [skip] and [limit] range over the values that [PostSearch] accepts. *)
Module PostSearchInput.
Record t : Type := mk {
  title : option string;
  content : option string;
  include_author : bool;
  include_tags : bool;
  skip : nat;
  limit : nat
}.

(** [PostSearchInput()] *)
Definition default : t := mk None None true false 0 100.
End PostSearchInput.

Definition post_minimal (post : Row) : PostMinimal.t :=
  PostMinimal.mk (getattr post "id") (getattr post "author_id")
    (getattr post "title") (getattr post "content")
    (getattr post "is_published") (getattr post "created_at")
    (getattr post "updated_at").

Definition user_response_to_graphql (user_response : UserResponse.t) : User.t :=
  let user := UserResponse.row user_response in
  User.mk (getattr user "id") (getattr user "first_name")
    (getattr user "last_name") (getattr user "nickname")
    (getattr user "email") (getattr user "birthdate")
    (getattr user "location") (getattr user "gender")
    (getattr user "job_title") (getattr user "phone")
    (getattr user "created_at")
    (post_minimal <$> UserResponse.posts user_response).

Definition post_response_to_graphql (post_response : PostResponse.t) : Post.t :=
  let post := PostResponse.row post_response in
  let author :=
    match PostResponse.author post_response with
    | Some author =>
        Some (UserMinimal.mk (getattr author "id") (getattr author "first_name")
                (getattr author "last_name") (getattr author "nickname"))
    | None => None
    end in
  Post.mk (getattr post "id") (getattr post "author_id")
    (getattr post "title") (getattr post "content")
    (getattr post "is_published") (getattr post "rating")
    (getattr post "views") (getattr post "created_at")
    (getattr post "updated_at") author
    ((λ tag, TagMinimal.mk (getattr tag "id") (getattr tag "title")
               (getattr tag "description"))
       <$> PostResponse.tags post_response).

Definition tag_response_to_graphql (tag_response : TagResponse.t) : Tag.t :=
  let tag := TagResponse.row tag_response in
  Tag.mk (getattr tag "id") (getattr tag "title") (getattr tag "description")
    (getattr tag "created_at")
    (post_minimal <$> TagResponse.posts tag_response).

Module Query.

Definition user (user_id : Z) (include_posts : bool) : Endpoint (option User.t) :=
  user_response ← call (db_manager.get_user user_id include_posts);
  match user_response with
  | None => mret None
  | Some user_response => mret (Some (user_response_to_graphql user_response))
  end.

Definition users (search_params : option UserSearchInput.t)
    : Endpoint (list User.t) :=
  let search_params :=
    match search_params with
    | None => UserSearchInput.default
    | Some search_params => search_params
    end in
  let search_obj :=
    UserSearch.mk (UserSearchInput.nickname search_params)
      (UserSearchInput.email search_params)
      (UserSearchInput.location search_params)
      (UserSearchInput.job_title search_params)
      (UserSearchInput.include_posts search_params)
      (UserSearchInput.skip search_params)
      (UserSearchInput.limit search_params) in
  user_responses ← call (db_manager.search_users search_obj);
  mret (user_response_to_graphql <$> user_responses).

Definition post (post_id : Z) (include_author include_tags : bool)
    : Endpoint (option Post.t) :=
  post_response ←
    call (db_manager.get_post post_id include_author include_tags);
  match post_response with
  | None => mret None
  | Some post_response => mret (Some (post_response_to_graphql post_response))
  end.

Definition posts (search_params : option PostSearchInput.t)
    : Endpoint (list Post.t) :=
  let search_params :=
    match search_params with
    | None => PostSearchInput.default
    | Some search_params => search_params
    end in
  let search_obj :=
    PostSearch.mk (PostSearchInput.title search_params)
      (PostSearchInput.content search_params)
      (PostSearchInput.include_author search_params)
      (PostSearchInput.include_tags search_params)
      (PostSearchInput.skip search_params)
      (PostSearchInput.limit search_params) in
  post_responses ← call (db_manager.search_posts search_obj);
  mret (post_response_to_graphql <$> post_responses).

Definition tag (tag_id : Z) (include_posts : bool) : Endpoint (option Tag.t) :=
  tag_response ← call (db_manager.get_tag tag_id include_posts);
  match tag_response with
  | None => mret None
  | Some tag_response => mret (Some (tag_response_to_graphql tag_response))
  end.

Definition tags (include_posts : bool) : Endpoint (list Tag.t) :=
  tag_responses ← call (db_manager.get_all_tags include_posts);
  mret (tag_response_to_graphql <$> tag_responses).

End Query.

Module Mutation.

Definition create_user (user_data : UserCreateInput.t) (now : Z)
    : Endpoint User.t :=
  try_except
    (let user_create :=
       UserCreate.mk (UserCreateInput.first_name user_data)
         (UserCreateInput.last_name user_data)
         (UserCreateInput.nickname user_data)
         (UserCreateInput.email user_data)
         (UserCreateInput.password user_data)
         (UserCreateInput.birthdate user_data)
         (UserCreateInput.location user_data)
         (UserCreateInput.gender user_data)
         (UserCreateInput.job_title user_data)
         (UserCreateInput.phone user_data) in
     user_response ← call (db_manager.create_user user_create now);
     match user_response with
     | None => raise_ (Exception (Literal "Failed to create user"))
     | Some user_response => mret (user_response_to_graphql user_response)
     end)
    (λ e, Exception (Failed "create user" (str e))).

(** [UserUpdate(first_name=user_data.first_name, ...)]: every field of the
    update is passed, hence set, a [None] of the input included. *)
Definition update_user (user_id : Z) (user_data : UserUpdateInput.t) (now : Z)
    : Endpoint (option User.t) :=
  try_except
    (let user_update :=
       UserUpdate.mk (Some (UserUpdateInput.first_name user_data))
         (Some (UserUpdateInput.last_name user_data))
         (Some (UserUpdateInput.nickname user_data))
         (Some (UserUpdateInput.email user_data))
         (Some (UserUpdateInput.password user_data))
         (Some (UserUpdateInput.birthdate user_data))
         (Some (UserUpdateInput.location user_data))
         (Some (UserUpdateInput.gender user_data))
         (Some (UserUpdateInput.job_title user_data))
         (Some (UserUpdateInput.phone user_data)) in
     user_response ← call (db_manager.update_user user_id user_update now);
     match user_response with
     | None => mret None
     | Some user_response =>
         mret (Some (user_response_to_graphql user_response))
     end)
    (λ e, Exception (Failed "update user" (str e))).

Definition delete_user (user_id : Z) : Endpoint bool :=
  call (db_manager.delete_user user_id).

Definition create_post (author_id : Z) (post_data : PostCreateInput.t)
    (now : Z) : Endpoint Post.t :=
  try_except
    (let post_create :=
       PostCreate.mk (PostCreateInput.title post_data)
         (PostCreateInput.content post_data)
         (PostCreateInput.is_published post_data)
         (PostCreateInput.tag_ids post_data) in
     post_response ← call (db_manager.create_post author_id post_create now);
     match post_response with
     | None => raise_ (Exception (NotFound "Author" author_id))
     | Some post_response => mret (post_response_to_graphql post_response)
     end)
    (λ e, if is_ValueError e then Exception (str e)
          else Exception (Failed "create post" (str e))).

Definition update_post (post_id : Z) (post_data : PostUpdateInput.t) (now : Z)
    : Endpoint (option Post.t) :=
  try_except
    (let post_update :=
       PostUpdate.mk (Some (PostUpdateInput.title post_data))
         (Some (PostUpdateInput.content post_data))
         (Some (PostUpdateInput.is_published post_data))
         (Some (PostUpdateInput.tag_ids post_data)) in
     post_response ← call (db_manager.update_post post_id post_update now);
     match post_response with
     | None => mret None
     | Some post_response =>
         mret (Some (post_response_to_graphql post_response))
     end)
    (λ e, if is_ValueError e then Exception (str e)
          else Exception (Failed "update post" (str e))).

Definition delete_post (post_id : Z) : Endpoint bool :=
  call (db_manager.delete_post post_id).

End Mutation.

End graphql_service.

(** ** mcp_service.py *)

(** The tools return [model_dump()] of a response: the snapshot itself
    here. *)
Module mcp_service.

Definition create_user (user_data : UserCreate.t) (now : Z)
    : Endpoint UserResponse.t :=
  try_except
    (user ← call (db_manager.create_user user_data now);
     match user with
     | None => raise_ (Exception (Literal "Failed to create user"))
     | Some user => mret user
     end)
    (λ e, ValueError (Failed "create user" (str e))).

Definition update_user (user_id : Z) (user_data : UserUpdate.t) (now : Z)
    : Endpoint UserResponse.t :=
  try_except
    (user ← call (db_manager.update_user user_id user_data now);
     match user with
     | None => raise_ (Exception (NotFound "User" user_id))
     | Some user => mret user
     end)
    (λ e, ValueError (Failed "update user" (str e))).

Definition delete_user (user_id : Z) : Endpoint Message :=
  success ← call (db_manager.delete_user user_id);
  if negb success
  then raise_ (ValueError (NotFound "User" user_id))
  else mret (Deleted "User" user_id).

Definition search_users (search_params : UserSearch.t)
    : Endpoint (list UserResponse.t) :=
  call (db_manager.search_users search_params).

Definition get_user (user_id : Z) (include_posts : bool)
    : Endpoint UserResponse.t :=
  user ← call (db_manager.get_user user_id include_posts);
  match user with
  | None => raise_ (ValueError (NotFound "User" user_id))
  | Some user => mret user
  end.

Definition create_post (author_id : Z) (post_data : PostCreate.t) (now : Z)
    : Endpoint PostResponse.t :=
  try_except
    (post ← call (db_manager.create_post author_id post_data now);
     match post with
     | None => raise_ (Exception (NotFound "Author" author_id))
     | Some post => mret post
     end)
    (λ e, if is_ValueError e then ValueError (str e)
          else Exception (Failed "create post" (str e))).

Definition update_post (post_id : Z) (post_data : PostUpdate.t) (now : Z)
    : Endpoint PostResponse.t :=
  try_except
    (post ← call (db_manager.update_post post_id post_data now);
     match post with
     | None => raise_ (Exception (NotFound "Post" post_id))
     | Some post => mret post
     end)
    (λ e, if is_ValueError e then ValueError (str e)
          else Exception (Failed "update post" (str e))).

Definition delete_post (post_id : Z) : Endpoint Message :=
  success ← call (db_manager.delete_post post_id);
  if negb success
  then raise_ (ValueError (NotFound "Post" post_id))
  else mret (Deleted "Post" post_id).

Definition search_posts (search_params : PostSearch.t)
    : Endpoint (list PostResponse.t) :=
  call (db_manager.search_posts search_params).

Definition get_post (post_id : Z) (include_author include_tags : bool)
    : Endpoint PostResponse.t :=
  post ← call (db_manager.get_post post_id include_author include_tags);
  match post with
  | None => raise_ (ValueError (NotFound "Post" post_id))
  | Some post => mret post
  end.

Definition get_all_tags (include_posts : bool)
    : Endpoint (list TagResponse.t) :=
  call (db_manager.get_all_tags include_posts).

Definition get_tag (tag_id : Z) (include_posts : bool)
    : Endpoint TagResponse.t :=
  tag ← call (db_manager.get_tag tag_id include_posts);
  match tag with
  | None => raise_ (ValueError (NotFound "Tag" tag_id))
  | Some tag => mret tag
  end.

End mcp_service.

(** No table differs between the two stores (sequences may). *)
Definition same_tables (db db' : Database) : Prop :=
  users db' = users db ∧ posts db' = posts db ∧ tags db' = tags db
  ∧ posts_tags db' = posts_tags db.

(** ** Reset through the services *)

(** Statements run one after the other, none skipped. *)
Fixpoint run_all (execute : string → Session unit) (statements : list string)
    : Session unit :=
  match statements with
  | [] => mret tt
  | statement :: rest => execute statement;; run_all execute rest
  end.

(** [Mutation.reset_database] of graphql_service.py:
    [try: db_manager.reset_database(); return True / except Exception:
    return False]. *)
Definition graphql_reset_database (execute : string → Session unit)
    (sql_script : string) : Endpoint bool :=
  λ db,
    match reset_database execute sql_script db with
    | (Ok _, db') => (Returns true, db')
    | (Raise _, db') => (Returns false, db')
    end.

(** The value under which a row enters the unique index of the column
    [key]: none for NULL, which never collides. *)
Definition index_key (key : string) (r : Row) : option Value :=
  let v := getattr r key in
  if bool_decide (v = VNone) then None else Some v.

(** Unique columns, as models.py declares them ([unique=True] on nickname,
    email and the tag title, and the primary keys): no two rows of a table
    carry the same non-null value there. *)
Definition unique_columns_ok (db : Database) : Prop :=
  ∀ model c, c ∈ columns model → unique c = true →
    NoDup (omap (index_key (col_name c)) (table model db)).

(** ** Tools/testing.py *)

(** The attribute [id] of a response: an integer by the schema. *)
Definition response_id (row : Row) : Z :=
  match getattr row "id" with
  | VInt z => z
  | _ => 0
  end.

Module TestDatabaseManager.

Definition assertTrue (condition : bool) : Endpoint unit :=
  if condition then mret tt else raise_ AssertionError.

Definition assertEqual {A : Type} `{EqDecision A} (first second : A)
    : Endpoint unit :=
  assertTrue (bool_decide (first = second)).

Definition assertGreater (first second : nat) : Endpoint unit :=
  assertTrue (bool_decide (second < first)%nat).

(** [assertIsNotNone(x)]; the test goes on with the value of [x]. *)
Definition assertIsNotNone {A : Type} (x : option A) : Endpoint A :=
  match x with
  | Some a => mret a
  | None => raise_ AssertionError
  end.

Definition assertIsNone {A : Type} (x : option A) : Endpoint unit :=
  match x with
  | Some _ => raise_ AssertionError
  | None => mret tt
  end.

(** [test_tag_operations], on the store that [setUp] leaves. The two
    writes take place at the times [created] and [updated]. *)
Definition test_tag_operations (created updated : Z) : Endpoint unit :=
  let tag_data := TagCreate.mk "TestTag" (Some "Test tag description") in
  tag ← call (create_tag tag_data created);
  tag ← assertIsNotNone (Some tag);
  assertEqual (getattr (TagResponse.row tag) "title") (VStr "TestTag");;
  let tag_id := response_id (TagResponse.row tag) in
  retrieved_tag ← call (get_tag tag_id true);
  retrieved_tag ← assertIsNotNone retrieved_tag;
  assertEqual (getattr (TagResponse.row retrieved_tag) "description")
    (VStr "Test tag description");;
  tag_with_posts ← call (get_tag tag_id true);
  tag_with_posts ← assertIsNotNone tag_with_posts;
  assertEqual (length (TagResponse.posts tag_with_posts)) 0%nat;;
  let update_data :=
    TagUpdate.mk None (Some (Some "Updated test tag description")) in
  updated_tag ← call (update_tag tag_id update_data updated);
  updated_tag ← assertIsNotNone updated_tag;
  assertEqual (getattr (TagResponse.row updated_tag) "description")
    (VStr "Updated test tag description");;
  all_tags ← call (get_all_tags true);
  assertGreater (length all_tags) 0%nat;;
  deleted ← call (delete_tag tag_id);
  assertTrue deleted;;
  gone ← call (get_tag tag_id true);
  assertIsNone gone.

(** [test_user_operations], on the store that [setUp] leaves. The two
    writes take place at the times [created] and [updated];
    [include_posts] is the default of that flag in [UserSearch], whose
    [skip] and [limit] default to 0 and 100. *)
Definition test_user_operations (created updated : Z) (include_posts : bool)
    : Endpoint unit :=
  let user_data :=
    UserCreate.mk "Test" "User" "testuser" "test@example.com" "testpass123"
      726468 (Some "Test City") (Some "Other") (Some "Tester")
      (Some "+1-555-0123") in
  user ← call (create_user user_data created);
  user ← assertIsNotNone user;
  assertEqual (getattr (UserResponse.row user) "email")
    (VStr "test@example.com");;
  let user_id := response_id (UserResponse.row user) in
  retrieved_user ← call (get_user user_id true);
  retrieved_user ← assertIsNotNone retrieved_user;
  assertEqual
    (getattr (UserResponse.row retrieved_user) "nickname") (VStr "testuser");;
  user_with_posts ← call (get_user user_id true);
  user_with_posts ← assertIsNotNone user_with_posts;
  assertEqual
    (length (UserResponse.posts user_with_posts)) 0%nat;;
  let update_data :=
    UserUpdate.mk None None None None None None
      (Some (Some "New Test City")) None (Some (Some "Senior Tester")) None in
  updated_user ← call (update_user user_id update_data updated);
  updated_user ← assertIsNotNone updated_user;
  assertEqual
    (getattr (UserResponse.row updated_user) "job_title")
    (VStr "Senior Tester");;
  let search_params :=
    UserSearch.mk None None None (Some "Tester") include_posts 0 100 in
  found_users ← call (search_users search_params);
  assertGreater (length found_users) 0%nat;;
  let search_with_pagination :=
    UserSearch.mk None None None (Some "Tester") include_posts 0 1 in
  paginated_users ← call (search_users search_with_pagination);
  assertEqual (length paginated_users) 1%nat;;
  deleted ← call (delete_user user_id);
  assertTrue deleted;;
  gone ← call (get_user user_id true);
  assertIsNone gone.

End TestDatabaseManager.

(** * Properties *)

(** Closed decidable facts are settled by evaluation. *)
Ltac by_computation := apply (bool_decide_unpack _); vm_compute; exact I.

(** ** The session monad and lookups by identifier *)

Lemma filter_nil_iff {A : Type} (P : A → Prop) `{∀ x, Decision (P x)}
    (l : list A) :
  filter P l = [] ↔ ∀ x, x ∈ l → ¬ P x.
Proof.
  split.
  - intros Hnil x Hx HP.
    assert (Hin : x ∈ filter P l) by (apply list_elem_of_filter; done).
    rewrite Hnil in Hin. by apply not_elem_of_nil in Hin.
  - intros Hall. induction l as [|a l IH]; [done|].
    rewrite filter_cons. destruct (decide (P a)) as [HP|HP].
    + exfalso. apply (Hall a); [left|done].
    + apply IH. intros x Hx. apply Hall. by right.
Qed.

Lemma head_filter_None (model : Model) (id : Z) (db : Database) :
  ¬ resolves model id db →
  head (filter (λ r, row_id r = Some id) (table model db)) = None.
Proof.
  intros Hno.
  replace (filter (λ r, row_id r = Some id) (table model db)) with (@nil Row);
    [done|].
  symmetry. apply filter_nil_iff. intros r Hr Hid. apply Hno.
  apply Exists_exists. by exists r.
Qed.

Lemma head_filter_Some (model : Model) (id : Z) (db : Database) :
  resolves model id db →
  ∃ r, head (filter (λ r, row_id r = Some id) (table model db)) = Some r
       ∧ r ∈ table model db ∧ row_id r = Some id.
Proof.
  intros (r & Hr & Hid)%Exists_exists.
  destruct (filter (λ r, row_id r = Some id) (table model db)) as [|r' l] eqn:E.
  - exfalso. eapply filter_nil_iff in E; [by apply E|done].
  - exists r'. split; [done|].
    assert (Hin : r' ∈ filter (λ r, row_id r = Some id) (table model db))
      by (rewrite E; left).
    by apply list_elem_of_filter in Hin as [? ?].
Qed.

Lemma head_filter_resolves (model : Model) (id : Z) (db : Database) (r : Row) :
  head (filter (λ r, row_id r = Some id) (table model db)) = Some r →
  r ∈ table model db ∧ row_id r = Some id.
Proof.
  intros Hh.
  destruct (filter (λ r, row_id r = Some id) (table model db)) as [|r' l] eqn:E;
    [done|].
  simpl in Hh. injection Hh as ->.
  assert (Hin : r ∈ filter (λ r, row_id r = Some id) (table model db))
    by (rewrite E; left).
  by apply list_elem_of_filter in Hin as [? ?].
Qed.

(** ** Creating a post for an unknown author *)

(** C9. A [create_post] call whose [author_id] resolves to no user returns
    the absence indicator (no exception, and no tags-not-found error
    whatever the tag ids are) and leaves the store as it was. *)
Theorem create_post_unknown_author
    (author_id : Z) (post_data : PostCreate.t) (now : Z) (db : Database) :
  ¬ resolves User author_id db →
  create_post author_id post_data now db = (Ok None, db).
Proof.
  intros Hno.
  unfold create_post, get_session, mbind, Session_bind, _get_by_id.
  by rewrite (head_filter_None User author_id db Hno).
Qed.

(** ** Empty-string filters *)

(** C10. In [search_users] and [search_posts] a text filter that is provided
    but equal to the empty string behaves exactly like an absent one: the two
    calls return the same result on every store. *)
Theorem search_empty_filter_is_absent (db : Database)
    (n e l j : option string) (t c : option string)
    (include_posts include_author include_tags : bool) (skip limit : nat) :
  search_users (UserSearch.mk (Some "") e l j include_posts skip limit) db
  = search_users (UserSearch.mk None e l j include_posts skip limit) db
  ∧ search_users (UserSearch.mk n (Some "") l j include_posts skip limit) db
    = search_users (UserSearch.mk n None l j include_posts skip limit) db
  ∧ search_users (UserSearch.mk n e (Some "") j include_posts skip limit) db
    = search_users (UserSearch.mk n e None j include_posts skip limit) db
  ∧ search_users (UserSearch.mk n e l (Some "") include_posts skip limit) db
    = search_users (UserSearch.mk n e l None include_posts skip limit) db
  ∧ search_posts (PostSearch.mk (Some "") c include_author include_tags skip limit) db
    = search_posts (PostSearch.mk None c include_author include_tags skip limit) db
  ∧ search_posts (PostSearch.mk t (Some "") include_author include_tags skip limit) db
    = search_posts (PostSearch.mk t None include_author include_tags skip limit) db.
Proof.
  unfold search_users, search_posts, user_filters, post_filters; simpl.
  repeat split; reflexivity.
Qed.

(** ** Unknown identifiers in update and delete *)

Lemma delete_rows_not_resolves (model : Model) (id : Z) (db : Database) :
  ¬ resolves model id (delete_rows model id db).
Proof.
  intros (r & Hr & Hid)%Exists_exists.
  destruct model; simpl in Hr;
    apply list_elem_of_filter in Hr as [Hne _]; done.
Qed.

Section ByIdentifier.
Context (model : Model) (id : Z) (db : Database).

Lemma get_by_id_unknown :
  ¬ resolves model id db → _get_by_id model id db = (Ok None, db).
Proof. intros H. unfold _get_by_id. by rewrite head_filter_None. Qed.

Lemma get_by_id_known :
  resolves model id db →
  ∃ r, _get_by_id model id db = (Ok (Some r), db)
       ∧ r ∈ table model db ∧ row_id r = Some id.
Proof.
  intros (r & Hh & Hr)%head_filter_Some. exists r. unfold _get_by_id.
  by rewrite Hh.
Qed.

End ByIdentifier.

(** The three delete methods share one shape. *)
Lemma delete_shape (model : Model) (id : Z) (db : Database) :
  get_session (
    found ← _get_by_id model id;
    match found with
    | Some _ => _delete model id;; mret true
    | None => mret false
    end) db
  = if bool_decide (resolves model id db)
    then (Ok true, delete_rows model id db)
    else (Ok false, db).
Proof.
  unfold get_session, mbind, Session_bind. case_bool_decide as Hres.
  - destruct (get_by_id_known model id db Hres) as (r & -> & _). done.
  - by rewrite (get_by_id_unknown model id db Hres).
Qed.

(** C6. When the identifier resolves to no row, the three update methods
    return the absence indicator and the three delete methods return
    [false], without raising and without touching the store; and a delete
    method returns [true] only when a row with that identifier existed
    before the call and none exists after it. *)
Theorem update_delete_unknown_id (id : Z) (db : Database) (now : Z)
    (user_data : UserUpdate.t) (post_data : PostUpdate.t)
    (tag_data : TagUpdate.t) :
  (¬ resolves User id db →
     update_user id user_data now db = (Ok None, db)
     ∧ delete_user id db = (Ok false, db))
  ∧ (¬ resolves Post id db →
     update_post id post_data now db = (Ok None, db)
     ∧ delete_post id db = (Ok false, db))
  ∧ (¬ resolves Tag id db →
     update_tag id tag_data now db = (Ok None, db)
     ∧ delete_tag id db = (Ok false, db))
  ∧ (∀ db', delete_user id db = (Ok true, db') →
       resolves User id db ∧ ¬ resolves User id db')
  ∧ (∀ db', delete_post id db = (Ok true, db') →
       resolves Post id db ∧ ¬ resolves Post id db')
  ∧ (∀ db', delete_tag id db = (Ok true, db') →
       resolves Tag id db ∧ ¬ resolves Tag id db').
Proof.
  assert (Hdel : ∀ model db',
    (if bool_decide (resolves model id db)
     then (Ok true, delete_rows model id db) else (Ok false, db))
    = (Ok true, db') →
    resolves model id db ∧ ¬ resolves model id db').
  { intros model db' Heq. case_bool_decide; [|done].
    injection Heq as <-. split; [done|]. apply delete_rows_not_resolves. }
  unfold delete_user, delete_post, delete_tag. rewrite !delete_shape.
  repeat split.
  - unfold update_user, get_session, mbind, Session_bind.
    by rewrite (get_by_id_unknown User id db).
  - by rewrite bool_decide_eq_false_2.
  - unfold update_post, get_session, mbind, Session_bind.
    by rewrite (get_by_id_unknown Post id db).
  - by rewrite bool_decide_eq_false_2.
  - unfold update_tag, get_session, mbind, Session_bind.
    by rewrite (get_by_id_unknown Tag id db).
  - by rewrite bool_decide_eq_false_2.
  - by eapply Hdel.
  - by eapply Hdel.
  - by eapply Hdel.
  - by eapply Hdel.
  - by eapply Hdel.
  - by eapply Hdel.
Qed.

(** ** Cascading delete of a user *)

Lemma delete_posts_fold (l : list Z) (db : Database) :
  let db' := foldl (λ d pid, delete_post_rows pid d) db l in
  users db' = users db
  ∧ tags db' = tags db
  ∧ (∀ r, r ∈ posts db' ↔ r ∈ posts db ∧ ∀ pid, pid ∈ l → row_id r ≠ Some pid)
  ∧ (∀ a, a ∈ posts_tags db' ↔
          a ∈ posts_tags db ∧ ∀ pid, pid ∈ l → pt_post_id a ≠ pid).
Proof.
  revert db. induction l as [|pid l IH]; intros db; simpl.
  - split; [done|]. split; [done|].
    split; intros x; (split; [intros Hx; split; [done|]|by intros [? _]]);
      intros q Hq; by apply not_elem_of_nil in Hq.
  - destruct (IH (delete_post_rows pid db)) as (Hu & Ht & Hp & Ha).
    split; [by rewrite Hu|]. split; [by rewrite Ht|]. split.
    + intros r. rewrite Hp. simpl. rewrite list_elem_of_filter. split.
      * intros [[Hne Hin] Hall]. split; [done|].
        intros q [->|Hq]%elem_of_cons; [done|by apply Hall].
      * intros [Hin Hall]. split; [split; [apply Hall; left|done]|].
        intros q Hq. apply Hall. by right.
    + intros a. rewrite Ha. simpl. rewrite list_elem_of_filter. split.
      * intros [[Hne Hin] Hall]. split; [done|].
        intros q [->|Hq]%elem_of_cons; [done|by apply Hall].
      * intros [Hin Hall]. split; [split; [apply Hall; left|done]|].
        intros q Hq. apply Hall. by right.
Qed.

(** C7. For a user U that exists and a post P authored by U, [delete_user]
    returns [true], after which [get_post] of P returns the absence
    indicator; no post authored by U remains, nor any association row of P. *)
Theorem delete_user_cascades (db : Database) (user_id post_id : Z) (P : Row)
    (include_author include_tags : bool) :
  resolves User user_id db →
  P ∈ posts db →
  row_id P = Some post_id →
  getattr P "author_id" = VInt user_id →
  ∃ db',
    delete_user user_id db = (Ok true, db')
    ∧ get_post post_id include_author include_tags db' = (Ok None, db')
    ∧ (∀ p, p ∈ posts db' → getattr p "author_id" ≠ VInt user_id)
    ∧ (∀ a, a ∈ posts_tags db' → pt_post_id a ≠ post_id).
Proof.
  intros Hres HP Hid Hauthor.
  exists (delete_rows User user_id db).
  unfold delete_user. rewrite delete_shape, bool_decide_eq_true_2 by done.
  split; [done|].
  set (l := omap row_id
              (filter (λ p, getattr p "author_id" = VInt user_id) (posts db))).
  assert (Hl : post_id ∈ l).
  { apply list_elem_of_omap. exists P. split; [|done].
    by apply list_elem_of_filter. }
  destruct (delete_posts_fold l db) as (Hu & Ht & Hp & Ha).
  assert (Hgone : ∀ r, r ∈ posts (delete_rows User user_id db) →
                       row_id r ≠ Some post_id
                       ∧ getattr r "author_id" ≠ VInt user_id).
  { intros r Hr. simpl in Hr. apply list_elem_of_filter in Hr as [Hne Hr].
    fold l in Hr. apply Hp in Hr as [_ Hall]. split; [by apply Hall|done]. }
  repeat split.
  - unfold get_post, get_session, mbind, Session_bind, get_state.
    replace (filter (λ r, row_id r = Some post_id)
               (posts (delete_rows User user_id db))) with (@nil Row); [done|].
    symmetry. apply filter_nil_iff. intros r Hr. by apply Hgone.
  - intros p Hp'. by apply Hgone.
  - intros a Hin. simpl in Hin. fold l in Hin. apply Ha in Hin as [_ Hall].
    by apply Hall.
Qed.

(** ** Resolving tag identifiers *)

Lemma id_in_spec (ids : list Z) (t : Row) :
  id_in ids t ↔ ∃ z, row_id t = Some z ∧ z ∈ ids.
Proof.
  unfold id_in. destruct (row_id t) as [z|].
  - rewrite bool_decide_spec. split; [by exists z|].
    by intros (z' & [= <-] & ?).
  - split; [done|]. by intros (? & ? & ?).
Qed.

Lemma omap_filter_NoDup {A B : Type} (f : A → option B) (P : A → Prop)
    `{∀ x, Decision (P x)} (l : list A) :
  NoDup (omap f l) → NoDup (omap f (filter P l)).
Proof.
  induction l as [|a l IH]; [done|].
  rewrite filter_cons. simpl. destruct (decide (P a)); simpl.
  - destruct (f a) as [b|]; [|done].
    intros [Hb Hnd]%NoDup_cons. apply NoDup_cons. split; [|by apply IH].
    intros (x & [_ Hx]%list_elem_of_filter & Hfx)%list_elem_of_omap.
    apply Hb. apply list_elem_of_omap. by exists x.
  - destruct (f a) as [b|]; [|done].
    intros [_ Hnd]%NoDup_cons. by apply IH.
Qed.

Lemma omap_length_total {A B : Type} (f : A → option B) (l : list A) :
  (∀ x, x ∈ l → is_Some (f x)) → length (omap f l) = length l.
Proof.
  induction l as [|a l IH]; [done|]. intros Hall. simpl.
  destruct (Hall a) as [b ->]; [left|]. simpl. f_equal. apply IH.
  intros x Hx. apply Hall. by right.
Qed.

Lemma remove_dups_length (k : list Z) :
  (length (remove_dups k) ≤ length k)%nat
  ∧ (¬ NoDup k → (length (remove_dups k) < length k)%nat).
Proof.
  induction k as [|x k [IHle IHlt]]; simpl.
  - split; [lia|]. intros H. destruct H. constructor.
  - destruct (decide_rel elem_of x k) as [Hin|Hin]; simpl.
    + split; lia.
    + split; [lia|]. intros Hnd.
      assert (¬ NoDup k) by (intros ?; apply Hnd; by constructor).
      specialize (IHlt ltac:(done)). lia.
Qed.

Lemma fewer_when_missing (l k : list Z) (x : Z) :
  NoDup l → (∀ z, z ∈ l → z ∈ k) → x ∈ k → x ∉ l →
  (length l < length k)%nat.
Proof.
  intros Hnd Hsub Hx Hnot.
  assert (Hle : x :: l ⊆+ k).
  { apply NoDup_submseteq; [by constructor|].
    intros z [->|?]%elem_of_cons; [done|by apply Hsub]. }
  apply submseteq_length in Hle. simpl in Hle. lia.
Qed.

Lemma fewer_when_repeated (l k : list Z) :
  NoDup l → (∀ z, z ∈ l → z ∈ k) → ¬ NoDup k →
  (length l < length k)%nat.
Proof.
  intros Hnd Hsub Hdup.
  assert (Hle : l ⊆+ remove_dups k).
  { apply NoDup_submseteq; [done|].
    intros z Hz. apply elem_of_remove_dups. by apply Hsub. }
  apply submseteq_length in Hle.
  destruct (remove_dups_length k) as [_ Hlt]. specialize (Hlt Hdup). lia.
Qed.

Section ResolveTags.
Context (db : Database) (tag_ids : list Z).
Hypothesis Hpk : primary_key_ok Tag db.

Let found : list Row := filter (λ t, id_in tag_ids t) (tags db).

Lemma found_ids_elem (z : Z) :
  z ∈ omap row_id found ↔ z ∈ tag_ids ∧ resolves Tag z db.
Proof.
  rewrite list_elem_of_omap. unfold resolves. rewrite Exists_exists. split.
  - intros (t & [Hin Ht]%list_elem_of_filter & Hid).
    apply id_in_spec in Hin as (z' & Hid' & Hz').
    assert (z' = z) as -> by congruence. split; [done|]. by exists t.
  - intros (Hz & t & Ht & Hid). exists t. split; [|done].
    apply list_elem_of_filter. split; [|done].
    apply id_in_spec. by exists z.
Qed.

Lemma found_ids_NoDup : NoDup (omap row_id found).
Proof. by apply omap_filter_NoDup. Qed.

Lemma found_ids_length : length (omap row_id found) = length found.
Proof.
  apply omap_length_total.
  intros t [Hin _]%list_elem_of_filter.
  apply id_in_spec in Hin as (z & -> & _). by exists z.
Qed.

(** An unknown identifier in the list makes the length check fail, and the
    reported set is the set of unknown identifiers of the list. *)
Lemma resolve_tags_unknown :
  (∃ z, z ∈ tag_ids ∧ ¬ resolves Tag z db) →
  ∃ missing,
    resolve_tags tag_ids db = (Raise (TagsNotFound missing), db)
    ∧ ∀ z, z ∈ missing ↔ z ∈ tag_ids ∧ ¬ resolves Tag z db.
Proof.
  intros (x & Hx & Hno).
  exists (list_to_set tag_ids ∖ list_to_set (omap row_id found)).
  split.
  - unfold resolve_tags, mbind, Session_bind, get_state. fold found.
    rewrite bool_decide_eq_true_2; [done|].
    rewrite <- found_ids_length.
    assert ((length (omap row_id found) < length tag_ids)%nat); [|lia].
    apply (fewer_when_missing _ _ x); [apply found_ids_NoDup| |done|].
    + intros z Hz. by apply found_ids_elem in Hz as [? _].
    + intros Hz. by apply found_ids_elem in Hz as [_ ?].
  - intros z. rewrite elem_of_difference, !elem_of_list_to_set, found_ids_elem.
    split; [|intros [? ?]; split; [done|tauto]].
    intros [Hz Hnot]. split; [done|]. intros Hres. by apply Hnot.
Qed.

(** A repeated identifier makes the length check fail even though nothing is
    missing. *)
Lemma resolve_tags_repeated :
  ¬ NoDup tag_ids → (∀ z, z ∈ tag_ids → resolves Tag z db) →
  resolve_tags tag_ids db = (Raise (TagsNotFound ∅), db).
Proof.
  intros Hdup Hall.
  unfold resolve_tags, mbind, Session_bind, get_state. fold found.
  rewrite bool_decide_eq_true_2.
  - unfold raise.
    replace (list_to_set tag_ids ∖ list_to_set (omap row_id found))
      with (∅ : gset Z); [done|].
    symmetry. apply set_eq. intros z.
    rewrite elem_of_difference, !elem_of_list_to_set, found_ids_elem.
    split; [|set_solver]. intros [Hz Hnot]. exfalso. apply Hnot. auto.
  - rewrite <- found_ids_length.
    assert ((length (omap row_id found) < length tag_ids)%nat); [|lia].
    apply fewer_when_repeated; [apply found_ids_NoDup| |done].
    intros z Hz. by apply found_ids_elem in Hz as [? _].
Qed.


End ResolveTags.

(** ** Unknown and repeated tag identifiers *)

Lemma rollback_same (db : Database) : rollback db db = db.
Proof. by destruct db. Qed.

(** C1, as amended. For every [create_post] call whose author exists and
    whose tag-identifier list contains at least one id that names no existing
    tag, the call raises the tags-not-found error, the store is left exactly
    as it was (no post row, no association row), and the reported set is
    exactly the set of ids of the list that name no existing tag. *)
Theorem create_post_unknown_tags (db : Database) (author_id : Z)
    (post_data : PostCreate.t) (now : Z) (tag_ids : list Z) :
  resolves User author_id db →
  primary_key_ok Tag db →
  PostCreate.tag_ids post_data = Some tag_ids →
  (∃ z, z ∈ tag_ids ∧ ¬ resolves Tag z db) →
  ∃ missing,
    create_post author_id post_data now db = (Raise (TagsNotFound missing), db)
    ∧ ∀ z, z ∈ missing ↔ z ∈ tag_ids ∧ ¬ resolves Tag z db.
Proof.
  intros Hauthor Hpk Htags Hunknown.
  destruct (resolve_tags_unknown db tag_ids Hpk Hunknown) as (missing & Hres & Hm).
  exists missing. split; [|done].
  destruct (get_by_id_known User author_id db Hauthor) as (u & Hget & _).
  unfold create_post, get_session, mbind, Session_bind at 1.
  rewrite Hget, Htags.
  destruct tag_ids as [|z0 ids].
  { destruct Hunknown as (z & Hz & _). by apply not_elem_of_nil in Hz. }
  unfold mbind, Session_bind. rewrite Hres. by rewrite rollback_same.
Qed.

(** C8, as amended. When the supplied tag-identifier list repeats an id and
    all its ids name existing tags, [create_post] for an existing author and
    [update_post] of an existing post raise the tags-not-found error with an
    empty set of missing ids, and the store is left as it was. *)
Theorem repeated_tag_ids_rejected (db : Database) (now : Z) (tag_ids : list Z) :
  primary_key_ok Tag db →
  ¬ NoDup tag_ids →
  (∀ z, z ∈ tag_ids → resolves Tag z db) →
  (∀ author_id post_data,
     resolves User author_id db →
     PostCreate.tag_ids post_data = Some tag_ids →
     create_post author_id post_data now db = (Raise (TagsNotFound ∅), db))
  ∧ (∀ post_id post_data,
       resolves Post post_id db →
       PostUpdate.tag_ids post_data = Some (Some tag_ids) →
       update_post post_id post_data now db = (Raise (TagsNotFound ∅), db)).
Proof.
  intros Hpk Hdup Hall.
  pose proof (resolve_tags_repeated db tag_ids Hpk Hdup Hall) as Hres.
  split.
  - intros author_id post_data Hauthor Htags.
    destruct (get_by_id_known User author_id db Hauthor) as (u & Hget & _).
    unfold create_post, get_session, mbind, Session_bind at 1.
    rewrite Hget, Htags.
    destruct tag_ids as [|z0 ids]; [destruct Hdup; constructor|].
    unfold mbind, Session_bind. rewrite Hres. by rewrite rollback_same.
  - intros post_id post_data Hpost Htags.
    destruct (get_by_id_known Post post_id db Hpost) as (p & Hget & _).
    unfold update_post, get_session, mbind, Session_bind at 1.
    rewrite Hget, Htags.
    unfold mbind, Session_bind. rewrite Hres. by rewrite rollback_same.
Qed.

(** Steps of the session monad. *)
Tactic Notation "session_steps" :=
  unfold mbind, Session_bind, mret, Session_ret, get_state, put_state, raise;
  cbv beta iota.
Tactic Notation "session_steps" "in" hyp(H) :=
  unfold mbind, Session_bind, mret, Session_ret, get_state, put_state, raise in H;
  cbv beta iota in H.

(** ** Partial updates *)

Lemma update_attrs_cons (model : Model) (old : Row) (k : string) (v : Value)
    (data : list (string * Value)) :
  update_attrs model old ((k, v) :: data)
  = update_attrs model (if hasattr model k then setattr old k v else old) data.
Proof. reflexivity. Qed.

Lemma update_attrs_other (model : Model) (data : list (string * Value))
    (old : Row) (k : string) :
  k ∉ data.*1 → update_attrs model old data !! k = old !! k.
Proof.
  revert old. induction data as [|[k' v'] data IH]; intros old Hk; [done|].
  apply not_elem_of_cons in Hk as [Hne Hk]. simpl in Hne.
  rewrite update_attrs_cons, IH by done.
  destruct (hasattr model k'); [|done].
  unfold setattr. by rewrite lookup_insert_ne.
Qed.

Lemma update_attrs_set (model : Model) (data : list (string * Value))
    (old : Row) (k : string) (v : Value) :
  NoDup data.*1 → (k, v) ∈ data → hasattr model k →
  update_attrs model old data !! k = Some v.
Proof.
  revert old. induction data as [|[k' v'] data IH]; intros old Hnd Hin Hattr.
  { by apply not_elem_of_nil in Hin. }
  apply NoDup_cons in Hnd as [Hfresh Hnd].
  rewrite update_attrs_cons.
  apply elem_of_cons in Hin as [[= <- <-]|Hin].
  - rewrite update_attrs_other by done.
    destruct (hasattr model k); [|done].
    unfold setattr. by rewrite lookup_insert_eq.
  - by apply IH.
Qed.

Lemma getattr_lookup (r r' : Row) (k : string) :
  r !! k = r' !! k → getattr r k = getattr r' k.
Proof. unfold getattr. by intros ->. Qed.

Lemma refresh_other (now : Z) (names : list string) (cols : list Column)
    (r : Row) (k : string) :
  k ∉ col_name <$> filter (λ c, onupdate c) cols →
  foldl (λ r c, if onupdate c && bool_decide (col_name c ∉ names)
                then setattr r (col_name c) (VDateTime now) else r) r cols
    !! k = r !! k.
Proof.
  revert r. induction cols as [|c cols IH]; intros r Hk; [done|].
  simpl. destruct (onupdate c) eqn:Hc; simpl.
  - rewrite filter_cons_True in Hk by (by rewrite Hc).
    rewrite fmap_cons in Hk. apply not_elem_of_cons in Hk as [Hne Hk].
    rewrite IH by done. case_bool_decide; [|done].
    unfold setattr. by rewrite lookup_insert_ne.
  - rewrite filter_cons_False in Hk by (rewrite Hc; intros []). by rewrite IH.
Qed.

Lemma table_set_table (model : Model) (rows : list Row) (db : Database) :
  table model (set_table model rows db) = rows.
Proof. by destruct model. Qed.

Lemma stored_replaced (id : Z) (row : Row) (rows : list Row) :
  row_id row = Some id →
  is_Some (head (filter (λ r, row_id r = Some id) rows)) →
  head (filter (λ r, row_id r = Some id)
          ((λ r, if bool_decide (row_id r = Some id) then row else r) <$> rows))
  = Some row.
Proof.
  intros Hrow. induction rows as [|r rows IH]; [by intros [? ?]|].
  rewrite fmap_cons, !filter_cons. case_bool_decide as Hr.
  - rewrite !decide_True by done. done.
  - rewrite !decide_False by done. apply IH.
Qed.

Lemma omap_row_id_replaced (id : Z) (row : Row) (rows : list Row) :
  row_id row = Some id →
  omap row_id
    ((λ r, if bool_decide (row_id r = Some id) then row else r) <$> rows)
  = omap row_id rows.
Proof.
  intros Hrow. apply list_omap_ext, Forall2_fmap_l, Forall_Forall2_diag.
  apply Forall_forall. intros r _. simpl. case_bool_decide as Hr; [|done].
  by rewrite Hrow, Hr.
Qed.

Lemma id_not_refreshed (model : Model) : "id" ∉ onupdate_names model.
Proof. destruct model; by_computation. Qed.

Lemma check_columns_error (model : Model) (cols : list Column) (obj : Row)
    (others : list Row) (db : Database) (e : Error) :
  check_columns model cols obj others db = Raise e →
  e = DataError ∨ e = IntegrityError.
Proof.
  unfold check_columns.
  repeat match goal with
         | |- (if ?b then _ else _) = _ → _ => destruct b
         end; intros [= <-]; auto.
Qed.

Lemma check_columns_accepts (model : Model) (cols : list Column) (obj : Row)
    (others : list Row) (db : Database) :
  (∀ c, c ∈ cols →
        type_ok (col_type c) (getattr obj (col_name c))
        ∧ not_null_ok c (getattr obj (col_name c))
        ∧ unique_ok c (getattr obj (col_name c)) others) →
  foreign_keys_ok model cols obj db →
  check_columns model cols obj others db = Ok tt.
Proof.
  intros Hall Hfk. unfold check_columns.
  assert (Hforall : ∀ f : Column → bool,
            (∀ c, c ∈ cols → f c) → forallb f cols = true).
  { intros f Hf. apply Is_true_true, forallb_True, Forall_forall, Hf. }
  rewrite !Hforall; simpl.
  - by apply Is_true_true in Hfk as ->.
  - intros c Hc. by apply Hall.
  - intros c Hc. by apply Hall.
  - intros c Hc. by apply Hall.
Qed.

Section Update.
Context (model : Model) (id : Z) (old : Row) (data : list (string * Value))
  (now : Z) (db : Database).
Hypothesis Hold : stored model id db = Some old.
Hypothesis Hkeys : NoDup data.*1.
Hypothesis Hcols :
  ∀ k, k ∈ data.*1 →
       hasattr model k ∧ (k ∉ onupdate_names model)
       ∧ k ≠ "id" ∧ k ≠ "author_id".

Let new : Row := update_attrs model old data.

Lemma new_supplied (k : string) (v : Value) :
  (k, v) ∈ data → getattr new k = v.
Proof.
  intros Hin. unfold getattr, new.
  rewrite (update_attrs_set model data old k v); [done|done|done|].
  apply Hcols. apply list_elem_of_fmap. by exists (k, v).
Qed.

Lemma new_omitted (k : string) : k ∉ data.*1 → getattr new k = getattr old k.
Proof. intros Hk. apply getattr_lookup. by apply update_attrs_other. Qed.

Lemma old_id : row_id old = Some id.
Proof.
  unfold stored in Hold.
  assert (Hin : old ∈ filter (λ r, row_id r = Some id) (table model db)).
  { destruct (filter _ _) as [|r l]; [done|]. injection Hold as ->. left. }
  by apply list_elem_of_filter in Hin as [? _].
Qed.

(** [_update] either writes the row (and then the stored record is the
    partial update of the old one, and only the table of the model changes),
    or raises a store error, which needs a supplied value that the store does
    not accept, and leaves the store alone. *)
Lemma update_cases :
  (∃ row db' after,
     _update model id old data now db = (Ok row, db')
     ∧ stored model id db' = Some after
     ∧ partial_update model data old after
     ∧ (∀ k, k ∈ column_names model → getattr row k = getattr after k)
     ∧ (∃ rows, db' = set_table model rows db
                ∧ omap row_id rows = omap row_id (table model db))
     ∧ (data = [] → db' = db))
  ∨ (∃ e,
       _update model id old data now db = (Raise e, db)
       ∧ (e = DataError ∨ e = IntegrityError)
       ∧ ¬ (∀ k v, (k, v) ∈ data → accepts model id db k v)).
Proof.
  unfold _update, flush_update. fold new.
  set (changed := filter (λ c, getattr new (col_name c) ≠ getattr old (col_name c))
                    (columns model)).
  destruct changed as [|c0 changed'] eqn:Echanged.
  - (* nothing to write *)
    left. exists new, db, old. split; [done|]. split; [done|].
    assert (Hsame : ∀ k, k ∈ column_names model → getattr new k = getattr old k).
    { intros k (c & -> & Hc)%list_elem_of_fmap.
      destruct (decide (getattr new (col_name c) = getattr old (col_name c)))
        as [|Hne]; [done|].
      exfalso. eapply (filter_nil_iff _ (columns model)); [exact Echanged|done|done]. }
    split; [split|].
    + intros k v Hin. rewrite <- Hsame; [by apply new_supplied|].
      assert (Hattr : hasattr model k).
      { apply Hcols. apply list_elem_of_fmap. by exists (k, v). }
      by apply bool_decide_unpack in Hattr.
    + done.
    + split; [done|]. split; [|done]. exists (table model db).
      split; [by destruct model, db|done].
  - (* UPDATE of the changed columns *)
    rewrite <- Echanged.
    set (row := foldl _ new (columns model)).
    assert (Hrow : ∀ k, k ∉ onupdate_names model → row !! k = new !! k).
    { intros k Hk. by apply refresh_other. }
    assert (Hchanged : ∀ c, c ∈ changed → col_name c ∈ data.*1).
    { intros c [Hne _]%list_elem_of_filter.
      destruct (decide (col_name c ∈ data.*1)) as [|Hno]; [done|].
      by apply new_omitted in Hno. }
    destruct (check_columns model changed row _ db) as [[]|e] eqn:Echeck.
    + left. eexists row, _, row. split; [done|].
      assert (Hid : row_id row = Some id).
      { unfold row_id. rewrite Hrow by apply id_not_refreshed.
        unfold new. rewrite update_attrs_other; [apply old_id|].
        intros Hin. by apply Hcols in Hin as (_ & _ & ? & _). }
      split.
      { unfold stored. rewrite table_set_table.
        apply stored_replaced; [done|]. unfold stored in Hold. by rewrite Hold. }
      split; [split|].
      * intros k v Hin. rewrite <- (new_supplied k v Hin).
        apply getattr_lookup, Hrow, Hcols, list_elem_of_fmap. by exists (k, v).
      * intros k Hk Hup. rewrite <- new_omitted by done.
        by apply getattr_lookup, Hrow.
      * split; [done|]. split; [eexists; split; [done|by apply omap_row_id_replaced]|].
        intros Hd. exfalso.
        assert (Hc0 : c0 ∈ changed) by (rewrite Echanged; left).
        apply list_elem_of_filter in Hc0 as [Hne _].
        unfold new in Hne. rewrite Hd in Hne. by apply Hne.
    + right. exists e. split; [done|].
      split; [by apply check_columns_error in Echeck|].
      intros Hall. rewrite check_columns_accepts in Echeck; [done| |].
      * intros c Hc. pose proof (Hchanged c Hc) as Hk.
        assert (getattr row (col_name c) = getattr new (col_name c)) as ->
          by (by apply getattr_lookup, Hrow, Hcols).
        apply list_elem_of_fmap in Hk as ([k v] & Hkv & Hin). simpl in Hkv.
        rewrite Hkv, (new_supplied k v Hin).
        apply (Hall k v Hin c); [|done].
        by apply list_elem_of_filter in Hc as [_ ?].
      * destruct model; try done. unfold foreign_keys_ok.
        rewrite bool_decide_eq_false_2; [done|].
        intros (c & Hc & Hin)%list_elem_of_fmap.
        apply Hchanged in Hin. rewrite <- Hc in Hin.
        by apply Hcols in Hin as (_ & _ & _ & ?).
Qed.

End Update.

(** The keys of a dump of an Update schema. *)
Lemma dump_field_sublist {A : Type} (key : string) (f : A → Value)
    (field : option A) :
  (dump_field key f field).*1 `sublist_of` [key].
Proof. destruct field; simpl; [done|]. apply sublist_nil_l. Qed.

Lemma dump_keys_ok (model : Model) (fields : list string)
    (data : list (string * Value)) :
  data.*1 `sublist_of` fields →
  NoDup fields →
  Forall (λ k, hasattr model k ∧ (k ∉ onupdate_names model)
               ∧ k ≠ "id" ∧ k ≠ "author_id") fields →
  NoDup data.*1
  ∧ ∀ k, k ∈ data.*1 →
         hasattr model k ∧ (k ∉ onupdate_names model)
         ∧ k ≠ "id" ∧ k ≠ "author_id".
Proof.
  intros Hsub Hnd Hall. split; [by eapply sublist_NoDup|].
  intros k Hk. rewrite Forall_forall in Hall. apply Hall.
  by eapply elem_of_sublist.
Qed.

Lemma user_update_keys (d : UserUpdate.t) :
  let data := UserUpdate.model_dump_exclude_unset d in
  NoDup data.*1
  ∧ ∀ k, k ∈ data.*1 →
         hasattr User k ∧ (k ∉ onupdate_names User)
         ∧ k ≠ "id" ∧ k ≠ "author_id".
Proof.
  apply (dump_keys_ok User
           ["first_name"; "last_name"; "nickname"; "email"; "password";
            "birthdate"; "location"; "gender"; "job_title"; "phone"]).
  - unfold UserUpdate.model_dump_exclude_unset. rewrite !fmap_app.
    repeat (apply (sublist_app _ [_]); [apply dump_field_sublist|]).
    apply dump_field_sublist.
  - by_computation.
  - by_computation.
Qed.

Lemma post_update_keys (d : PostUpdate.t) :
  let data := PostUpdate.model_dump_exclude_unset d in
  NoDup data.*1
  ∧ ∀ k, k ∈ data.*1 →
         hasattr Post k ∧ (k ∉ onupdate_names Post)
         ∧ k ≠ "id" ∧ k ≠ "author_id".
Proof.
  apply (dump_keys_ok Post ["title"; "content"; "is_published"]).
  - unfold PostUpdate.model_dump_exclude_unset. rewrite !fmap_app.
    repeat (apply (sublist_app _ [_]); [apply dump_field_sublist|]).
    apply dump_field_sublist.
  - by_computation.
  - by_computation.
Qed.

Lemma tag_update_keys (d : TagUpdate.t) :
  let data := TagUpdate.model_dump_exclude_unset d in
  NoDup data.*1
  ∧ ∀ k, k ∈ data.*1 →
         hasattr Tag k ∧ (k ∉ onupdate_names Tag)
         ∧ k ≠ "id" ∧ k ≠ "author_id".
Proof.
  apply (dump_keys_ok Tag ["title"; "description"]).
  - unfold TagUpdate.model_dump_exclude_unset. rewrite !fmap_app.
    repeat (apply (sublist_app _ [_]); [apply dump_field_sublist|]).
    apply dump_field_sublist.
  - by_computation.
  - by_computation.
Qed.

Lemma resolve_tags_cases (tag_ids : list Z) (db : Database) :
  resolve_tags tag_ids db = (Ok (filter (λ t, id_in tag_ids t) (tags db)), db)
  ∨ ∃ missing, resolve_tags tag_ids db = (Raise (TagsNotFound missing), db).
Proof.
  unfold resolve_tags, mbind, Session_bind, get_state.
  case_bool_decide; [right; by eexists|by left].
Qed.


Lemma row_id_getattr (r : Row) (z : Z) :
  row_id r = Some z ↔ getattr r "id" = VInt z.
Proof.
  unfold row_id, getattr. destruct (r !! "id") as [[]|]; simpl; naive_solver.
Qed.






(** ** Replacing the tags of a post *)


(** ** Search *)














(** ** Reset *)

Section ResetProperties.
Variable execute : string → Session unit.



End ResetProperties.

(** ** Primary keys stay unique *)

(** The uniqueness of the tag keys assumed by the properties of tag
    resolution holds in the fresh schema and is kept by every operation. *)

Lemma primary_keys_empty : primary_keys_ok empty_database.
Proof. intros []; constructor. Qed.

Lemma primary_keys_tables (db db' : Database) :
  (∀ model, omap row_id (table model db') = omap row_id (table model db)) →
  primary_keys_ok db → primary_keys_ok db'.
Proof. intros Heq Hok model. unfold primary_key_ok. rewrite Heq. apply Hok. Qed.

Lemma primary_keys_rollback (db db1 : Database) :
  primary_keys_ok db → primary_keys_ok (rollback db db1).
Proof. apply primary_keys_tables. by intros []. Qed.

Lemma primary_keys_get_session {A : Type} (body : Session A) (db : Database) :
  primary_keys_ok db →
  primary_keys_ok (body db).2 →
  primary_keys_ok (get_session body db).2.
Proof.
  intros Hdb Hbody. unfold get_session.
  destruct (body db) as [[a|e] db1]; [done|]. by apply primary_keys_rollback.
Qed.

Lemma id_column (model : Model) :
  ∃ c, c ∈ columns model ∧ col_name c = "id" ∧ unique c = true.
Proof.
  destruct model; eexists; (split; [left|done]).
Qed.

Lemma check_columns_unique (model : Model) (cols : list Column) (obj : Row)
    (others : list Row) (db : Database) (c : Column) :
  check_columns model cols obj others db = Ok tt →
  c ∈ cols → unique_ok c (getattr obj (col_name c)) others.
Proof.
  unfold check_columns. intros Hcheck Hc.
  destruct (forallb (λ c, type_ok _ _) cols); [|done].
  destruct (forallb (λ c, not_null_ok _ _) cols); [|done].
  destruct (forallb (λ c, unique_ok _ _ _) cols) eqn:Hu; [|done].
  apply Is_true_true, forallb_True in Hu. rewrite Forall_forall in Hu.
  by apply Hu.
Qed.

Lemma fresh_key (row : Row) (rows : list Row) (c : Column) :
  col_name c = "id" → unique c = true →
  unique_ok c (getattr row (col_name c)) rows →
  NoDup (omap row_id rows) → NoDup (omap row_id (rows ++ [row])).
Proof.
  intros Hname Huniq Hok Hnd. rewrite omap_app. simpl.
  destruct (row_id row) as [z|] eqn:Hz; [|by rewrite app_nil_r].
  apply NoDup_app. split; [done|]. split; [|apply NoDup_singleton].
  intros x Hx ->%list_elem_of_singleton.
  apply list_elem_of_omap in Hx as (r & Hr & Hrz).
  apply row_id_getattr in Hz, Hrz.
  unfold unique_ok in Hok. rewrite Huniq, Hname, Hz in Hok. simpl in Hok.
  apply forallb_True in Hok. rewrite Forall_forall in Hok.
  specialize (Hok r Hr). rewrite Hrz in Hok.
  by rewrite bool_decide_eq_true_2 in Hok.
Qed.

Lemma table_set_table_ne (model model' : Model) (rows : list Row)
    (db : Database) :
  model ≠ model' → table model (set_table model' rows db) = table model db.
Proof. by destruct model, model'. Qed.

Lemma primary_keys_set_table (model : Model) (rows : list Row) (db : Database) :
  NoDup (omap row_id rows) →
  primary_keys_ok db → primary_keys_ok (set_table model rows db).
Proof.
  intros Hrows Hok model'. unfold primary_key_ok.
  destruct (decide (model' = model)) as [->|Hne].
  - by rewrite table_set_table.
  - rewrite table_set_table_ne by done. apply Hok.
Qed.

Lemma primary_keys_set_id_seq (model : Model) (next : Z) (db : Database) :
  primary_keys_ok db → primary_keys_ok (set_id_seq model next db).
Proof. apply primary_keys_tables. by destruct model; intros []. Qed.

Lemma primary_keys_set_posts_tags (rows : list PostTag) (db : Database) :
  primary_keys_ok db → primary_keys_ok (set_posts_tags rows db).
Proof. apply primary_keys_tables. by intros []. Qed.

Lemma primary_keys_insert (model : Model) (obj : Row) (now : Z) (db : Database) :
  primary_keys_ok db → primary_keys_ok (insert model obj now db).2.
Proof.
  intros Hok. unfold insert.
  set (db1 := if bool_decide (getattr obj "id" = VNone) then _ else db).
  assert (Hok1 : primary_keys_ok db1).
  { subst db1. case_bool_decide; [by apply primary_keys_set_id_seq|done]. }
  destruct (check_columns model _ _ _ db1) as [[]|e] eqn:Hcheck; [|done].
  simpl. apply primary_keys_set_table; [|done].
  destruct (id_column model) as (c & Hc & Hname & Huniq).
  eapply fresh_key; [done|done| |apply Hok1].
  by eapply check_columns_unique.
Qed.

Lemma primary_keys_delete (model : Model) (id : Z) (db : Database) :
  primary_keys_ok db → primary_keys_ok (delete_rows model id db).
Proof.
  intros Hok.
  assert (Hposts : ∀ pid d, primary_keys_ok d →
                            primary_keys_ok (delete_post_rows pid d)).
  { intros pid d Hd. apply primary_keys_set_posts_tags.
    apply primary_keys_set_table; [|done]. apply omap_filter_NoDup, (Hd Post). }
  destruct model; unfold delete_rows; cbv zeta.
  - set (db1 := foldl _ db _).
    assert (Hok1 : primary_keys_ok db1).
    { subst db1. generalize (omap row_id
        (filter (λ p, getattr p "author_id" = VInt id) (posts db))).
      intros l. revert db Hok.
      induction l as [|pid l IH]; intros db Hok; [done|].
      simpl. apply IH. by apply Hposts. }
    set (db2 := set_table User _ db1).
    assert (Hok2 : primary_keys_ok db2).
    { apply primary_keys_set_table; [|done]. apply omap_filter_NoDup, (Hok1 User). }
    apply primary_keys_set_table; [|done]. apply omap_filter_NoDup, (Hok2 Post).
  - by apply Hposts.
  - apply primary_keys_set_posts_tags.
    apply primary_keys_set_table; [|done]. apply omap_filter_NoDup, (Hok Tag).
Qed.

Lemma primary_keys_bind {A B : Type} (c : Session A) (k : A → Session B)
    (db : Database) :
  primary_keys_ok (c db).2 →
  (∀ a d, c db = (Ok a, d) → primary_keys_ok d → primary_keys_ok (k a d).2) →
  primary_keys_ok ((c ≫= k) db).2.
Proof.
  intros Hc Hk. unfold mbind, Session_bind.
  destruct (c db) as [[a|e] d] eqn:E; [|done]. by apply Hk.
Qed.

Lemma primary_keys_update (model : Model) (id : Z) (old : Row)
    (data : list (string * Value)) (now : Z) (db : Database) :
  stored model id db = Some old →
  NoDup data.*1 →
  (∀ k, k ∈ data.*1 →
        hasattr model k ∧ (k ∉ onupdate_names model)
        ∧ k ≠ "id" ∧ k ≠ "author_id") →
  primary_keys_ok db →
  primary_keys_ok (_update model id old data now db).2.
Proof.
  intros Hold Hnd Hkeys Hok.
  destruct (update_cases model id old data now db Hold Hnd Hkeys)
    as [(row & db' & after & -> & _ & _ & _ & (rows & -> & Hrows) & _)
       |(e & -> & _)]; [|done].
  simpl. apply primary_keys_set_table; [|done]. rewrite Hrows. apply Hok.
Qed.

Lemma resolved_state (tag_ids : list Z) (db : Database) :
  ((tags ← resolve_tags tag_ids; mret (Some tags)) db).2 = db.
Proof.
  unfold mbind, Session_bind.
  by destruct (resolve_tags_cases tag_ids db) as [->|[? ->]].
Qed.

(** Every operation of the data-access layer keeps the primary keys
    unique. *)
Lemma operations_keep_primary_keys (db : Database) (now id : Z) :
  primary_keys_ok db →
  (∀ d, primary_keys_ok (create_user d now db).2)
  ∧ (∀ d, primary_keys_ok (update_user id d now db).2)
  ∧ primary_keys_ok (delete_user id db).2
  ∧ (∀ d, primary_keys_ok (create_post id d now db).2)
  ∧ (∀ d, primary_keys_ok (update_post id d now db).2)
  ∧ primary_keys_ok (delete_post id db).2
  ∧ (∀ d, primary_keys_ok (create_tag d now db).2)
  ∧ (∀ d, primary_keys_ok (update_tag id d now db).2)
  ∧ primary_keys_ok (delete_tag id db).2.
Proof.
  intros Hok.
  assert (Hdelete : ∀ model,
    primary_keys_ok
      (get_session (
         found ← _get_by_id model id;
         match found with
         | Some _ => _delete model id;; mret true
         | None => mret false
         end) db).2).
  { intros model. rewrite delete_shape. case_bool_decide; [|done].
    by apply primary_keys_delete. }
  assert (Hcreate : ∀ {A} model data (f : Database → Row → A),
    primary_keys_ok
      (get_session (
         obj ← _create model data now; d ← get_state; mret (f d obj)) db).2).
  { intros A model data f. apply primary_keys_get_session; [done|].
    apply primary_keys_bind; [by apply primary_keys_insert|].
    intros obj d _ Hd. done. }
  repeat split.
  - intros d. apply Hcreate.
  - intros d. unfold update_user. apply primary_keys_get_session; [done|].
    apply primary_keys_bind; [done|]. intros [old|] d' [= Hold <-] _; [|done].
    destruct (user_update_keys d) as [Hnd Hkeys].
    apply primary_keys_bind; [by apply primary_keys_update|]. by intros.
  - apply Hdelete.
  - intros d. unfold create_post. apply primary_keys_get_session; [done|].
    apply primary_keys_bind; [done|]. intros [author|] d' [= Hauthor <-] _; [|done].
    assert (Hassigned :
      (match PostCreate.tag_ids d with
       | Some ((_ :: _) as tag_ids) =>
           tags ← resolve_tags tag_ids; mret (Some tags)
       | _ => mret None
       end db).2 = db).
    { destruct (PostCreate.tag_ids d) as [[|z l]|]; try done.
      apply resolved_state. }
    apply primary_keys_bind; [by rewrite Hassigned|].
    intros assigned d1 E _. apply (f_equal snd) in E. simpl in E.
    rewrite Hassigned in E. subst d1. assert (Hd1 := Hok).
    revert assigned.
    intros assigned.
    apply primary_keys_bind; [by apply primary_keys_insert|].
    intros post d2 _ Hd2. apply primary_keys_bind; [|by intros].
    destruct assigned as [tags|]; [|done].
    destruct (row_id post); [|done]. by apply primary_keys_set_posts_tags.
  - intros d. unfold update_post. apply primary_keys_get_session; [done|].
    apply primary_keys_bind; [done|]. intros [old|] d' [= Hold <-] _; [|done].
    destruct (post_update_keys d) as [Hnd Hkeys].
    assert (Hassigned :
      (match PostUpdate.tag_ids d with
       | Some (Some tag_ids) => tags ← resolve_tags tag_ids; mret (Some tags)
       | _ => mret None
       end db).2 = db).
    { destruct (PostUpdate.tag_ids d) as [[l|]|]; try done.
      apply resolved_state. }
    apply primary_keys_bind; [by rewrite Hassigned|].
    intros assigned d1 E _. apply (f_equal snd) in E. simpl in E.
    rewrite Hassigned in E. subst d1.
    apply primary_keys_bind; [by apply primary_keys_update|].
    intros updated d2 _ Hd2. apply primary_keys_bind; [|by intros].
    destruct assigned as [tags|]; [|done]. by apply primary_keys_set_posts_tags.
  - apply Hdelete.
  - intros d. apply Hcreate.
  - intros d. unfold update_tag. apply primary_keys_get_session; [done|].
    apply primary_keys_bind; [done|]. intros [old|] d' [= Hold <-] _; [|done].
    destruct (tag_update_keys d) as [Hnd Hkeys].
    apply primary_keys_bind; [by apply primary_keys_update|]. by intros.
  - apply Hdelete.
Qed.

(** ** Instances on the sample store *)

Lemma sample_db_primary_keys : primary_keys_ok sample_db.
Proof. intros []; by_computation. Qed.

Lemma create_post_unknown_author_witness :
  ¬ resolves User 9 sample_db
  ∧ create_post 9 (PostCreate.mk "Title" "Text" true (Some [1; 7])) 1700000200
      sample_db
    = (Ok None, sample_db).
Proof.
  assert (H : ¬ resolves User 9 sample_db) by by_computation.
  split; [exact H|]. apply create_post_unknown_author. exact H.
Defined.

Lemma update_delete_unknown_id_witness :
  ¬ resolves User 9 sample_db
  ∧ update_user 9 UserUpdate.unset 1700000200 sample_db = (Ok None, sample_db)
  ∧ delete_user 9 sample_db = (Ok false, sample_db)
  ∧ delete_user 1 sample_db = (Ok true, delete_rows User 1 sample_db)
  ∧ resolves User 1 sample_db
  ∧ ¬ resolves User 1 (delete_rows User 1 sample_db).
Proof.
  assert (H : ¬ resolves User 9 sample_db) by by_computation.
  assert (Hdel : delete_user 1 sample_db = (Ok true, delete_rows User 1 sample_db))
    by by_computation.
  destruct (update_delete_unknown_id 9 sample_db 1700000200
              UserUpdate.unset PostUpdate.unset TagUpdate.unset)
    as (HU & _).
  destruct (update_delete_unknown_id 1 sample_db 1700000200
              UserUpdate.unset PostUpdate.unset TagUpdate.unset)
    as (_ & _ & _ & HD & _).
  destruct (HU H) as [Hupd Hdl]. destruct (HD _ Hdel) as [Hbefore Hafter].
  repeat split; assumption.
Defined.

Lemma delete_user_cascades_witness :
  resolves User 1 sample_db
  ∧ sample_post 1 1 "Hello" "First post" ∈ posts sample_db
  ∧ ∃ db',
      delete_user 1 sample_db = (Ok true, db')
      ∧ get_post 1 true true db' = (Ok None, db')
      ∧ (∀ p, p ∈ posts db' → getattr p "author_id" ≠ VInt 1)
      ∧ (∀ a, a ∈ posts_tags db' → pt_post_id a ≠ 1).
Proof.
  assert (H1 : resolves User 1 sample_db) by by_computation.
  assert (H2 : sample_post 1 1 "Hello" "First post" ∈ posts sample_db) by left.
  split; [exact H1|]. split; [exact H2|].
  apply (delete_user_cascades sample_db 1 1 (sample_post 1 1 "Hello" "First post")
           true true H1 H2); reflexivity.
Defined.

Lemma create_post_unknown_tags_witness :
  resolves User 1 sample_db
  ∧ primary_key_ok Tag sample_db
  ∧ (∃ z, z ∈ [1; 7; 9; 9] ∧ ¬ resolves Tag z sample_db)
  ∧ ∃ missing,
      create_post 1 (PostCreate.mk "Title" "Text" true (Some [1; 7; 9; 9]))
        1700000200 sample_db
      = (Raise (TagsNotFound missing), sample_db)
      ∧ ∀ z, z ∈ missing ↔ z ∈ [1; 7; 9; 9] ∧ ¬ resolves Tag z sample_db.
Proof.
  assert (H1 : resolves User 1 sample_db) by by_computation.
  assert (H2 : primary_key_ok Tag sample_db) by by_computation.
  assert (H3 : ∃ z, z ∈ [1; 7; 9; 9] ∧ ¬ resolves Tag z sample_db).
  { exists 7. split; [set_solver|by_computation]. }
  split; [exact H1|]. split; [exact H2|]. split; [exact H3|].
  exact (create_post_unknown_tags sample_db 1
           (PostCreate.mk "Title" "Text" true (Some [1; 7; 9; 9]))
           1700000200 [1; 7; 9; 9] H1 H2 eq_refl H3).
Defined.

(** C1 as stated fails when the author does not exist: the list names an
    unknown tag, yet the call returns the absence indicator and raises
    nothing. *)
Lemma create_post_unknown_tags_counterexample :
  (∃ z, z ∈ [1; 7] ∧ ¬ resolves Tag z sample_db)
  ∧ create_post 9 (PostCreate.mk "Title" "Text" true (Some [1; 7])) 1700000200
      sample_db
    = (Ok None, sample_db).
Proof.
  split.
  - exists 7. split; [set_solver|by_computation].
  - by_computation.
Qed.

Lemma repeated_tag_ids_rejected_witness :
  primary_key_ok Tag sample_db
  ∧ ¬ NoDup [1; 1]
  ∧ (∀ z, z ∈ [1; 1] → resolves Tag z sample_db)
  ∧ create_post 1 (PostCreate.mk "Title" "Text" true (Some [1; 1])) 1700000200
      sample_db
    = (Raise (TagsNotFound ∅), sample_db)
  ∧ update_post 1 (PostUpdate.mk None None None (Some (Some [1; 1])))
      1700000200 sample_db
    = (Raise (TagsNotFound ∅), sample_db).
Proof.
  assert (H1 : primary_key_ok Tag sample_db) by by_computation.
  assert (H2 : ¬ NoDup [1; 1]) by by_computation.
  assert (H3 : ∀ z, z ∈ [1; 1] → resolves Tag z sample_db).
  { apply Forall_forall. by_computation. }
  destruct (repeated_tag_ids_rejected sample_db 1700000200 [1; 1] H1 H2 H3)
    as [Hc Hu].
  split; [exact H1|]. split; [exact H2|]. split; [exact H3|]. split.
  - apply Hc; [by_computation|reflexivity].
  - apply Hu; [by_computation|reflexivity].
Defined.

(** C8 as stated fails when the author, respectively the post, does not
    exist: the list repeats the id of an existing tag, yet both calls return
    the absence indicator. *)
Lemma repeated_tag_ids_rejected_counterexample :
  ¬ NoDup [1; 1]
  ∧ (∀ z, z ∈ [1; 1] → resolves Tag z sample_db)
  ∧ create_post 9 (PostCreate.mk "Title" "Text" true (Some [1; 1])) 1700000200
      sample_db
    = (Ok None, sample_db)
  ∧ update_post 9 (PostUpdate.mk None None None (Some (Some [1; 1])))
      1700000200 sample_db
    = (Ok None, sample_db).
Proof.
  split; [by_computation|]. split.
  { apply Forall_forall. by_computation. }
  split; by_computation.
Qed.









(** * Further properties of the data-access layer *)

(** ** Lookups under unique primary keys *)

Lemma filter_key_unique {A B : Type} `{EqDecision B} (f : A → option B)
    (y : B) (l : list A) :
  NoDup (omap f l) →
  filter (λ r, f r = Some y) l = [] ∨ ∃ r, filter (λ r, f r = Some y) l = [r].
Proof.
  induction l as [|a l IH]; [by left|]. simpl.
  destruct (f a) as [b|] eqn:Ha.
  - intros [Hb Hnd]%NoDup_cons. destruct (decide (b = y)) as [->|Hne].
    + right. exists a. rewrite filter_cons_True by done. f_equal.
      apply filter_nil_iff. intros x Hx Hfx. apply Hb.
      apply list_elem_of_omap. by exists x.
    + rewrite filter_cons_False by congruence. by apply IH.
  - intros Hnd. rewrite filter_cons_False by congruence. by apply IH.
Qed.

(** X1. In a store with unique primary keys, [get_user], [get_post] and
    [get_tag] never raise: each returns the response built from the row that
    [session.get] would find, or the absence indicator when there is none,
    and leaves the store as it was. *)
Theorem get_by_primary_key (db : Database) (id : Z)
    (include_posts include_author include_tags : bool) :
  primary_keys_ok db →
  get_user id include_posts db
  = (Ok (user_response db include_posts <$> stored User id db), db)
  ∧ get_post id include_author include_tags db
    = (Ok (post_response db include_author include_tags <$> stored Post id db), db)
  ∧ get_tag id include_posts db
    = (Ok (tag_response db include_posts <$> stored Tag id db), db).
Proof.
  intros Hok.
  assert (Hone : ∀ model,
    scalar_one_or_none (filter (λ r, row_id r = Some id) (table model db)) db
    = (Ok (stored model id db), db)).
  { intros model. unfold stored.
    destruct (filter_key_unique row_id id (table model db) (Hok model))
      as [->|[r ->]]; done. }
  pose proof (Hone User) as HU. pose proof (Hone Post) as HP.
  pose proof (Hone Tag) as HT. cbn [table] in HU, HP, HT.
  unfold get_user, get_post, get_tag, get_session.
  session_steps. rewrite HU, HP, HT. done.
Qed.

(** ** Creating rows *)

Lemma insert_attrs (now next_id : Z) (obj : Row) (cols : list Column)
    (r : Row) (c : Column) :
  NoDup (col_name <$> cols) → c ∈ cols →
  getattr
    (foldl (λ r c, setattr r (col_name c) (insert_value now next_id obj c))
       r cols) (col_name c)
  = insert_value now next_id obj c.
Proof.
  revert r. induction cols as [|c' cols IH]; intros r Hnd Hc.
  { by apply not_elem_of_nil in Hc. }
  rewrite fmap_cons in Hnd. apply NoDup_cons in Hnd as [Hfresh Hnd]. simpl.
  apply elem_of_cons in Hc as [->|Hc]; [|by apply IH].
  clear IH. revert r.
  assert (Hkeep : ∀ r, getattr
            (foldl (λ r c, setattr r (col_name c) (insert_value now next_id obj c))
               r cols) (col_name c') = getattr r (col_name c')).
  { induction cols as [|d cols IH]; intros r; [done|].
    rewrite fmap_cons in Hfresh, Hnd.
    apply not_elem_of_cons in Hfresh as [Hne Hfresh].
    apply NoDup_cons in Hnd as [_ Hnd]. simpl. rewrite IH by done.
    unfold getattr, setattr. by rewrite lookup_insert_ne. }
  intros r. rewrite Hkeep. unfold getattr, setattr. by rewrite lookup_insert_eq.
Qed.

Lemma column_names_NoDup (model : Model) : NoDup (column_names model).
Proof. destruct model; by_computation. Qed.

Lemma resolves_elem (model : Model) (id : Z) (db : Database) :
  resolves model id db ↔ id ∈ omap row_id (table model db).
Proof.
  unfold resolves. rewrite Exists_exists, list_elem_of_omap. naive_solver.
Qed.

Lemma id_column_serial (model : Model) :
  ∃ c, c ∈ columns model ∧ col_name c = "id" ∧ unique c = true
       ∧ col_default c = Serial.
Proof. destruct model; eexists; (split; [left|done]). Qed.

(** What a successful INSERT of an object without a key does. *)
Lemma insert_ok (model : Model) (obj : Row) (now : Z) (db db' : Database)
    (row : Row) :
  getattr obj "id" = VNone →
  insert model obj now db = (Ok row, db') →
  row_id row = Some (id_seq model db)
  ∧ ¬ resolves model (id_seq model db) db
  ∧ db' = set_table model (table model db ++ [row])
            (set_id_seq model (id_seq model db + 1) db)
  ∧ (∀ c, c ∈ columns model →
          getattr row (col_name c) = insert_value now (id_seq model db) obj c)
  ∧ filter (λ r, row_id r = Some (id_seq model db)) (table model db ++ [row])
    = [row].
Proof.
  intros Hid. unfold insert. rewrite bool_decide_eq_true_2 by done.
  set (next := id_seq model db).
  set (db1 := set_id_seq model (next + 1) db).
  set (r := foldl _ obj (columns model)).
  assert (Htab : table model db1 = table model db) by (by destruct model).
  destruct (check_columns model _ r _ db1) as [[]|e] eqn:Hcheck; [|done].
  intros [= <- <-].
  assert (Hattrs : ∀ c, c ∈ columns model →
            getattr r (col_name c) = insert_value now next obj c).
  { intros c Hc. by apply insert_attrs; [apply column_names_NoDup|]. }
  destruct (id_column_serial model) as (c & Hc & Hname & Huniq & Hserial).
  assert (Hrid : row_id r = Some next).
  { apply row_id_getattr. rewrite <- Hname, (Hattrs c Hc).
    unfold insert_value. by rewrite Hname, Hid, Hserial. }
  assert (Hfresh : ∀ x, x ∈ table model db → row_id x ≠ Some next).
  { intros x Hx Hx'. apply row_id_getattr in Hx', Hrid.
    pose proof (check_columns_unique _ _ _ _ _ c Hcheck Hc) as Hu.
    unfold unique_ok in Hu. rewrite Huniq, Hname, Hrid in Hu. simpl in Hu.
    apply forallb_True in Hu. rewrite Forall_forall in Hu.
    rewrite Htab in Hu. specialize (Hu x Hx). rewrite Hx' in Hu.
    by rewrite bool_decide_eq_true_2 in Hu. }
  split; [done|]. split.
  { intros (x & Hx & Hx')%Exists_exists. by eapply Hfresh. }
  split; [by rewrite Htab|]. split; [done|].
  rewrite filter_app, filter_cons_True, filter_nil by done.
  replace (filter (λ r0, row_id r0 = Some next) (table model db)) with (@nil Row);
    [done|].
  symmetry. apply filter_nil_iff. intros x Hx. by apply Hfresh.
Qed.

Lemma same_key {A B : Type} (f : A → B) (l : list A) (x y : A) :
  NoDup (f <$> l) → x ∈ l → y ∈ l → f x = f y → x = y.
Proof.
  induction l as [|a l IH]; [by intros _ ?%not_elem_of_nil|].
  rewrite fmap_cons. intros [Ha Hnd]%NoDup_cons Hx Hy Heq.
  apply elem_of_cons in Hx as [->|Hx]; apply elem_of_cons in Hy as [->|Hy].
  - done.
  - destruct Ha. rewrite Heq. by apply list_elem_of_fmap_2.
  - destruct Ha. rewrite <- Heq. by apply list_elem_of_fmap_2.
  - by apply IH.
Qed.

Lemma plain_column_spec (model : Model) (key : string) :
  plain_column model key →
  ∃ c, c ∈ columns model ∧ col_name c = key ∧ col_default c = NoDefault.
Proof.
  unfold plain_column.
  destruct (head (filter _ (columns model))) as [c|] eqn:E; [|done].
  intros Hd. exists c.
  assert (Hin : c ∈ filter (λ c, col_name c = key) (columns model)).
  { destruct (filter _ (columns model)); [done|]. injection E as ->. left. }
  apply list_elem_of_filter in Hin as [? ?].
  by destruct (col_default c).
Qed.

(** The row written for a Create input: every dumped field reads as given. *)
Lemma insert_dump (model : Model) (data : list (string * Value)) (now : Z)
    (db db' : Database) (row : Row) :
  NoDup data.*1 →
  Forall (λ k, plain_column model k) data.*1 →
  _create model data now db = (Ok row, db') →
  row_id row = Some (id_seq model db)
  ∧ ¬ resolves model (id_seq model db) db
  ∧ db' = set_table model (table model db ++ [row])
            (set_id_seq model (id_seq model db + 1) db)
  ∧ (∀ k v, (k, v) ∈ data → getattr row k = v)
  ∧ (∀ c, c ∈ columns model → col_default c = UtcNow →
          col_name c ∉ data.*1 → getattr row (col_name c) = VDateTime now)
  ∧ filter (λ r, row_id r = Some (id_seq model db)) (table model db ++ [row])
    = [row].
Proof.
  intros Hnd Hplain Hcreate. unfold _create in Hcreate.
  assert (Hget : ∀ k, k ∉ data.*1 →
            getattr (list_to_map data : Row) k = VNone).
  { intros k Hk. unfold getattr.
    rewrite (proj1 (not_elem_of_list_to_map _ k)); [done|]. done. }
  assert (Hnoid : "id" ∉ data.*1).
  { intros Hin. rewrite Forall_forall in Hplain.
    apply Hplain, plain_column_spec in Hin as (c & Hc & Hname & Hdef).
    destruct (id_column_serial model) as (c' & Hc' & Hname' & _ & Hserial).
    assert (c = c'); [|congruence].
    eapply (same_key col_name); [apply column_names_NoDup|done..|congruence]. }
  destruct (insert_ok model _ now db db' row (Hget _ Hnoid) Hcreate)
    as (Hid & Hfresh & Hdb & Hattrs & Hone).
  split; [done|]. split; [done|]. split; [done|]. split; [|split; [|done]].
  - intros k v Hin.
    assert (Hk : k ∈ data.*1) by (apply list_elem_of_fmap; by exists (k, v)).
    rewrite Forall_forall in Hplain.
    apply Hplain, plain_column_spec in Hk as (c & Hc & <- & Hdef).
    rewrite (Hattrs c Hc). unfold insert_value. rewrite Hdef.
    assert (getattr (list_to_map data : Row) (col_name c) = v) as ->.
    { unfold getattr. by rewrite (elem_of_list_to_map_1 data _ v). }
    by destruct v.
  - intros c Hc Hdef Hk. rewrite (Hattrs c Hc). unfold insert_value.
    by rewrite (Hget _ Hk), Hdef.
Qed.



Lemma get_by_primary_key_witness :
  primary_keys_ok sample_db
  ∧ get_user 1 false sample_db
    = (Ok (Some (UserResponse.mk
                   (sample_user 1 "abc" "abc@example.com" (VStr "Senior Tester"))
                   [])),
       sample_db)
  ∧ get_post 9 true true sample_db = (Ok None, sample_db).
Proof.
  assert (H : primary_keys_ok sample_db) by (intros []; by_computation).
  destruct (get_by_primary_key sample_db 1 false true true H) as (HU & _).
  destruct (get_by_primary_key sample_db 9 false true true H) as (_ & HP & _).
  split; [exact H|]. split.
  - rewrite HU. by_computation.
  - rewrite HP. by_computation.
Defined.



(** ** Rejected creations *)

Lemma insert_unique (model : Model) (obj : Row) (now : Z) (db db' : Database)
    (row : Row) (c : Column) :
  insert model obj now db = (Ok row, db') →
  c ∈ columns model →
  unique_ok c (getattr row (col_name c)) (table model db).
Proof.
  unfold insert. intros Hins Hc.
  set (db1 := if bool_decide (getattr obj "id" = VNone) then _ else db) in *.
  assert (Htab : table model db1 = table model db).
  { subst db1. case_bool_decide; [by destruct model|done]. }
  destruct (check_columns model _ _ _ db1) as [[]|e] eqn:Hcheck; [|done].
  injection Hins as <- <-. rewrite <- Htab.
  by eapply check_columns_unique.
Qed.

Lemma insert_error (model : Model) (obj : Row) (now : Z) (db db' : Database)
    (e : Error) :
  insert model obj now db = (Raise e, db') →
  e = DataError ∨ e = IntegrityError.
Proof.
  unfold insert.
  set (db1 := if bool_decide (getattr obj "id" = VNone) then _ else db).
  destruct (check_columns model _ _ _ db1) as [[]|e'] eqn:Hcheck; [done|].
  intros [= <- <-]. by eapply check_columns_error.
Qed.

Lemma taken_value (c : Column) (v : Value) (rows : list Row) (u : Row) :
  unique c = true → v ≠ VNone → u ∈ rows → getattr u (col_name c) = v →
  ¬ unique_ok c v rows.
Proof.
  intros Hu Hv Hin Hval. unfold unique_ok. rewrite Hu. simpl.
  rewrite bool_decide_eq_false_2 by done. simpl.
  rewrite forallb_True, Forall_forall. intros Hall.
  specialize (Hall u Hin). by rewrite bool_decide_eq_true_2 in Hall.
Qed.

(** X4. [create_user] with a nickname or an email that another user already
    has, and [create_tag] with a title that another tag already has, raise a
    store error and leave every table as it was. *)
Theorem create_rejects_taken_values (db : Database) (now : Z)
    (user_data : UserCreate.t) (tag_data : TagCreate.t) :
  ((∃ u, u ∈ users db
         ∧ (getattr u "nickname" = VStr (UserCreate.nickname user_data)
            ∨ getattr u "email" = VStr (UserCreate.email user_data))) →
   ∃ e db',
     create_user user_data now db = (Raise e, db')
     ∧ (e = DataError ∨ e = IntegrityError)
     ∧ users db' = users db ∧ posts db' = posts db ∧ tags db' = tags db
     ∧ posts_tags db' = posts_tags db)
  ∧ ((∃ t, t ∈ tags db
           ∧ getattr t "title" = VStr (TagCreate.title tag_data)) →
     ∃ e db',
       create_tag tag_data now db = (Raise e, db')
       ∧ (e = DataError ∨ e = IntegrityError)
       ∧ users db' = users db ∧ posts db' = posts db ∧ tags db' = tags db
       ∧ posts_tags db' = posts_tags db).
Proof.
  split.
  - intros (u & Hu & Htaken).
    unfold create_user, get_session. session_steps.
    destruct (_create User _ now db) as [[row|e] db1] eqn:E.
    + exfalso. pose proof E as Hins. unfold _create in Hins.
      apply insert_dump in E as (_ & _ & _ & Hdata & _); [|by_computation..].
      destruct Htaken as [Hn|He].
      * eapply (taken_value (mapped_column "nickname" (String_ 30) false true
                               NoDefault false));
          [done| |exact Hu|exact Hn|]; [done|].
        rewrite <- (Hdata "nickname" (VStr (UserCreate.nickname user_data))).
        -- apply (insert_unique _ _ _ _ _ _
                    (mapped_column "nickname" (String_ 30) false true
                       NoDefault false) Hins).
           apply list_elem_of_In. simpl. tauto.
        -- apply list_elem_of_In. simpl. tauto.
      * eapply (taken_value (mapped_column "email" (String_ 100) false true
                               NoDefault false));
          [done| |exact Hu|exact He|]; [done|].
        rewrite <- (Hdata "email" (VStr (UserCreate.email user_data))).
        -- apply (insert_unique _ _ _ _ _ _
                    (mapped_column "email" (String_ 100) false true
                       NoDefault false) Hins).
           apply list_elem_of_In. simpl. tauto.
        -- apply list_elem_of_In. simpl. tauto.
    + apply insert_error in E. by exists e, (rollback db db1).
  - intros (t & Ht & Htaken).
    unfold create_tag, get_session. session_steps.
    destruct (_create Tag _ now db) as [[row|e] db1] eqn:E.
    + exfalso. pose proof E as Hins. unfold _create in Hins.
      apply insert_dump in E as (_ & _ & _ & Hdata & _); [|by_computation..].
      eapply (taken_value (mapped_column "title" (String_ 50) false true
                             NoDefault false));
        [done| |exact Ht|exact Htaken|]; [done|].
      rewrite <- (Hdata "title" (VStr (TagCreate.title tag_data))).
      * apply (insert_unique _ _ _ _ _ _
                 (mapped_column "title" (String_ 50) false true
                    NoDefault false) Hins).
        apply list_elem_of_In. simpl. tauto.
      * left.
    + apply insert_error in E. by exists e, (rollback db db1).
Qed.

Lemma create_rejects_taken_values_witness :
  (∃ u, u ∈ users sample_db
        ∧ (getattr u "nickname" = VStr "abc"
           ∨ getattr u "email" = VStr "new@example.com"))
  ∧ ∃ e db',
      create_user
        (UserCreate.mk "Al" "Bo" "abc" "new@example.com" "pw" 727000
           None None None None) 1700000200 sample_db
      = (Raise e, db')
      ∧ (e = DataError ∨ e = IntegrityError)
      ∧ users db' = users sample_db ∧ posts db' = posts sample_db
      ∧ tags db' = tags sample_db ∧ posts_tags db' = posts_tags sample_db.
Proof.
  assert (H : ∃ u, u ∈ users sample_db
                   ∧ (getattr u "nickname" = VStr "abc"
                      ∨ getattr u "email" = VStr "new@example.com")).
  { eexists. split; [left|]. left. reflexivity. }
  split; [exact H|].
  exact (proj1 (create_rejects_taken_values sample_db 1700000200
                  (UserCreate.mk "Al" "Bo" "abc" "new@example.com" "pw" 727000
                     None None None None) (TagCreate.mk "x" None)) H).
Defined.

(** ** Creating a post *)




(** ** Deleting a tag or a post *)

Lemma filter_fmap_swap {A B : Type} (f : A → B) (P : B → Prop)
    `{∀ x, Decision (P x)} (l : list A) :
  filter P (f <$> l) = f <$> filter (λ x, P (f x)) l.
Proof.
  induction l as [|a l IH]; [done|].
  rewrite fmap_cons, !filter_cons. simpl.
  destruct (decide (P (f a))); by rewrite IH.
Qed.

Lemma delete_known (model : Model) (id : Z) (db : Database) :
  resolves model id db →
  get_session (
    found ← _get_by_id model id;
    match found with
    | Some _ => _delete model id;; mret true
    | None => mret false
    end) db
  = (Ok true, delete_rows model id db).
Proof. intros H. by rewrite delete_shape, bool_decide_eq_true_2. Qed.

(** X6. [delete_tag] of an existing tag returns [true]; it removes the tag
    and the association rows of that tag and nothing else: users and posts
    are untouched, every post keeps its other tags in order, and [get_tag]
    of the identifier then returns the absence indicator. *)
Theorem delete_tag_keeps_posts (db : Database) (id : Z) :
  resolves Tag id db →
  ∃ db',
    delete_tag id db = (Ok true, db')
    ∧ users db' = users db ∧ posts db' = posts db
    ∧ tags db' = filter (λ t, row_id t ≠ Some id) (tags db)
    ∧ (∀ post_id,
         post_tag_ids db' post_id
         = filter (λ z, z ≠ id) (post_tag_ids db post_id))
    ∧ ∀ include_posts, get_tag id include_posts db' = (Ok None, db').
Proof.
  intros Hres. exists (delete_rows Tag id db).
  unfold delete_tag. rewrite delete_known by done.
  split; [done|]. split; [done|]. split; [done|]. split; [done|]. split.
  - intros post_id. unfold post_tag_ids. simpl.
    rewrite filter_fmap_swap. f_equal.
    rewrite !list_filter_filter. apply list_filter_iff. tauto.
  - intros include_posts. unfold get_tag, get_session. session_steps.
    replace (filter (λ r, row_id r = Some id) (tags (delete_rows Tag id db)))
      with (@nil Row); [done|].
    symmetry. apply filter_nil_iff.
    intros r [Hne _]%list_elem_of_filter. done.
Qed.

(** X7. [delete_post] of an existing post returns [true]; it removes the
    post and its association rows and nothing else: users and tags are
    untouched, the other posts keep their tags, and [get_post] of the
    identifier then returns the absence indicator. *)
Theorem delete_post_removes_links (db : Database) (id : Z) :
  resolves Post id db →
  ∃ db',
    delete_post id db = (Ok true, db')
    ∧ users db' = users db ∧ tags db' = tags db
    ∧ posts db' = filter (λ p, row_id p ≠ Some id) (posts db)
    ∧ post_tag_ids db' id = []
    ∧ (∀ other, other ≠ id →
                post_tag_ids db' other = post_tag_ids db other)
    ∧ ∀ include_author include_tags,
        get_post id include_author include_tags db' = (Ok None, db').
Proof.
  intros Hres. exists (delete_rows Post id db).
  unfold delete_post. rewrite delete_known by done.
  split; [done|]. split; [done|]. split; [done|]. split; [done|]. split.
  - unfold post_tag_ids. simpl. rewrite list_filter_filter.
    replace (filter (λ a, pt_post_id a = id ∧ pt_post_id a ≠ id) (posts_tags db))
      with (@nil PostTag); [done|].
    symmetry. apply filter_nil_iff. tauto.
  - split.
    + intros other Hother. unfold post_tag_ids. simpl. f_equal.
      rewrite list_filter_filter. apply list_filter_iff.
      intros a. split; [tauto|]. intros Ha. split; [done|congruence].
    + intros include_author include_tags.
      unfold get_post, get_session. session_steps.
      replace (filter (λ r, row_id r = Some id) (posts (delete_rows Post id db)))
        with (@nil Row); [done|].
      symmetry. apply filter_nil_iff.
      intros r [Hne _]%list_elem_of_filter. done.
Qed.

Lemma delete_tag_keeps_posts_witness :
  resolves Tag 2 sample_db
  ∧ post_tag_ids sample_db 1 = [1; 2]
  ∧ ∃ db',
      delete_tag 2 sample_db = (Ok true, db')
      ∧ users db' = users sample_db ∧ posts db' = posts sample_db
      ∧ tags db' = filter (λ t, row_id t ≠ Some 2) (tags sample_db)
      ∧ (∀ post_id,
           post_tag_ids db' post_id
           = filter (λ z, z ≠ 2) (post_tag_ids sample_db post_id))
      ∧ ∀ include_posts, get_tag 2 include_posts db' = (Ok None, db').
Proof.
  assert (H : resolves Tag 2 sample_db) by by_computation.
  split; [exact H|]. split; [reflexivity|].
  exact (delete_tag_keeps_posts sample_db 2 H).
Defined.

Lemma delete_post_removes_links_witness :
  resolves Post 1 sample_db
  ∧ ∃ db',
      delete_post 1 sample_db = (Ok true, db')
      ∧ users db' = users sample_db ∧ tags db' = tags sample_db
      ∧ posts db' = filter (λ p, row_id p ≠ Some 1) (posts sample_db)
      ∧ post_tag_ids db' 1 = []
      ∧ (∀ other, other ≠ 1 →
                  post_tag_ids db' other = post_tag_ids sample_db other)
      ∧ ∀ include_author include_tags,
          get_post 1 include_author include_tags db' = (Ok None, db').
Proof.
  assert (H : resolves Post 1 sample_db) by by_computation.
  split; [exact H|].
  exact (delete_post_removes_links sample_db 1 H).
Defined.

(** ** Pagination *)






(** ** No dangling references *)

Lemma resolves_exists (model : Model) (id : Z) (db : Database) :
  resolves model id db ↔ ∃ r, r ∈ table model db ∧ row_id r = Some id.
Proof. unfold resolves. by rewrite Exists_exists. Qed.

Lemma resolves_same_ids (model : Model) (id : Z) (db db' : Database) :
  omap row_id (table model db') = omap row_id (table model db) →
  resolves model id db → resolves model id db'.
Proof. intros Heq. rewrite !resolves_elem. by rewrite Heq. Qed.

Lemma references_tables (db db' : Database) :
  (∀ model, omap row_id (table model db') = omap row_id (table model db)) →
  (∀ p, p ∈ posts db' →
        ∃ q, q ∈ posts db ∧ getattr p "author_id" = getattr q "author_id") →
  (∀ a, a ∈ posts_tags db' → a ∈ posts_tags db) →
  references_ok db → references_ok db'.
Proof.
  intros Hids Hposts Hlinks [Hauthor Hlink]. split.
  - intros p (q & Hq & ->)%Hposts.
    destruct (Hauthor q Hq) as (a & Ha & Hres). exists a. split; [done|].
    by apply (resolves_same_ids User a db).
  - intros a [Hp Ht]%Hlinks%Hlink. split.
    + by apply (resolves_same_ids Post _ db).
    + by apply (resolves_same_ids Tag _ db).
Qed.

Lemma references_rollback (db db1 : Database) :
  references_ok db → references_ok (rollback db db1).
Proof.
  apply references_tables; [by intros []| |done].
  intros p Hp. by exists p.
Qed.

Lemma references_get_session {A : Type} (body : Session A) (db : Database) :
  references_ok db →
  references_ok (body db).2 →
  references_ok (get_session body db).2.
Proof.
  intros Hdb Hbody. unfold get_session.
  destruct (body db) as [[a|e] db1]; [done|]. by apply references_rollback.
Qed.

Lemma references_bind {A B : Type} (c : Session A) (k : A → Session B)
    (db : Database) :
  references_ok (c db).2 →
  (∀ a d, c db = (Ok a, d) → references_ok d → references_ok (k a d).2) →
  references_ok ((c ≫= k) db).2.
Proof.
  intros Hc Hk. unfold mbind, Session_bind.
  destruct (c db) as [[a|e] d] eqn:E; [|done]. by apply Hk.
Qed.

Lemma references_set_id_seq (model : Model) (next : Z) (db : Database) :
  references_ok db → references_ok (set_id_seq model next db).
Proof.
  apply references_tables.
  - by destruct model; intros [].
  - intros p Hp. exists p. by destruct model.
  - by destruct model.
Qed.

(** A row of [posts] that passes the checks of an INSERT names an existing
    author: the column is an integer, NOT NULL and a foreign key. *)
Lemma check_columns_author (row : Row) (others : list Row) (db : Database) :
  check_columns Post (columns Post) row others db = Ok tt →
  ∃ a, getattr row "author_id" = VInt a ∧ resolves User a db.
Proof.
  unfold check_columns. intros Hcheck.
  destruct (forallb (λ c, type_ok _ _) _) eqn:Ht; [|done].
  destruct (forallb (λ c, not_null_ok _ _) _) eqn:Hn; [|done].
  destruct (forallb (λ c, unique_ok _ _ _) _); [|done].
  destruct (foreign_keys_ok _ _ _ _) eqn:Hf; [|done].
  apply Is_true_true, forallb_True in Ht, Hn. rewrite Forall_forall in Ht, Hn.
  set (c := mapped_column "author_id" Integer false false NoDefault false).
  assert (Hc : c ∈ columns Post) by (apply list_elem_of_In; simpl; tauto).
  specialize (Ht c Hc). specialize (Hn c Hc). simpl in Ht, Hn.
  unfold foreign_keys_ok in Hf. rewrite bool_decide_eq_true_2 in Hf
    by (apply list_elem_of_In; simpl; tauto).
  destruct (getattr row "author_id") as [|a|s|b|d|t] eqn:Ha; try done.
  exists a. split; [done|]. by apply bool_decide_eq_true in Hf.
Qed.

Lemma references_insert (model : Model) (obj : Row) (now : Z) (db : Database) :
  references_ok db → references_ok (insert model obj now db).2.
Proof.
  intros Hok. unfold insert.
  set (db1 := if bool_decide (getattr obj "id" = VNone) then _ else db).
  assert (Hok1 : references_ok db1).
  { subst db1. case_bool_decide; [by apply references_set_id_seq|done]. }
  set (row := foldl _ obj (columns model)).
  destruct (check_columns model _ row _ db1) as [[]|e] eqn:Hcheck; [|done].
  simpl. destruct Hok1 as [Hauthor Hlink].
  assert (Hgrow : ∀ m z, resolves m z db1 →
    resolves m z (set_table model (table model db1 ++ [row]) db1)).
  { intros m z. rewrite !resolves_exists. intros (r & Hr & Hz). exists r.
    split; [|done]. destruct (decide (m = model)) as [->|Hne].
    - rewrite table_set_table. apply elem_of_app. by left.
    - by rewrite table_set_table_ne. }
  split.
  - intros p Hp.
    assert (Hcases : p ∈ posts db1 ∨ model = Post ∧ p = row).
    { destruct model; simpl in Hp; [by left| |by left].
      apply elem_of_app in Hp as [Hp|Hp%list_elem_of_singleton]; [by left|].
      by right. }
    destruct Hcases as [Hp'|[Hm Hrow]].
    + destruct (Hauthor p Hp') as (a & Ha & Hres). exists a.
      split; [done|]. by apply Hgrow.
    + subst model p.
      destruct (check_columns_author _ _ _ Hcheck) as (a & Ha & Hres).
      exists a. split; [done|]. by apply (Hgrow User).
  - intros a Ha.
    assert (Ha' : a ∈ posts_tags db1) by by destruct model.
    destruct (Hlink a Ha') as [Hp Ht]. split; by apply Hgrow.
Qed.

Lemma references_delete_post (id : Z) (db : Database) :
  references_ok db → references_ok (delete_post_rows id db).
Proof.
  intros [Hauthor Hlink]. unfold delete_post_rows. split; simpl.
  - intros p [_ Hp]%list_elem_of_filter. apply (Hauthor p Hp).
  - intros a [Hne Ha]%list_elem_of_filter. destruct (Hlink a Ha) as [Hp Ht].
    split; [|done]. apply resolves_exists in Hp as (r & Hr & Hz).
    apply resolves_exists. exists r. split; [|done]. simpl.
    apply list_elem_of_filter. split; [|done]. rewrite Hz. congruence.
Qed.

Lemma references_delete (model : Model) (id : Z) (db : Database) :
  references_ok db → references_ok (delete_rows model id db).
Proof.
  intros Hok. destruct model; unfold delete_rows; cbv zeta.
  - set (l := omap row_id (filter (λ p, getattr p "author_id" = VInt id)
                             (posts db))).
    destruct (delete_posts_fold l db) as (Husers & Htags & Hposts & Hlinks).
    set (db1 := foldl _ db l) in *. destruct Hok as [Hauthor Hlink].
    split; simpl.
    + intros p [Hne Hp]%list_elem_of_filter.
      apply Hposts in Hp as [Hp _].
      destruct (Hauthor p Hp) as (a & Ha & Hres). exists a. split; [done|].
      apply resolves_exists in Hres as (u & Hu & Hz).
      apply resolves_exists. exists u. split; [|done]. simpl.
      apply list_elem_of_filter. rewrite Husers. split; [|done].
      rewrite Hz. intros [= ->]. by rewrite Ha in Hne.
    + intros a [Ha Hkept]%Hlinks. destruct (Hlink a Ha) as [Hp Ht].
      split.
      * apply resolves_exists in Hp as (r & Hr & Hz).
        apply resolves_exists. exists r. split; [|done]. simpl.
        assert (Hother : getattr r "author_id" ≠ VInt id).
        { intros Hr'. apply (Hkept (pt_post_id a)); [|done].
          apply list_elem_of_omap. exists r. split; [|done].
          by apply list_elem_of_filter. }
        apply list_elem_of_filter. split; [done|].
        apply Hposts. split; [done|]. intros pid Hpid Hz'.
        apply (Hkept pid Hpid). congruence.
      * apply resolves_exists in Ht as (t & Ht & Hz).
        apply resolves_exists. exists t. split; [|done]. simpl.
        by rewrite Htags.
  - by apply references_delete_post.
  - destruct Hok as [Hauthor Hlink]. split; simpl.
    + intros p Hp. apply (Hauthor p Hp).
    + intros a [Hne Ha]%list_elem_of_filter. destruct (Hlink a Ha) as [Hp Ht].
      split; [done|]. apply resolves_exists in Ht as (r & Hr & Hz).
      apply resolves_exists. exists r. split; [|done]. simpl.
      apply list_elem_of_filter. split; [|done]. rewrite Hz. congruence.
Qed.

Lemma flush_update_rows (model : Model) (id : Z) (old new : Row) (now : Z)
    (db : Database) :
  (flush_update model id old new now db).2 = db
  ∨ ∃ row,
      flush_update model id old new now db
      = (Ok row,
         set_table model
           ((λ r, if bool_decide (row_id r = Some id) then row else r)
              <$> table model db) db)
      ∧ ∀ k, k ∉ onupdate_names model → getattr row k = getattr new k.
Proof.
  unfold flush_update.
  destruct (filter _ (columns model)) as [|c changed] eqn:Echanged; [by left|].
  destruct (check_columns _ _ _ _ _) as [[]|e]; [|by left].
  right. eexists. split; [reflexivity|].
  intros k Hk. apply getattr_lookup. by apply refresh_other.
Qed.

Lemma update_keeps_ids (model : Model) (id : Z) (old : Row)
    (data : list (string * Value)) (now : Z) (db : Database) :
  stored model id db = Some old →
  (∀ k, k ∈ data.*1 → k ≠ "id" ∧ k ≠ "author_id") →
  let db' := (_update model id old data now db).2 in
  (∀ m, omap row_id (table m db') = omap row_id (table m db))
  ∧ (∀ p, p ∈ posts db' →
          ∃ q, q ∈ posts db ∧ getattr p "author_id" = getattr q "author_id")
  ∧ posts_tags db' = posts_tags db.
Proof.
  intros Hold Hkeys db'. subst db'. unfold _update.
  assert (Hself : ∀ p, p ∈ posts db →
    ∃ q, q ∈ posts db ∧ getattr p "author_id" = getattr q "author_id")
    by (intros p Hp; by exists p).
  destruct (flush_update_rows model id old (update_attrs model old data) now db)
    as [->|(row & -> & Hrow)]; [done|].
  apply head_filter_resolves in Hold as [Hin Hid].
  assert (Hkept : ∀ k, k = "id" ∨ k = "author_id" →
                       getattr row k = getattr old k).
  { intros k Hk. rewrite Hrow.
    - apply getattr_lookup, update_attrs_other.
      intros Hin'. destruct (Hkeys k Hin'). by destruct Hk.
    - destruct Hk as [-> | ->]; destruct model; by_computation. }
  assert (Hrid : row_id row = Some id).
  { apply row_id_getattr. rewrite Hkept by by left. by apply row_id_getattr. }
  simpl. split; [|split].
  - intros m. destruct (decide (m = model)) as [->|Hne].
    + rewrite table_set_table. by apply omap_row_id_replaced.
    + by rewrite table_set_table_ne.
  - destruct model; [done| |done]. simpl.
    intros p (r & -> & Hr)%list_elem_of_fmap. case_bool_decide.
    + exists old. split; [done|]. apply Hkept. by right.
    + by exists r.
  - by destruct model.
Qed.

Lemma references_update (model : Model) (id : Z) (old : Row)
    (data : list (string * Value)) (now : Z) (db : Database) :
  stored model id db = Some old →
  (∀ k, k ∈ data.*1 → k ≠ "id" ∧ k ≠ "author_id") →
  references_ok db →
  references_ok (_update model id old data now db).2.
Proof.
  intros Hold Hkeys.
  destruct (update_keeps_ids model id old data now db Hold Hkeys)
    as (Hids & Hposts & Hlinks).
  apply references_tables; [done|done|]. by rewrite Hlinks.
Qed.

Lemma references_set_post_tags (post_id : Z) (tag_ids : list Z) (now : Z)
    (db : Database) :
  resolves Post post_id db →
  (∀ z, z ∈ tag_ids → resolves Tag z db) →
  references_ok db →
  references_ok (set_post_tags post_id tag_ids now db).2.
Proof.
  intros Hpost Htags [Hauthor Hlink]. split; simpl.
  - apply Hauthor.
  - intros a [[_ Ha]%list_elem_of_filter|Ha]%elem_of_app.
    + apply (Hlink a Ha).
    + apply list_elem_of_fmap in Ha as (z & -> & [_ Hz]%list_elem_of_filter).
      simpl. split; [done|]. by apply Htags.
Qed.

Lemma resolved_tags (tag_ids : list Z) (db d : Database)
    (assigned : option (list Row)) :
  (found ← resolve_tags tag_ids; mret (Some found)) db = (Ok assigned, d) →
  d = db
  ∧ ∃ found, assigned = Some found
             ∧ ∀ z, z ∈ omap row_id found → resolves Tag z db.
Proof.
  unfold mbind, Session_bind.
  destruct (resolve_tags_cases tag_ids db) as [->|[missing ->]]; [|done].
  intros [= <- <-]. split; [done|]. eexists. split; [done|].
  intros z (t & [_ Ht]%list_elem_of_filter & Hz)%list_elem_of_omap.
  apply resolves_exists. by exists t.
Qed.

Lemma insert_resolves (model : Model) (obj row : Row) (now : Z)
    (db d : Database) :
  insert model obj now db = (Ok row, d) →
  row ∈ table model d ∧ ∀ m z, resolves m z db → resolves m z d.
Proof.
  unfold insert.
  set (db1 := if bool_decide (getattr obj "id" = VNone) then _ else db).
  assert (Htables : ∀ m, table m db1 = table m db).
  { intros m. subst db1. case_bool_decide; [|done]. by destruct model, m. }
  destruct (check_columns _ _ _ _ _) as [[]|e]; [|done].
  intros [= <- <-]. split.
  - rewrite table_set_table. apply elem_of_app. right. by left.
  - intros m z. rewrite !resolves_exists. intros (r & Hr & Hz). exists r.
    split; [|done]. destruct (decide (m = model)) as [->|Hne].
    + rewrite table_set_table, Htables. apply elem_of_app. by left.
    + by rewrite table_set_table_ne, Htables.
Qed.

(** X10. No operation of the data-access layer leaves a dangling reference
    or a repeated key: when every post names an existing author, every row
    of posts_tags names an existing post and an existing tag, and primary
    keys are unique, the same holds of the store after any create, update
    or delete call, whether it returns or raises. *)
Theorem operations_keep_references (db : Database) (now id : Z) :
  references_ok db → primary_keys_ok db →
  let kept (db' : Database) := references_ok db' ∧ primary_keys_ok db' in
  (∀ d, kept (create_user d now db).2)
  ∧ (∀ d, kept (update_user id d now db).2)
  ∧ kept (delete_user id db).2
  ∧ (∀ d, kept (create_post id d now db).2)
  ∧ (∀ d, kept (update_post id d now db).2)
  ∧ kept (delete_post id db).2
  ∧ (∀ d, kept (create_tag d now db).2)
  ∧ (∀ d, kept (update_tag id d now db).2)
  ∧ kept (delete_tag id db).2.
Proof.
  intros Hok Hpk kept.
  destruct (operations_keep_primary_keys db now id Hpk)
    as (K1 & K2 & K3 & K4 & K5 & K6 & K7 & K8 & K9).
  assert (Hdelete : ∀ model,
    references_ok
      (get_session (
         found ← _get_by_id model id;
         match found with
         | Some _ => _delete model id;; mret true
         | None => mret false
         end) db).2).
  { intros model. rewrite delete_shape. case_bool_decide; [|done].
    by apply references_delete. }
  assert (Hcreate : ∀ {A} model data (f : Database → Row → A),
    references_ok
      (get_session (
         obj ← _create model data now; d ← get_state; mret (f d obj)) db).2).
  { intros A model data f. apply references_get_session; [done|].
    apply references_bind; [by apply references_insert|].
    intros obj d _ Hd. done. }
  assert (Hupdate : ∀ {A} model data (f : Database → Row → A),
    (∀ k, k ∈ data.*1 → k ≠ "id" ∧ k ≠ "author_id") →
    references_ok
      (get_session (
         found ← _get_by_id model id;
         match found with
         | Some old =>
             updated ← _update model id old data now;
             d ← get_state; mret (Some (f d updated))
         | None => mret None
         end) db).2).
  { intros A model data f Hkeys. apply references_get_session; [done|].
    apply references_bind; [done|]. intros [old|] d' [= Hold <-] _; [|done].
    apply references_bind; [by apply references_update|]. by intros. }
  unfold kept. clear kept.
  split; [|split; [|split; [|split; [|split; [|split; [|split; [|split]]]]]]].
  - intros d. split; [|apply K1]. apply Hcreate.
  - intros d. split; [|apply K2]. apply Hupdate. intros k Hk.
    by destruct (proj2 (user_update_keys d) k Hk) as (_ & _ & ? & ?).
  - split; [|apply K3]. apply Hdelete.
  - intros d. split; [|apply K4]. unfold create_post. apply references_get_session; [done|].
    apply references_bind; [done|]. intros [author|] d' [= Hauthor <-] _; [|done].
    apply references_bind.
    { destruct (PostCreate.tag_ids d) as [[|z l]|]; try done.
      by rewrite resolved_state. }
    intros assigned d1 E _.
    assert (Hassigned : d1 = db
      ∧ ∀ found, assigned = Some found →
                 ∀ z, z ∈ omap row_id found → resolves Tag z db).
    { destruct (PostCreate.tag_ids d) as [[|z l]|].
      - by injection E as <- <-.
      - apply resolved_tags in E as (-> & found & -> & Hfound).
        split; [done|]. by intros ? [= <-].
      - by injection E as <- <-. }
    destruct Hassigned as [-> Hfound].
    apply references_bind; [by apply references_insert|].
    intros post d2 Hins Hd2. apply insert_resolves in Hins as [Hpost Hmono].
    apply references_bind; [|by intros].
    destruct assigned as [found|]; [|done].
    destruct (row_id post) as [post_id|] eqn:Hid; [|done].
    apply references_set_post_tags; [|by eauto|done].
    apply resolves_exists. by exists post.
  - intros d. split; [|apply K5]. unfold update_post. apply references_get_session; [done|].
    apply references_bind; [done|]. intros [old|] d' [= Hold <-] _; [|done].
    apply references_bind.
    { destruct (PostUpdate.tag_ids d) as [[l|]|]; try done.
      by rewrite resolved_state. }
    intros assigned d1 E _.
    assert (Hassigned : d1 = db
      ∧ ∀ found, assigned = Some found →
                 ∀ z, z ∈ omap row_id found → resolves Tag z db).
    { destruct (PostUpdate.tag_ids d) as [[l|]|].
      - apply resolved_tags in E as (-> & found & -> & Hfound).
        split; [done|]. by intros ? [= <-].
      - by injection E as <- <-.
      - by injection E as <- <-. }
    destruct Hassigned as [-> Hfound].
    assert (Hkeys : ∀ k, k ∈ (PostUpdate.model_dump_exclude_unset d).*1 →
                         k ≠ "id" ∧ k ≠ "author_id").
    { intros k Hk.
      by destruct (proj2 (post_update_keys d) k Hk) as (_ & _ & ? & ?). }
    destruct (update_keeps_ids Post id old
                (PostUpdate.model_dump_exclude_unset d) now db Hold Hkeys)
      as (Hids & _ & _).
    apply references_bind; [by apply references_update|].
    intros updated d2 Hupd Hd2. apply (f_equal snd) in Hupd. simpl in Hupd.
    rewrite Hupd in Hids.
    apply references_bind; [|by intros].
    destruct assigned as [found|]; [|done].
    apply references_set_post_tags; [| |done].
    + apply (resolves_same_ids Post id db); [done|].
      apply (head_filter_resolves Post) in Hold as [Hin Hid].
      apply resolves_exists. by exists old.
    + intros z Hz. apply (resolves_same_ids Tag z db); [done|]. by eauto.
  - split; [|apply K6]. apply Hdelete.
  - intros d. split; [|apply K7]. apply Hcreate.
  - intros d. split; [|apply K8]. apply Hupdate. intros k Hk.
    by destruct (proj2 (tag_update_keys d) k Hk) as (_ & _ & ? & ?).
  - split; [|apply K9]. apply Hdelete.
Qed.

Lemma operations_keep_references_witness :
  references_ok sample_db ∧ primary_keys_ok sample_db
  ∧ let kept (db' : Database) := references_ok db' ∧ primary_keys_ok db' in
    (∀ d, kept (create_user d 1700000200 sample_db).2)
    ∧ (∀ d, kept (update_user 1 d 1700000200 sample_db).2)
    ∧ kept (delete_user 1 sample_db).2
    ∧ (∀ d, kept (create_post 1 d 1700000200 sample_db).2)
    ∧ (∀ d, kept (update_post 1 d 1700000200 sample_db).2)
    ∧ kept (delete_post 1 sample_db).2
    ∧ (∀ d, kept (create_tag d 1700000200 sample_db).2)
    ∧ (∀ d, kept (update_tag 1 d 1700000200 sample_db).2)
    ∧ kept (delete_tag 1 sample_db).2.
Proof.
  assert (Hrefs : references_ok sample_db).
  { split.
    - assert (H : forallb
        (λ p, match getattr p "author_id" with
              | VInt a => bool_decide (resolves User a sample_db)
              | _ => false
              end) (posts sample_db) = true) by (vm_compute; reflexivity).
      apply Is_true_true, forallb_True in H. rewrite Forall_forall in H.
      intros p Hp. specialize (H p Hp).
      destruct (getattr p "author_id") as [|a| | | |];
        [destruct H| |destruct H..].
      exists a. split; [done|]. by apply bool_decide_unpack in H.
    - apply Forall_forall. by_computation. }
  assert (Hkeys : primary_keys_ok sample_db) by (intros []; by_computation).
  split; [exact Hrefs|]. split; [exact Hkeys|].
  exact (operations_keep_references sample_db 1700000200 1 Hrefs Hkeys).
Defined.

(** ** What an update checks, and when it writes *)

Lemma check_columns_ok (model : Model) (cols : list Column) (obj : Row)
    (others : list Row) (db : Database) (c : Column) :
  check_columns model cols obj others db = Ok tt →
  c ∈ cols →
  type_ok (col_type c) (getattr obj (col_name c))
  ∧ not_null_ok c (getattr obj (col_name c))
  ∧ unique_ok c (getattr obj (col_name c)) others.
Proof.
  unfold check_columns. intros Hcheck Hc.
  destruct (forallb (λ c, type_ok _ _) cols) eqn:Ht; [|done].
  destruct (forallb (λ c, not_null_ok _ _) cols) eqn:Hn; [|done].
  destruct (forallb (λ c, unique_ok _ _ _) cols) eqn:Hu; [|done].
  apply Is_true_true, forallb_True in Ht, Hn, Hu.
  rewrite Forall_forall in Ht, Hn, Hu. auto.
Qed.

Section Changed.
Context (model : Model) (id : Z) (old : Row) (data : list (string * Value))
  (now : Z) (db : Database).
Hypothesis Hold : stored model id db = Some old.
Hypothesis Hkeys : NoDup data.*1.
Hypothesis Hcols :
  ∀ k, k ∈ data.*1 →
       hasattr model k ∧ (k ∉ onupdate_names model)
       ∧ k ≠ "id" ∧ k ≠ "author_id".

Local Abbreviation new := (update_attrs model old data).
Local Abbreviation changed :=
  (filter (λ c, getattr new (col_name c) ≠ getattr old (col_name c))
     (columns model)).

Lemma changed_spec (c : Column) :
  c ∈ changed ↔
  c ∈ columns model
  ∧ ∃ v, (col_name c, v) ∈ data ∧ getattr old (col_name c) ≠ v.
Proof.
  rewrite list_elem_of_filter. split.
  - intros [Hne Hc]. split; [done|].
    destruct (decide (col_name c ∈ data.*1)) as [Hin|Hno].
    + apply list_elem_of_fmap in Hin as ([k v] & Hk & Hin). simpl in Hk.
      subst k. exists v. split; [done|]. intros Heq. apply Hne.
      by rewrite (new_supplied model old data Hkeys Hcols _ v).
    + exfalso. apply Hne. by apply new_omitted.
  - intros [Hc (v & Hin & Hne)]. split; [|done].
    rewrite (new_supplied model old data Hkeys Hcols _ v) by done.
    congruence.
Qed.

(** When every supplied value is the stored one, nothing is written. *)
Lemma update_unchanged :
  (∀ k v, (k, v) ∈ data → getattr old k = v) →
  _update model id old data now db = (Ok new, db).
Proof.
  intros Hsame. unfold _update, flush_update.
  assert (Hnil : changed = []).
  { apply filter_nil_iff. intros c Hc Hne.
    assert (Hin : c ∈ changed) by (by apply list_elem_of_filter).
    apply changed_spec in Hin as [_ (v & Hin & Hv)]. by apply Hv, Hsame. }
  by rewrite Hnil.
Qed.

Local Abbreviation refreshed :=
  (foldl (λ r c, if onupdate c
                      && bool_decide (col_name c ∉ col_name <$> changed)
                 then setattr r (col_name c) (VDateTime now) else r)
     new (columns model)).

Lemma update_unfold :
  _update model id old data now db
  = if decide (changed = []) then (Ok new, db)
    else
      match check_columns model changed refreshed
              (filter (λ r, row_id r ≠ Some id) (table model db)) db with
      | Raise e => (Raise e, db)
      | Ok _ =>
          (Ok refreshed,
           set_table model
             ((λ r, if bool_decide (row_id r = Some id) then refreshed else r)
                <$> table model db) db)
      end.
Proof.
  unfold _update, flush_update.
  destruct changed as [|c0 rest] eqn:Echanged; [done|].
  by rewrite decide_False.
Qed.

Lemma refreshed_changed (c : Column) :
  c ∈ changed → getattr refreshed (col_name c) = getattr new (col_name c).
Proof.
  intros [_ (v & Hin & _)]%changed_spec.
  apply getattr_lookup, refresh_other. apply Hcols.
  apply list_elem_of_fmap. by exists (col_name c, v).
Qed.

Lemma refreshed_onupdate (k : string) :
  k ∈ onupdate_names model → getattr refreshed k = VDateTime now.
Proof.
  intros (u & -> & [Hup Hu]%list_elem_of_filter)%list_elem_of_fmap.
  assert (Hfresh : col_name u ∉ col_name <$> changed).
  { intros (c' & Heq & [_ (v' & Hin' & _)]%changed_spec)%list_elem_of_fmap.
    assert (Hk : col_name u ∈ data.*1).
    { rewrite Heq. apply list_elem_of_fmap. by exists (col_name c', v'). }
    apply Hcols in Hk as (_ & Hk & _). apply Hk.
    apply list_elem_of_fmap. exists u. split; [done|].
    by apply list_elem_of_filter. }
  generalize (col_name <$> changed) Hfresh. intros names Hnames.
  generalize new. intros r0.
  pose proof (column_names_NoDup model) as Hnd. unfold column_names in Hnd.
  revert r0 Hu Hnd. generalize (columns model). intros cols.
  induction cols as [|c' cols IH]; intros r0 Hu Hnd;
    [by apply elem_of_nil in Hu|].
  rewrite fmap_cons in Hnd. apply NoDup_cons in Hnd as [Hc' Hnd]. simpl.
  apply elem_of_cons in Hu as [<-|Hu]; [|by apply IH].
  apply Is_true_true in Hup. rewrite Hup, bool_decide_eq_true_2 by done.
  simpl. rewrite (getattr_lookup _ (setattr r0 (col_name u) (VDateTime now))).
  - unfold getattr, setattr. by rewrite lookup_insert_eq.
  - apply refresh_other.
    intros (c2 & Heq & [_ Hc2]%list_elem_of_filter)%list_elem_of_fmap.
    apply Hc'. rewrite Heq. apply list_elem_of_fmap. by exists c2.
Qed.

(** [_update] returns exactly when the store accepts every supplied value
    that differs from the stored one. *)
Lemma update_ok_iff :
  (∃ row db', _update model id old data now db = (Ok row, db'))
  ↔ ∀ k v, (k, v) ∈ data → getattr old k ≠ v → accepts model id db k v.
Proof.
  rewrite update_unfold.
  assert (Hfk : foreign_keys_ok model changed refreshed db).
  { assert (Hnot : "author_id" ∉ col_name <$> changed).
    { intros (c & Hc & [_ (v & Hin & _)]%changed_spec)%list_elem_of_fmap.
      assert (Hk : col_name c ∈ data.*1)
        by (apply list_elem_of_fmap; by exists (col_name c, v)).
      rewrite <- Hc in Hk. by apply Hcols in Hk as (_ & _ & _ & ?). }
    unfold foreign_keys_ok. rewrite bool_decide_eq_false_2 by done.
    by destruct model. }
  split.
  - intros (row & db' & Hres) k v Hin Hne c Hc Hname. subst k.
    assert (Hch : c ∈ changed) by (apply changed_spec; eauto).
    destruct (decide (changed = [])) as [Hnil|_];
      [rewrite Hnil in Hch; by apply elem_of_nil in Hch|].
    destruct (check_columns model changed _ _ db) as [[]|e] eqn:Echeck; [|done].
    destruct (check_columns_ok _ _ _ _ _ c Echeck Hch) as (Ht & Hn & Hu).
    rewrite refreshed_changed in Ht, Hn, Hu by done.
    by rewrite (new_supplied model old data Hkeys Hcols _ v) in Ht, Hn, Hu.
  - intros Hall. destruct (decide (changed = [])); [by eauto|].
    rewrite check_columns_accepts; [by eauto| |done].
    intros c Hc. rewrite refreshed_changed by done.
    pose proof Hc as [Hcol (v & Hin & Hne)]%changed_spec.
    rewrite (new_supplied model old data Hkeys Hcols _ v) by done.
    by apply (Hall (col_name c) v).
Qed.

(** A write refreshes the [onupdate] columns; without a write they keep
    their value. *)
Lemma update_refreshes (row : Row) (db' : Database) (k : string) :
  _update model id old data now db = (Ok row, db') →
  k ∈ onupdate_names model →
  getattr row k
  = if bool_decide (Exists (λ kv, getattr old kv.1 ≠ kv.2) data)
    then VDateTime now else getattr old k.
Proof.
  intros Hres Hk.
  assert (Hno : k ∉ data.*1) by (intros Hin; by apply Hcols in Hin as (_ & ? & _)).
  case_bool_decide as Hex.
  - rewrite update_unfold in Hres.
    apply Exists_exists in Hex as ([k' v] & Hin & Hne). simpl in Hne.
    assert (Hattr : hasattr model k').
    { apply Hcols, list_elem_of_fmap. by exists (k', v). }
    apply bool_decide_unpack, list_elem_of_fmap in Hattr as (c & -> & Hc).
    assert (Hch : c ∈ changed) by (apply changed_spec; eauto).
    destruct (decide (changed = [])) as [Hnil|_];
      [rewrite Hnil in Hch; by apply elem_of_nil in Hch|].
    destruct (check_columns model changed _ _ db) as [[]|e]; [|done].
    injection Hres as <- _. by apply refreshed_onupdate.
  - assert (Hsame : ∀ k v, (k, v) ∈ data → getattr old k = v).
    { intros k' v Hin. destruct (decide (getattr old k' = v)) as [|Hne]; [done|].
      exfalso. apply Hex, Exists_exists. by exists (k', v). }
    rewrite (update_unchanged Hsame) in Hres. injection Hres as <- _.
    by apply new_omitted.
Qed.

End Changed.


Lemma update_user_unfold (id : Z) (d : UserUpdate.t) (now : Z) (db : Database)
    (old : Row) :
  stored User id db = Some old →
  update_user id d now db
  = match _update User id old (UserUpdate.model_dump_exclude_unset d) now db
    with
    | (Ok row, db1) => (Ok (Some (user_response db1 true row)), db1)
    | (Raise e, db1) => (Raise e, rollback db db1)
    end.
Proof.
  intros Hold. unfold update_user, get_session, _get_by_id.
  unfold mbind at 1, Session_bind at 1. unfold stored in Hold. rewrite Hold.
  session_steps. by destruct (_update User _ _ _ _ _) as [[row|e] db1].
Qed.

Lemma update_tag_unfold (id : Z) (d : TagUpdate.t) (now : Z) (db : Database)
    (old : Row) :
  stored Tag id db = Some old →
  update_tag id d now db
  = match _update Tag id old (TagUpdate.model_dump_exclude_unset d) now db
    with
    | (Ok row, db1) => (Ok (Some (tag_response db1 true row)), db1)
    | (Raise e, db1) => (Raise e, rollback db db1)
    end.
Proof.
  intros Hold. unfold update_tag, get_session, _get_by_id.
  unfold mbind at 1, Session_bind at 1. unfold stored in Hold. rewrite Hold.
  session_steps. by destruct (_update Tag _ _ _ _ _) as [[row|e] db1].
Qed.

Lemma update_post_unfold (id : Z) (d : PostUpdate.t) (now : Z) (db : Database)
    (old : Row) :
  stored Post id db = Some old →
  update_post id d now db
  = match (match PostUpdate.tag_ids d with
           | Some (Some tag_ids) =>
               found ← resolve_tags tag_ids; mret (Some found)
           | _ => mret None
           end) db with
    | (Raise e, db1) => (Raise e, rollback db db1)
    | (Ok assigned, db1) =>
        match _update Post id old (PostUpdate.model_dump_exclude_unset d)
                now db1 with
        | (Raise e, db2) => (Raise e, rollback db db2)
        | (Ok row, db2) =>
            match (match assigned with
                   | Some found => set_post_tags id (omap row_id found) now
                   | None => mret tt
                   end) db2 with
            | (Ok _, db3) => (Ok (Some (post_response db3 true true row)), db3)
            | (Raise e, db3) => (Raise e, rollback db db3)
            end
        end
    end.
Proof.
  intros Hold. unfold update_post, get_session, _get_by_id.
  unfold mbind at 1, Session_bind at 1. unfold stored in Hold. rewrite Hold.
  destruct (PostUpdate.tag_ids d) as [[l|]|]; session_steps.
  - destruct (resolve_tags l db) as [[found|e] db1]; [|done].
    by destruct (_update Post _ _ _ _ _) as [[row|e] db2].
  - by destruct (_update Post _ _ _ _ _) as [[row|e] db2].
  - by destruct (_update Post _ _ _ _ _) as [[row|e] db2].
Qed.




Lemma post_update_fields (d : PostUpdate.t) (k : string) :
  k ∈ (PostUpdate.model_dump_exclude_unset d).*1 →
  k ∈ ["title"; "content"; "is_published"].
Proof.
  intros Hk. eapply elem_of_sublist; [exact Hk|].
  unfold PostUpdate.model_dump_exclude_unset. rewrite !fmap_app.
  repeat (apply (sublist_app _ [_]); [apply dump_field_sublist|]).
  apply dump_field_sublist.
Qed.

(** X12. The [updated_at] of a post follows the writes, not the calls.
    When [update_post] returns, the stored post carries [updated_at] equal
    to the time of the call if a supplied title, content or published flag
    differs from the stored value, and its previous [updated_at] otherwise,
    a replaced tag list included; [created_at], [author_id], [rating] and
    [views] are never changed, and the response shows the stored
    [updated_at]. *)
Theorem update_post_timestamp (db db' : Database) (id now : Z)
    (d : PostUpdate.t) (old : Row) (r : PostResponse.t) :
  stored Post id db = Some old →
  update_post id d now db = (Ok (Some r), db') →
  ∃ after,
    stored Post id db' = Some after
    ∧ getattr after "updated_at"
      = (if bool_decide
              (Exists (λ kv, getattr old kv.1 ≠ kv.2)
                 (PostUpdate.model_dump_exclude_unset d))
         then VDateTime now else getattr old "updated_at")
    ∧ getattr (PostResponse.row r) "updated_at" = getattr after "updated_at"
    ∧ ∀ k, k ∈ ["created_at"; "author_id"; "rating"; "views"; "id"] →
           getattr after k = getattr old k.
Proof.
  intros Hold Hres.
  destruct (post_update_keys d) as [Hnd Hkeys].
  rewrite (update_post_unfold id d now db old Hold) in Hres.
  assert (Htail : ∀ assigned,
    match _update Post id old (PostUpdate.model_dump_exclude_unset d) now db
    with
    | (Raise e, db2) => (Raise e, rollback db db2)
    | (Ok row, db2) =>
        match (match assigned with
               | Some found => set_post_tags id (omap row_id found) now
               | None => mret tt
               end) db2 with
        | (Ok _, db3) => (Ok (Some (post_response db3 true true row)), db3)
        | (Raise e, db3) => (Raise e, rollback db db3)
        end
    end = (Ok (Some r), db') →
    ∃ after,
      stored Post id db' = Some after
      ∧ getattr after "updated_at"
        = (if bool_decide
                (Exists (λ kv, getattr old kv.1 ≠ kv.2)
                   (PostUpdate.model_dump_exclude_unset d))
           then VDateTime now else getattr old "updated_at")
      ∧ getattr (PostResponse.row r) "updated_at" = getattr after "updated_at"
      ∧ ∀ k, k ∈ ["created_at"; "author_id"; "rating"; "views"; "id"] →
             getattr after k = getattr old k).
  { clear Hres. intros assigned Hres.
    destruct (update_cases Post id old _ now db Hold Hnd Hkeys)
      as [(row & db2 & after & Hu & Hst & [_ Hkept] & Hrow & _)|(e & Hu & _)];
      rewrite Hu in Hres; [|done].
    assert (Es : posts db' = posts db2
                 ∧ r = post_response db' true true row).
    { destruct assigned as [found|];
        cbv [set_post_tags mret Session_ret] in Hres;
        by injection Hres as <- <-. }
    destruct Es as [Es ->].
    exists after. split; [by unfold stored in *; simpl; rewrite Es|].
    assert (Hup : "updated_at" ∈ onupdate_names Post) by by_computation.
    assert (Hcol : "updated_at" ∈ column_names Post) by by_computation.
    split; [|split].
    - rewrite <- Hrow by done.
      by apply (update_refreshes Post id old _ now db Hnd Hkeys row db2).
    - simpl. by apply Hrow.
    - intros k Hk. apply Hkept.
      + intros Hin%post_update_fields.
        apply list_elem_of_In in Hk, Hin. simpl in Hk, Hin.
        destruct Hk as [<-|[<-|[<-|[<-|[<-|[]]]]]];
          destruct Hin as [?|[?|[?|[]]]]; discriminate.
      + change (onupdate_names Post) with ["updated_at"].
        intros Hin. apply list_elem_of_In in Hk, Hin. simpl in Hk, Hin.
        destruct Hin as [<-|[]].
        destruct Hk as [?|[?|[?|[?|[?|[]]]]]]; discriminate. }
  destruct (PostUpdate.tag_ids d) as [[l|]|];
    [|exact (Htail None Hres)..].
  unfold mbind, Session_bind in Hres.
  destruct (resolve_tags_cases l db) as [E|[missing E]]; rewrite E in Hres;
    [|done].
  exact (Htail (Some _) Hres).
Qed.

Lemma update_post_timestamp_witness :
  stored Post 1 sample_db = Some (sample_post 1 1 "Hello" "First post")
  ∧ ∃ r db',
      update_post 1 (PostUpdate.mk (Some (Some "Hello")) None None
                       (Some (Some [2]))) 1700000200 sample_db
      = (Ok (Some r), db')
      ∧ ∃ after,
          stored Post 1 db' = Some after
          ∧ getattr after "updated_at"
            = (if bool_decide
                    (Exists (λ kv, getattr (sample_post 1 1 "Hello" "First post")
                                     kv.1 ≠ kv.2)
                       (PostUpdate.model_dump_exclude_unset
                          (PostUpdate.mk (Some (Some "Hello")) None None
                             (Some (Some [2])))))
               then VDateTime 1700000200
               else getattr (sample_post 1 1 "Hello" "First post") "updated_at")
          ∧ getattr (PostResponse.row r) "updated_at"
            = getattr after "updated_at"
          ∧ ∀ k, k ∈ ["created_at"; "author_id"; "rating"; "views"; "id"] →
                 getattr after k
                 = getattr (sample_post 1 1 "Hello" "First post") k.
Proof.
  assert (Hold : stored Post 1 sample_db
                 = Some (sample_post 1 1 "Hello" "First post"))
    by by_computation.
  split; [exact Hold|].
  assert (Hok : match (update_post 1 (PostUpdate.mk (Some (Some "Hello")) None
                                         None (Some (Some [2])))
                         1700000200 sample_db).1
                with Ok (Some _) => True | _ => False end)
    by (vm_compute; exact I).
  destruct (update_post 1 _ 1700000200 sample_db)
    as [[[r|]|e] db'] eqn:E; [|destruct Hok..].
  exists r, db'. split; [reflexivity|].
  exact (update_post_timestamp _ _ _ _ _ _ _ Hold E).
Defined.


Lemma filter_all {A : Type} (P : A → Prop) `{∀ x, Decision (P x)}
    (l : list A) :
  (∀ x, x ∈ l → P x) → filter P l = l.
Proof.
  induction l as [|a l IH]; intros Hall; [done|].
  rewrite filter_cons_True by (apply Hall; left).
  f_equal. apply IH. intros x Hx. apply Hall. by right.
Qed.



(** * The services *)

(** ** The REST endpoints *)

Tactic Notation "endpoint_steps" :=
  unfold try_except, call, mbind, Endpoint_bind, mret, Endpoint_ret, raise_;
  cbv beta iota.

Lemma get_unknown (db : Database) (id : Z)
    (include_posts include_author include_tags : bool) :
  (¬ resolves User id db → get_user id include_posts db = (Ok None, db))
  ∧ (¬ resolves Post id db →
     get_post id include_author include_tags db = (Ok None, db))
  ∧ (¬ resolves Tag id db → get_tag id include_posts db = (Ok None, db)).
Proof.
  assert (Hnil : ∀ model, ¬ resolves model id db →
    filter (λ r, row_id r = Some id) (table model db) = []).
  { intros model Hno. apply filter_nil_iff. intros r Hr Hid. apply Hno.
    apply Exists_exists. by exists r. }
  split; [|split]; intros Hno; unfold get_user, get_post, get_tag, get_session;
    session_steps.
  - pose proof (Hnil User Hno) as E. cbn [table] in E. by rewrite E.
  - pose proof (Hnil Post Hno) as E. cbn [table] in E. by rewrite E.
  - pose proof (Hnil Tag Hno) as E. cbn [table] in E. by rewrite E.
Qed.




Lemma same_tables_refl (db : Database) : same_tables db db.
Proof. done. Qed.







(** ** The GraphQL mutations *)







(** ** The MCP tools *)



(** ** Lists, single records and relationships agree *)

Lemma scalar_one_Some (rows : list Row) (db db' : Database) (r : Row) :
  scalar_one_or_none rows db = (Ok (Some r), db') → rows = [r] ∧ db' = db.
Proof.
  destruct rows as [|r1 [|r2 rows]]; [done| |done]. by intros [= -> ->].
Qed.

Lemma get_user_Some (id : Z) (include_posts : bool) (db db' : Database)
    (r : UserResponse.t) :
  get_user id include_posts db = (Ok (Some r), db') →
  ∃ row, r = user_response db include_posts row ∧ row ∈ users db
         ∧ row_id row = Some id
         ∧ filter (λ r, row_id r = Some id) (users db) = [row] ∧ db' = db.
Proof.
  unfold get_user, get_session. session_steps.
  destruct (scalar_one_or_none _ db) as [[[row|]|e] db1] eqn:E; [|done..].
  apply scalar_one_Some in E as [Hrows ->]. intros [= <- <-].
  exists row. split; [done|].
  assert (Hin : row ∈ filter (λ r, row_id r = Some id) (users db))
    by (rewrite Hrows; left).
  apply list_elem_of_filter in Hin as [Hid Hin]. done.
Qed.

Lemma get_post_Some (id : Z) (include_author include_tags : bool)
    (db db' : Database) (r : PostResponse.t) :
  get_post id include_author include_tags db = (Ok (Some r), db') →
  ∃ row, r = post_response db include_author include_tags row
         ∧ row ∈ posts db ∧ row_id row = Some id
         ∧ filter (λ r, row_id r = Some id) (posts db) = [row] ∧ db' = db.
Proof.
  unfold get_post, get_session. session_steps.
  destruct (scalar_one_or_none _ db) as [[[row|]|e] db1] eqn:E; [|done..].
  apply scalar_one_Some in E as [Hrows ->]. intros [= <- <-].
  exists row. split; [done|].
  assert (Hin : row ∈ filter (λ r, row_id r = Some id) (posts db))
    by (rewrite Hrows; left).
  apply list_elem_of_filter in Hin as [Hid Hin]. done.
Qed.

Lemma get_tag_Some (id : Z) (include_posts : bool) (db db' : Database)
    (r : TagResponse.t) :
  get_tag id include_posts db = (Ok (Some r), db') →
  ∃ row, r = tag_response db include_posts row ∧ row ∈ tags db
         ∧ row_id row = Some id
         ∧ filter (λ r, row_id r = Some id) (tags db) = [row] ∧ db' = db.
Proof.
  unfold get_tag, get_session. session_steps.
  destruct (scalar_one_or_none _ db) as [[[row|]|e] db1] eqn:E; [|done..].
  apply scalar_one_Some in E as [Hrows ->]. intros [= <- <-].
  exists row. split; [done|].
  assert (Hin : row ∈ filter (λ r, row_id r = Some id) (tags db))
    by (rewrite Hrows; left).
  apply list_elem_of_filter in Hin as [Hid Hin]. done.
Qed.

(** X19. The two sides of a relationship agree. For a post and a tag that
    [get_post] and [get_tag] return (relationships loaded), the tag is among
    the tags of the post exactly when the post is among the posts of the tag.
    For a user and a post that [get_user] and [get_post] return, the post is
    among the posts of the user exactly when the user is the author of the
    post. *)
Theorem relationships_agree (db db1 db2 db3 : Database)
    (user_id post_id tag_id : Z)
    (user : UserResponse.t) (post : PostResponse.t) (tag : TagResponse.t) :
  get_user user_id true db = (Ok (Some user), db1) →
  get_post post_id true true db = (Ok (Some post), db2) →
  get_tag tag_id true db = (Ok (Some tag), db3) →
  (TagResponse.row tag ∈ PostResponse.tags post
   ↔ PostResponse.row post ∈ TagResponse.posts tag)
  ∧ (PostResponse.row post ∈ UserResponse.posts user
     ↔ PostResponse.author post = Some (UserResponse.row user)).
Proof.
  intros (u & -> & Hu & Hui & Hus & _)%get_user_Some
         (p & -> & Hp & Hpi & Hps & _)%get_post_Some
         (t & -> & Ht & Hti & Hts & _)%get_tag_Some.
  simpl. rewrite Hui, Hpi, Hti. split.
  - unfold post_tags, tag_posts. rewrite !list_elem_of_filter, !id_in_spec.
    unfold post_tag_ids, tag_post_ids.
    split; intros [(z & Hz & Hin) _]; (split; [|done]).
    + rewrite Hti in Hz. injection Hz as <-. exists post_id. split; [done|].
      apply list_elem_of_fmap in Hin as (a & Ha & [Hap Hin]%list_elem_of_filter).
      apply list_elem_of_fmap. exists a. split; [done|].
      by apply list_elem_of_filter.
    + rewrite Hpi in Hz. injection Hz as <-. exists tag_id. split; [done|].
      apply list_elem_of_fmap in Hin as (a & Ha & [Hat Hin]%list_elem_of_filter).
      apply list_elem_of_fmap. exists a. split; [done|].
      by apply list_elem_of_filter.
  - unfold user_posts, post_author. rewrite list_elem_of_filter. split.
    + intros [Ha _]. by rewrite Ha, Hus.
    + intros Hauthor. split; [|done].
      destruct (getattr p "author_id") as [|a| | | |]; try done.
      assert (Hin : u ∈ filter (λ r, row_id r = Some a) (users db)).
      { destruct (filter (λ r, row_id r = Some a) (users db)) as [|r l];
          [done|].
        simpl in Hauthor. injection Hauthor as ->. left. }
      apply list_elem_of_filter in Hin as [Ha _]. congruence.
Qed.

Lemma relationships_agree_witness :
  ∃ user post tag db1 db2 db3,
    get_user 1 true sample_db = (Ok (Some user), db1)
    ∧ get_post 1 true true sample_db = (Ok (Some post), db2)
    ∧ get_tag 2 true sample_db = (Ok (Some tag), db3)
    ∧ (TagResponse.row tag ∈ PostResponse.tags post
       ↔ PostResponse.row post ∈ TagResponse.posts tag)
    ∧ (PostResponse.row post ∈ UserResponse.posts user
       ↔ PostResponse.author post = Some (UserResponse.row user)).
Proof.
  assert (HU : match (get_user 1 true sample_db).1 with
               | Ok (Some _) => True
               | _ => False
               end) by (vm_compute; exact I).
  assert (HP : match (get_post 1 true true sample_db).1 with
               | Ok (Some _) => True
               | _ => False
               end) by (vm_compute; exact I).
  assert (HT : match (get_tag 2 true sample_db).1 with
               | Ok (Some _) => True
               | _ => False
               end) by (vm_compute; exact I).
  destruct (get_user 1 true sample_db) as [[[user|]|e] db1] eqn:EU;
    [|destruct HU..].
  destruct (get_post 1 true true sample_db) as [[[post|]|e] db2] eqn:EP;
    [|destruct HP..].
  destruct (get_tag 2 true sample_db) as [[[tag|]|e] db3] eqn:ET;
    [|destruct HT..].
  exists user, post, tag, db1, db2, db3.
  split; [reflexivity|]. split; [reflexivity|]. split; [reflexivity|].
  exact (relationships_agree sample_db db1 db2 db3 1 1 2 user post tag
           EU EP ET).
Defined.

(** X20. Lists and single lookups agree. In a store with unique primary
    keys, every item that [get_all_tags], [search_users] or [search_posts]
    returns is the record that [get_tag], [get_user] or [get_post] returns
    for the identifier of the item, with the same relationship flags. *)
Theorem listed_items_are_found (db : Database) (include_posts : bool)
    (user_search : UserSearch.t) (post_search : PostSearch.t) (id : Z) :
  primary_keys_ok db →
  (∀ found tag,
     get_all_tags include_posts db = (Ok found, db) →
     tag ∈ found → row_id (TagResponse.row tag) = Some id →
     get_tag id include_posts db = (Ok (Some tag), db))
  ∧ (∀ found user,
       search_users user_search db = (Ok found, db) →
       user ∈ found → row_id (UserResponse.row user) = Some id →
       get_user id (UserSearch.include_posts user_search) db
       = (Ok (Some user), db))
  ∧ (∀ found post,
       search_posts post_search db = (Ok found, db) →
       post ∈ found → row_id (PostResponse.row post) = Some id →
       get_post id (PostSearch.include_author post_search)
         (PostSearch.include_tags post_search) db
       = (Ok (Some post), db)).
Proof.
  intros Hok.
  assert (Hone : ∀ model row,
    row ∈ table model db → row_id row = Some id →
    filter (λ r, row_id r = Some id) (table model db) = [row]).
  { intros model row Hin Hid.
    destruct (filter_key_unique row_id id (table model db) (Hok model))
      as [Hnil|[r Hr]].
    - exfalso. eapply filter_nil_iff; [exact Hnil|exact Hin|exact Hid].
    - assert (Hin' : row ∈ filter (λ r, row_id r = Some id) (table model db))
        by (by apply list_elem_of_filter).
      rewrite Hr in Hin'. apply list_elem_of_singleton in Hin' as ->. done. }
  assert (Hpage : ∀ filters skip limit rows row,
    row ∈ search_rows filters skip limit rows → row ∈ rows).
  { intros filters skip limit rows row Hin.
    eapply elem_of_sublist; [exact Hin|]. unfold search_rows.
    etransitivity; [apply sublist_take|].
    etransitivity; [apply sublist_drop|].
    destruct filters; [done|]. apply sublist_filter. }
  split; [|split].
  - intros found tag [= <-] (row & -> & Hin)%list_elem_of_fmap Hid.
    simpl in Hid. unfold get_tag, get_session. session_steps.
    pose proof (Hone Tag row Hin Hid) as E. cbn [table] in E. by rewrite E.
  - intros found user [= <-] (row & -> & Hin%Hpage)%list_elem_of_fmap Hid.
    simpl in Hid. unfold get_user, get_session. session_steps.
    pose proof (Hone User row Hin Hid) as E. cbn [table] in E. by rewrite E.
  - intros found post [= <-] (row & -> & Hin%Hpage)%list_elem_of_fmap Hid.
    simpl in Hid. unfold get_post, get_session. session_steps.
    pose proof (Hone Post row Hin Hid) as E. cbn [table] in E. by rewrite E.
Qed.

Lemma listed_items_are_found_witness :
  primary_keys_ok sample_db
  ∧ ∃ found tag,
      get_all_tags true sample_db = (Ok found, sample_db)
      ∧ tag ∈ found
      ∧ row_id (TagResponse.row tag) = Some 2
      ∧ get_tag 2 true sample_db = (Ok (Some tag), sample_db).
Proof.
  assert (Hok : primary_keys_ok sample_db) by (intros []; by_computation).
  split; [exact Hok|].
  exists (tag_response sample_db true <$> tags sample_db),
    (tag_response sample_db true (sample_tag 2 "tech")).
  assert (E : get_all_tags true sample_db
              = (Ok (tag_response sample_db true <$> tags sample_db),
                 sample_db)) by reflexivity.
  assert (Hin : tag_response sample_db true (sample_tag 2 "tech")
                ∈ tag_response sample_db true <$> tags sample_db).
  { apply list_elem_of_fmap. exists (sample_tag 2 "tech").
    split; [reflexivity|]. right. left. }
  assert (Hid : row_id (TagResponse.row
                          (tag_response sample_db true (sample_tag 2 "tech")))
                = Some 2) by by_computation.
  split; [exact E|]. split; [exact Hin|]. split; [exact Hid|].
  exact (proj1 (listed_items_are_found sample_db true
                  (UserSearch.mk None None None None false 0 10)
                  (PostSearch.mk None None false false 0 10) 2 Hok)
           _ _ E Hin Hid).
Defined.

(** ** What a reset executes *)

Lemma split_nonempty (sep : ascii) (s : string) : split sep s ≠ [].
Proof.
  destruct s as [|c s]; simpl; [done|].
  destruct (Ascii.eqb c sep); [done|]. by destruct (split sep s).
Qed.

Lemma split_concat (sep : ascii) (s : string) :
  String.concat (String sep EmptyString) (split sep s) = s.
Proof.
  induction s as [|c s IH]; [done|]. simpl.
  destruct (Ascii.eqb_spec c sep) as [->|Hne].
  - pose proof (split_nonempty sep s) as Hne.
    destruct (split sep s) as [|piece pieces]; [done|].
    simpl in *. by rewrite IH.
  - pose proof (split_nonempty sep s) as Hne'.
    destruct (split sep s) as [|piece pieces]; [done|].
    simpl in *. destruct pieces as [|piece' pieces]; by rewrite <- IH.
Qed.

Lemma split_pieces (sep : ascii) (s piece : string) :
  piece ∈ split sep s → sep ∉ String.list_ascii_of_string piece.
Proof.
  revert piece. induction s as [|c s IH]; intros piece; simpl.
  - intros ->%list_elem_of_singleton. apply not_elem_of_nil.
  - destruct (Ascii.eqb_spec c sep) as [->|Hne].
    + intros [->|Hin]%elem_of_cons; [apply not_elem_of_nil|by apply IH].
    + pose proof (split_nonempty sep s) as Hne'.
      destruct (split sep s) as [|first pieces]; [done|].
      intros [->|Hin]%elem_of_cons.
      * simpl. apply not_elem_of_cons. split; [done|]. apply IH. left.
      * apply IH. by right.
Qed.

Lemma execute_all_run (execute : string → Session unit)
    (statements : list string) (db : Database) :
  execute_all execute statements db
  = run_all execute (filter (λ s, blank s = false) statements) db.
Proof.
  revert db. induction statements as [|st rest IH]; intros db; [done|].
  simpl. destruct (blank st) eqn:Hblank.
  - rewrite filter_cons_False by (by rewrite Hblank). session_steps.
    apply IH.
  - rewrite filter_cons_True by done. simpl. session_steps.
    destruct (execute st db) as [[[]|e] db1]; [apply IH|done].
Qed.

(** X21. What a reset executes. The script is cut at every [;], whatever
    surrounds it: no piece contains a [;] and the pieces joined by [;] give
    the script back. [reset_database] runs the pieces that are not blank,
    in order, in one session on the empty schema, so its outcome does not
    depend on the store before the call. The GraphQL mutation never raises:
    it returns true or false, and false leaves every table empty. *)
Theorem reset_executes_pieces (execute : string → Session unit)
    (sql_script : string) (db : Database) :
  let pieces := split ";" sql_script in
  String.concat ";" pieces = sql_script
  ∧ (∀ piece, piece ∈ pieces →
              ";"%char ∉ String.list_ascii_of_string piece)
  ∧ reset_database execute sql_script db
    = get_session
        (run_all execute (filter (λ s, blank s = false) pieces))
        empty_database
  ∧ ∃ ok db',
      graphql_reset_database execute sql_script db = (Returns ok, db')
      ∧ (ok = false →
         users db' = [] ∧ posts db' = [] ∧ tags db' = []
         ∧ posts_tags db' = []).
Proof.
  intros pieces. split; [apply split_concat|].
  split; [intros piece; apply split_pieces|].
  assert (Hreset : reset_database execute sql_script db
    = get_session (run_all execute (filter (λ s, blank s = false) pieces))
        empty_database).
  { unfold reset_database, get_session. by rewrite execute_all_run. }
  split; [exact Hreset|].
  unfold graphql_reset_database. rewrite Hreset. unfold get_session.
  destruct (run_all execute _ empty_database) as [[[]|e] db1].
  - by exists true, db1.
  - by exists false, (rollback empty_database db1).
Qed.

Lemma reset_executes_pieces_witness :
  ∃ db',
    graphql_reset_database sample_execute
      (insert_news +:+ ";" +:+ insert_news) sample_db
    = (Returns false, db')
    ∧ users db' = [] ∧ posts db' = [] ∧ tags db' = [] ∧ posts_tags db' = [].
Proof.
  destruct (reset_executes_pieces sample_execute
              (insert_news +:+ ";" +:+ insert_news) sample_db)
    as (_ & _ & _ & ok & db' & E & Hempty).
  assert (Hno : match (graphql_reset_database sample_execute
                         (insert_news +:+ ";" +:+ insert_news) sample_db).1
                with Returns false => True | _ => False end)
    by (vm_compute; exact I).
  rewrite E in Hno. destruct ok; [destruct Hno|].
  exists db'. split; [exact E|]. exact (Hempty eq_refl).
Defined.

(** ** Unique columns stay unique *)

Lemma omap_sublist_of {A B : Type} (f : A → option B) (l1 l2 : list A) :
  l1 `sublist_of` l2 → omap f l1 `sublist_of` omap f l2.
Proof.
  induction 1 as [|x l1 l2 _ IH|x l1 l2 _ IH]; simpl; [done| |].
  - destruct (f x); [by constructor|done].
  - destruct (f x); [by constructor|done].
Qed.

Lemma unique_sublists (db db' : Database) :
  (∀ model, table model db' `sublist_of` table model db) →
  unique_columns_ok db → unique_columns_ok db'.
Proof.
  intros Hsub Hok model c Hc Hu.
  apply (sublist_NoDup _ (omap (index_key (col_name c)) (table model db)));
    [by apply Hok|apply omap_sublist_of, Hsub].
Qed.

Lemma unique_tables (db db' : Database) :
  (∀ model, table model db' = table model db) →
  unique_columns_ok db → unique_columns_ok db'.
Proof. intros Heq. apply unique_sublists. intros model. by rewrite Heq. Qed.

Lemma unique_get_session {A : Type} (body : Session A) (db : Database) :
  unique_columns_ok db →
  unique_columns_ok (body db).2 →
  unique_columns_ok (get_session body db).2.
Proof.
  intros Hdb Hbody. unfold get_session.
  destruct (body db) as [[a|e] db1]; [done|].
  revert Hdb. apply unique_tables. by intros [].
Qed.

Lemma unique_bind {A B : Type} (c : Session A) (k : A → Session B)
    (db : Database) :
  unique_columns_ok (c db).2 →
  (∀ a d, c db = (Ok a, d) → unique_columns_ok d →
          unique_columns_ok (k a d).2) →
  unique_columns_ok ((c ≫= k) db).2.
Proof.
  intros Hc Hk. unfold mbind, Session_bind.
  destruct (c db) as [[a|e] d] eqn:E; [|done]. by apply Hk.
Qed.

Lemma index_key_fresh (c : Column) (row : Row) (rows : list Row) (v : Value) :
  unique c = true →
  unique_ok c (getattr row (col_name c)) rows →
  index_key (col_name c) row = Some v →
  v ∉ omap (index_key (col_name c)) rows.
Proof.
  unfold unique_ok, index_key. intros Hu Hok Hv Hin. rewrite Hu in Hok.
  simpl in Hok. case_bool_decide as Hnull; [done|]. injection Hv as <-.
  simpl in Hok. apply forallb_True in Hok. rewrite Forall_forall in Hok.
  apply list_elem_of_omap in Hin as (r & Hr & Hkey).
  specialize (Hok r Hr). case_bool_decide as Hr'; [done|].
  cbv zeta in Hkey. case_bool_decide; [done|]. congruence.
Qed.

Lemma unique_insert (model : Model) (obj : Row) (now : Z) (db : Database) :
  unique_columns_ok db → unique_columns_ok (insert model obj now db).2.
Proof.
  intros Hok. unfold insert.
  set (db1 := if bool_decide (getattr obj "id" = VNone) then _ else db).
  assert (Htab : ∀ m, table m db1 = table m db).
  { intros m. subst db1. case_bool_decide; [|done]. by destruct model, m. }
  set (row := foldl _ obj (columns model)).
  destruct (check_columns model _ row _ db1) as [[]|e] eqn:Hcheck; simpl.
  - intros m c Hc Hu. destruct (decide (m = model)) as [->|Hne].
    + rewrite table_set_table, omap_app, Htab. simpl.
      destruct (index_key (col_name c) row) as [v|] eqn:Hv;
        [|rewrite app_nil_r; by apply Hok].
      apply NoDup_app. split; [by apply Hok|]. split; [|apply NoDup_singleton].
      intros x Hx ->%list_elem_of_singleton. revert Hx.
      apply (index_key_fresh c row); [done| |done].
      rewrite <- Htab. by eapply check_columns_unique.
    + rewrite table_set_table_ne, Htab by done. by apply Hok.
  - revert Hok. by apply unique_tables.
Qed.

Lemma delete_sublists (model : Model) (id : Z) (db : Database) (m : Model) :
  table m (delete_rows model id db) `sublist_of` table m db.
Proof.
  assert (Hpost : ∀ pid d m', table m' (delete_post_rows pid d)
                                `sublist_of` table m' d).
  { intros pid d m'. destruct m'; simpl; [done| |done]. apply sublist_filter. }
  destruct model; unfold delete_rows; cbv zeta.
  - set (l := omap row_id _). clearbody l.
    assert (Hfold : ∀ m', table m' (foldl (λ d pid, delete_post_rows pid d) db l)
                            `sublist_of` table m' db).
    { intros m'. revert db. induction l as [|pid l IH]; intros db; [done|].
      simpl. etransitivity; [apply IH|apply Hpost]. }
    destruct m; simpl.
    + etransitivity; [apply sublist_filter|apply (Hfold User)].
    + etransitivity; [apply sublist_filter|apply (Hfold Post)].
    + apply (Hfold Tag).
  - apply Hpost.
  - destruct m; simpl; [done|done|]. apply sublist_filter.
Qed.

(** Replacing the row of key [id] keeps a unique column unique when the new
    value is the old one, is NULL, or differs from the value of every other
    row. *)
Lemma unique_replace (k : string) (id : Z) (rows : list Row) (old row : Row) :
  NoDup (omap row_id rows) →
  old ∈ rows → row_id old = Some id →
  NoDup (omap (index_key k) rows) →
  index_key k row = index_key k old
  ∨ index_key k row = None
  ∨ (∀ r, r ∈ filter (λ r, row_id r ≠ Some id) rows →
          getattr r k ≠ getattr row k) →
  NoDup (omap (index_key k)
           ((λ r, if bool_decide (row_id r = Some id) then row else r)
              <$> rows)).
Proof.
  intros Hpk Hold Hid Hnd Hrow.
  assert (Hother : ∀ r, r ∈ rows → row_id r ≠ Some id →
                        index_key k r = None ∨ index_key k r ≠ index_key k row).
  { intros r Hr Hne.
    destruct (index_key k r) as [v|] eqn:Hv; [right|by left].
    destruct Hrow as [Heq|[Hnone|Hfresh]].
    - rewrite Heq. intros Hv'.
      assert (Hi : ∃ i, rows !! i = Some r) by (by apply list_elem_of_lookup).
      assert (Hj : ∃ j, rows !! j = Some old) by (by apply list_elem_of_lookup).
      destruct Hi as [i Hi], Hj as [j Hj].
      destruct (decide (r = old)) as [->|Hdiff]; [done|].
      clear -Hnd Hi Hj Hv Hv' Hdiff. revert i j Hi Hj.
      induction rows as [|x rows IH]; intros i j Hi Hj; [done|].
      simpl in Hnd.
      destruct i as [|i], j as [|j]; simpl in Hi, Hj.
      + congruence.
      + injection Hi as ->. rewrite Hv in Hnd. apply NoDup_cons in Hnd as [Hx _].
        apply Hx, list_elem_of_omap. exists old. split; [|done].
        by eapply list_elem_of_lookup_2.
      + injection Hj as ->. rewrite <- Hv' in Hnd.
        apply NoDup_cons in Hnd as [Hx _].
        apply Hx, list_elem_of_omap. exists r. split; [|done].
        by eapply list_elem_of_lookup_2.
      + apply (IH ltac:(destruct (index_key k x);
                        [by apply NoDup_cons in Hnd as [_ ?]|done]) i j Hi Hj).
    - by rewrite Hnone.
    - intros Hv'. apply (Hfresh r); [by apply list_elem_of_filter|].
      unfold index_key in Hv, Hv'. cbv zeta in Hv, Hv'.
      repeat case_bool_decide; congruence. }
  clear Hrow. revert Hpk Hold Hnd Hother.
  induction rows as [|x rows IH]; intros Hpk Hold Hnd Hother; [done|].
  rewrite fmap_cons. simpl in Hpk, Hnd. case_bool_decide as Hx.
  - rewrite Hx in Hpk. apply NoDup_cons in Hpk as [Hfirst Hpk].
    assert (Hsame : (λ r, if bool_decide (row_id r = Some id) then row else r)
                      <$> rows = rows).
    { rewrite <- (list_fmap_id rows) at 2. apply list_fmap_ext.
      intros i r Hr. simpl. rewrite bool_decide_eq_false_2; [done|].
      intros Hr'. apply Hfirst, list_elem_of_omap. exists r.
      split; [by eapply list_elem_of_lookup_2|done]. }
    rewrite Hsame. simpl.
    assert (Htail : NoDup (omap (index_key k) rows)).
    { destruct (index_key k x); [by apply NoDup_cons in Hnd as [_ ?]|done]. }
    destruct (index_key k row) as [v|] eqn:Hv; [|done].
    apply NoDup_cons. split; [|done].
    intros (r & Hr & Hkey)%list_elem_of_omap.
    destruct (Hother r) as [Hnone|Hne]; [by right| |congruence|congruence].
    intros Hr'. apply Hfirst, list_elem_of_omap. by exists r.
  - assert (Hold' : old ∈ rows).
    { apply elem_of_cons in Hold as [->|?]; [done|done]. }
    assert (Hpk' : NoDup (omap row_id rows)).
    { destruct (row_id x); [by apply NoDup_cons in Hpk as [_ ?]|done]. }
    assert (Htail : NoDup (omap (index_key k) rows)).
    { destruct (index_key k x); [by apply NoDup_cons in Hnd as [_ ?]|done]. }
    assert (IH' := IH Hpk' Hold' Htail
                     (λ r Hr, Hother r (list_elem_of_further r x rows Hr))).
    simpl. destruct (index_key k x) as [v|] eqn:Hv; [|done].
    apply NoDup_cons. split; [|done].
    intros (r' & Hr' & Hkey)%list_elem_of_omap.
    apply list_elem_of_fmap in Hr' as (r & -> & Hr).
    case_bool_decide as Hr'.
    + destruct (Hother x) as [Hnone|Hne]; [left|done|congruence|congruence].
    + apply NoDup_cons in Hnd as [Hfirst _]. apply Hfirst, list_elem_of_omap.
      by exists r.
Qed.

Lemma unique_not_refreshed (model : Model) (c : Column) :
  c ∈ columns model → unique c = true → col_name c ∉ onupdate_names model.
Proof.
  intros Hc Hu. apply list_elem_of_In in Hc.
  destruct model; simpl in Hc;
    repeat (destruct Hc as [<-|Hc]; [first [discriminate Hu|by_computation]|]);
    destruct Hc.
Qed.

Lemma unique_update (model : Model) (id : Z) (old : Row)
    (data : list (string * Value)) (now : Z) (db : Database) :
  stored model id db = Some old →
  NoDup data.*1 →
  (∀ k, k ∈ data.*1 →
        hasattr model k ∧ (k ∉ onupdate_names model)
        ∧ k ≠ "id" ∧ k ≠ "author_id") →
  primary_keys_ok db →
  unique_columns_ok db →
  unique_columns_ok (_update model id old data now db).2.
Proof.
  intros Hold Hnd Hcols Hpk Hok. rewrite update_unfold.
  destruct (decide (_ = [])) as [|_]; [done|].
  destruct (check_columns model _ _ _ db) as [[]|e] eqn:Hcheck; [|done].
  simpl. intros m c Hc Hu. destruct (decide (m = model)) as [->|Hne];
    [|rewrite table_set_table_ne by done; by apply Hok].
  rewrite table_set_table.
  pose proof (head_filter_resolves model id db old Hold) as [Hin Hid].
  apply (unique_replace (col_name c) id (table model db) old);
    [apply Hpk|done|done|by apply Hok|].
  destruct (decide (getattr (update_attrs model old data) (col_name c)
                    = getattr old (col_name c))) as [Hsame|Hdiff].
  - left. unfold index_key.
    rewrite (getattr_lookup _ (update_attrs model old data));
      [by rewrite Hsame|].
    apply refresh_other. by apply unique_not_refreshed.
  - assert (Hch : c ∈ filter
                        (λ c, getattr (update_attrs model old data) (col_name c)
                              ≠ getattr old (col_name c)) (columns model))
      by (by apply list_elem_of_filter).
    destruct (check_columns_ok _ _ _ _ _ c Hcheck Hch) as (_ & _ & Huniq).
    unfold unique_ok in Huniq. rewrite Hu in Huniq. simpl in Huniq.
    apply orb_True in Huniq as [Hnull|Hall].
    + right. left. unfold index_key. cbv zeta.
      by rewrite (bool_decide_eq_true_2 _ (bool_decide_unpack _ Hnull)).
    + right. right. intros r Hr Heq.
      apply forallb_True in Hall. rewrite Forall_forall in Hall.
      specialize (Hall r Hr). by rewrite bool_decide_eq_true_2 in Hall.
Qed.

(** X22. The unique columns stay unique. When primary keys are unique and
    no two users share a nickname or an email and no two tags a title, the
    same holds of the store after any create, update or delete call,
    whether it returns or raises. *)
Theorem operations_keep_unique_columns (db : Database) (now id : Z) :
  primary_keys_ok db → unique_columns_ok db →
  (∀ d, unique_columns_ok (create_user d now db).2)
  ∧ (∀ d, unique_columns_ok (update_user id d now db).2)
  ∧ unique_columns_ok (delete_user id db).2
  ∧ (∀ d, unique_columns_ok (create_post id d now db).2)
  ∧ (∀ d, unique_columns_ok (update_post id d now db).2)
  ∧ unique_columns_ok (delete_post id db).2
  ∧ (∀ d, unique_columns_ok (create_tag d now db).2)
  ∧ (∀ d, unique_columns_ok (update_tag id d now db).2)
  ∧ unique_columns_ok (delete_tag id db).2.
Proof.
  intros Hpk Hok.
  assert (Hdelete : ∀ model,
    unique_columns_ok
      (get_session (
         found ← _get_by_id model id;
         match found with
         | Some _ => _delete model id;; mret true
         | None => mret false
         end) db).2).
  { intros model. rewrite delete_shape. case_bool_decide; [|done].
    revert Hok. apply unique_sublists. apply delete_sublists. }
  assert (Hcreate : ∀ {A} model data (f : Database → Row → A),
    unique_columns_ok
      (get_session (
         obj ← _create model data now; d ← get_state; mret (f d obj)) db).2).
  { intros A model data f. apply unique_get_session; [done|].
    apply unique_bind; [by apply unique_insert|]. by intros. }
  assert (Hupdate : ∀ {A} model data (f : Database → Row → A),
    NoDup data.*1 →
    (∀ k, k ∈ data.*1 →
          hasattr model k ∧ (k ∉ onupdate_names model)
          ∧ k ≠ "id" ∧ k ≠ "author_id") →
    unique_columns_ok
      (get_session (
         found ← _get_by_id model id;
         match found with
         | Some old =>
             updated ← _update model id old data now;
             d ← get_state; mret (Some (f d updated))
         | None => mret None
         end) db).2).
  { intros A model data f Hnd Hkeys. apply unique_get_session; [done|].
    apply unique_bind; [done|]. intros [old|] d' [= Hold <-] _; [|done].
    apply unique_bind; [by apply unique_update|]. by intros. }
  assert (Hlinks : ∀ assigned post_id d,
    unique_columns_ok d →
    unique_columns_ok
      ((match assigned with
        | Some found => set_post_tags post_id (omap row_id found) now
        | None => mret tt
        end) d).2).
  { intros [found|] post_id d Hd; [|done]. revert Hd.
    apply unique_tables. by intros []. }
  split; [|split; [|split; [|split; [|split; [|split; [|split; [|split]]]]]]].
  - intros d. apply Hcreate.
  - intros d. destruct (user_update_keys d). by apply Hupdate.
  - apply Hdelete.
  - intros d. unfold create_post. apply unique_get_session; [done|].
    apply unique_bind; [done|]. intros [author|] d' [= Hauthor <-] _; [|done].
    apply unique_bind.
    { destruct (PostCreate.tag_ids d) as [[|z l]|]; try done.
      by rewrite resolved_state. }
    intros assigned d1 E _.
    assert (d1 = db) as ->.
    { apply (f_equal snd) in E. simpl in E.
      destruct (PostCreate.tag_ids d) as [[|z l]|]; try done.
      by rewrite resolved_state in E. }
    apply unique_bind; [by apply unique_insert|].
    intros post d2 _ Hd2. apply unique_bind; [|by intros].
    destruct (row_id post) as [post_id|]; [by apply Hlinks|].
    by destruct assigned.
  - intros d. unfold update_post. apply unique_get_session; [done|].
    apply unique_bind; [done|]. intros [old|] d' [= Hold <-] _; [|done].
    apply unique_bind.
    { destruct (PostUpdate.tag_ids d) as [[l|]|]; try done.
      by rewrite resolved_state. }
    intros assigned d1 E _.
    assert (d1 = db) as ->.
    { apply (f_equal snd) in E. simpl in E.
      destruct (PostUpdate.tag_ids d) as [[l|]|]; try done.
      by rewrite resolved_state in E. }
    destruct (post_update_keys d) as [Hnd Hkeys].
    apply unique_bind; [by apply unique_update|].
    intros updated d2 _ Hd2. apply unique_bind; [|by intros].
    by apply Hlinks.
  - apply Hdelete.
  - intros d. apply Hcreate.
  - intros d. destruct (tag_update_keys d). by apply Hupdate.
  - apply Hdelete.
Qed.

Lemma operations_keep_unique_columns_witness :
  primary_keys_ok sample_db ∧ unique_columns_ok sample_db
  ∧ (∀ d, unique_columns_ok (create_user d 1700000200 sample_db).2)
  ∧ (∀ d, unique_columns_ok (update_user 1 d 1700000200 sample_db).2)
  ∧ unique_columns_ok (delete_user 1 sample_db).2
  ∧ (∀ d, unique_columns_ok (create_post 1 d 1700000200 sample_db).2)
  ∧ (∀ d, unique_columns_ok (update_post 1 d 1700000200 sample_db).2)
  ∧ unique_columns_ok (delete_post 1 sample_db).2
  ∧ (∀ d, unique_columns_ok (create_tag d 1700000200 sample_db).2)
  ∧ (∀ d, unique_columns_ok (update_tag 1 d 1700000200 sample_db).2)
  ∧ unique_columns_ok (delete_tag 1 sample_db).2.
Proof.
  assert (Hpk : primary_keys_ok sample_db) by (intros []; by_computation).
  assert (Hok : unique_columns_ok sample_db).
  { intros model c Hc Hu. apply list_elem_of_In in Hc.
    destruct model; simpl in Hc;
      repeat (destruct Hc as [<-|Hc];
              [first [discriminate Hu|by_computation]|]);
      destruct Hc. }
  split; [exact Hpk|]. split; [exact Hok|].
  exact (operations_keep_unique_columns sample_db 1700000200 1 Hpk Hok).
Defined.

(** ** The tag test of the repository *)

Lemma insert_succeeds (model : Model) (obj : Row) (now : Z) (db : Database) :
  getattr obj "id" = VNone →
  let next_id := id_seq model db in
  let row :=
    foldl (λ r c, setattr r (col_name c) (insert_value now next_id obj c))
      obj (columns model) in
  (∀ c, c ∈ columns model →
        type_ok (col_type c) (insert_value now next_id obj c)
        ∧ not_null_ok c (insert_value now next_id obj c)
        ∧ unique_ok c (insert_value now next_id obj c) (table model db)) →
  foreign_keys_ok model (columns model) row db →
  insert model obj now db
  = (Ok row,
     set_table model (table model db ++ [row])
       (set_id_seq model (next_id + 1) db)).
Proof.
  intros Hid next_id row Hcols Hfk. unfold insert.
  rewrite bool_decide_eq_true_2 by done. fold next_id. fold row.
  assert (Htab : ∀ m, table m (set_id_seq model (next_id + 1) db) = table m db)
    by (intros m; by destruct model, m).
  rewrite check_columns_accepts; [by rewrite Htab| |].
  - intros c Hc. unfold row.
    rewrite (insert_attrs now next_id obj (columns model) obj c);
      [|apply column_names_NoDup|done].
    rewrite Htab. by apply Hcols.
  - by destruct model.
Qed.

Lemma create_tag_succeeds (d : TagCreate.t) (now : Z) (db : Database) :
  (String.length (TagCreate.title d) ≤ 50)%nat →
  -2147483648 ≤ tags_id_seq db ≤ 2147483647 →
  ¬ resolves Tag (tags_id_seq db) db →
  (∀ t, t ∈ tags db → getattr t "title" ≠ VStr (TagCreate.title d)) →
  ∃ row,
    let db' := set_table Tag (tags db ++ [row])
                 (set_id_seq Tag (tags_id_seq db + 1) db) in
    create_tag d now db = (Ok (tag_response db' true row), db')
    ∧ getattr row "id" = VInt (tags_id_seq db)
    ∧ getattr row "title" = VStr (TagCreate.title d)
    ∧ getattr row "description" = opt_str (TagCreate.description d)
    ∧ getattr row "created_at" = VDateTime now.
Proof.
  intros Hlen Hrange Hfresh Htitle.
  set (obj := list_to_map (TagCreate.model_dump d) : Row).
  set (row := foldl (λ r c, setattr r (col_name c)
                              (insert_value now (tags_id_seq db) obj c))
                obj (columns Tag)).
  exists row.
  assert (Hvalue : ∀ c, c ∈ columns Tag →
    getattr row (col_name c) = insert_value now (tags_id_seq db) obj c).
  { intros c Hc. apply insert_attrs; [apply column_names_NoDup|done]. }
  assert (Hid : getattr obj "id" = VNone) by reflexivity.
  assert (Hins : insert Tag obj now db
    = (Ok row, set_table Tag (tags db ++ [row])
                 (set_id_seq Tag (tags_id_seq db + 1) db))).
  { apply (insert_succeeds Tag obj now db Hid); [|done].
    intros c Hc. change (id_seq Tag db) with (tags_id_seq db).
    change (table Tag db) with (tags db).
    apply list_elem_of_In in Hc. simpl in Hc.
    destruct Hc as [<-|[<-|[<-|[<-|[]]]]].
    - split; [|split; [done|]].
      + cbv [insert_value col_name col_default col_type]. rewrite Hid.
        simpl. by apply bool_decide_pack.
      + cbv [insert_value col_name col_default unique_ok unique]. rewrite Hid.
        simpl. apply forallb_True, Forall_forall. intros r Hr.
        apply negb_True. intros Heq%bool_decide_unpack.
        apply Hfresh, Exists_exists. exists r. split; [done|].
        by apply row_id_getattr.
    - assert (Hv : insert_value now (tags_id_seq db) obj
                     (mapped_column "title" (String_ 50) false true NoDefault
                        false) = VStr (TagCreate.title d)) by reflexivity.
      rewrite Hv. split; [by apply bool_decide_pack|]. split; [done|].
      unfold unique_ok. simpl. apply forallb_True, Forall_forall.
      intros r Hr. apply negb_True. intros Heq%bool_decide_unpack.
      by apply (Htitle r).
    - assert (Hv : insert_value now (tags_id_seq db) obj
                     (mapped_column "description" Text true false NoDefault
                        false) = opt_str (TagCreate.description d)).
      { unfold insert_value. simpl.
        assert (getattr obj "description" = opt_str (TagCreate.description d))
          as -> by reflexivity.
        by destruct (opt_str _). }
      rewrite Hv. split; [|done]. by destruct (TagCreate.description d).
    - assert (Hv : insert_value now (tags_id_seq db) obj
                     (mapped_column "created_at" DateTime false false UtcNow
                        false) = VDateTime now) by reflexivity.
      by rewrite Hv. }
  cbv zeta. split.
  - unfold create_tag, get_session, _create. fold obj. session_steps.
    by rewrite Hins.
  - assert (Hget : ∀ c v,
      c ∈ columns Tag → insert_value now (tags_id_seq db) obj c = v →
      getattr row (col_name c) = v) by (intros c v Hc <-; by apply Hvalue).
    split; [|split; [|split]].
    + apply (Hget (mapped_column "id" Integer false true Serial false));
        [apply list_elem_of_In; simpl; tauto|done].
    + apply (Hget (mapped_column "title" (String_ 50) false true NoDefault
                     false)); [apply list_elem_of_In; simpl; tauto|done].
    + apply (Hget (mapped_column "description" Text true false NoDefault
                     false)); [apply list_elem_of_In; simpl; tauto|].
      unfold insert_value. simpl.
      assert (getattr obj "description" = opt_str (TagCreate.description d))
        as -> by reflexivity.
      by destruct (opt_str _).
    + apply (Hget (mapped_column "created_at" DateTime false false UtcNow
                     false)); [apply list_elem_of_In; simpl; tauto|done].
Qed.

Section TagTest.
Context (db : Database) (created updated : Z) (row : Row).
Hypothesis Hlinks : ∀ a, a ∈ posts_tags db → resolves Tag (pt_tag_id a) db.
Hypothesis Hfresh : ¬ resolves Tag (tags_id_seq db) db.
Hypothesis Hid : getattr row "id" = VInt (tags_id_seq db).

Local Abbreviation tag_id := (tags_id_seq db).
Local Abbreviation db1 :=
  (set_table Tag (tags db ++ [row]) (set_id_seq Tag (tag_id + 1) db)).

Lemma new_tag_found :
  filter (λ r, row_id r = Some tag_id) (tags db ++ [row]) = [row]
  ∧ filter (λ r, row_id r ≠ Some tag_id) (tags db ++ [row]) = tags db
  ∧ tag_posts db1 tag_id = []
  ∧ filter (λ a, pt_tag_id a ≠ tag_id) (posts_tags db) = posts_tags db.
Proof.
  assert (Hrid : row_id row = Some tag_id) by (by apply row_id_getattr).
  assert (Hnone : ∀ r, r ∈ tags db → row_id r ≠ Some tag_id).
  { intros r Hr Heq. apply Hfresh, Exists_exists. by exists r. }
  assert (Hlink : ∀ a, a ∈ posts_tags db → pt_tag_id a ≠ tag_id).
  { intros a Ha Heq. apply Hfresh. rewrite <- Heq. by apply Hlinks. }
  split; [|split; [|split]].
  - rewrite filter_app, filter_cons_True, filter_nil by done.
    replace (filter (λ r, row_id r = Some tag_id) (tags db)) with (@nil Row);
      [done|].
    symmetry. apply filter_nil_iff. intros r Hr. by apply Hnone.
  - rewrite filter_app, filter_cons_False, filter_nil, app_nil_r
      by (intros Hne; by apply Hne).
    by apply filter_all.
  - unfold tag_posts, tag_post_ids. simpl.
    replace (filter (λ a, pt_tag_id a = tag_id) (posts_tags db))
      with (@nil PostTag).
    + simpl. apply filter_nil_iff. intros r _ Hin.
      apply id_in_spec in Hin as (z & _ & Hz). by apply elem_of_nil in Hz.
    + symmetry. apply filter_nil_iff. intros a Ha. by apply Hlink.
  - by apply filter_all.
Qed.

Lemma new_tag_updated (d : TagUpdate.t) :
  TagUpdate.title d = None →
  ∃ row2 db2,
    update_tag tag_id d updated db1
    = (Ok (Some (tag_response db2 true row2)), db2)
    ∧ (∀ v, TagUpdate.description d = Some v →
            getattr row2 "description" = opt_str v)
    ∧ resolves Tag tag_id db2
    ∧ users db2 = users db ∧ posts db2 = posts db
    ∧ posts_tags db2 = posts_tags db
    ∧ tags_id_seq db2 = tag_id + 1
    ∧ tags db2 ≠ []
    ∧ filter (λ r, row_id r ≠ Some tag_id) (tags db2) = tags db.
Proof.
  intros Htitle.
  destruct new_tag_found as (Hone & Hrest & _ & _).
  assert (Hold : stored Tag tag_id db1 = Some row).
  { unfold stored. simpl. by rewrite Hone. }
  destruct (tag_update_keys d) as [Hnd Hkeys].
  set (data := TagUpdate.model_dump_exclude_unset d) in *.
  assert (Hdata : ∀ k v, (k, v) ∈ data →
    k = "description" ∧ ∃ o, TagUpdate.description d = Some o ∧ v = opt_str o).
  { intros k v. subst data. unfold TagUpdate.model_dump_exclude_unset.
    rewrite Htitle. simpl. destruct (TagUpdate.description d) as [o|]; simpl.
    - intros [= -> ->]%list_elem_of_singleton. by eauto.
    - by intros ?%elem_of_nil. }
  assert (Hok : ∃ row2 db2, _update Tag tag_id row data updated db1
                            = (Ok row2, db2)).
  { apply (update_ok_iff Tag tag_id row data updated db1 Hold Hnd Hkeys).
    intros k v (-> & o & _ & ->)%Hdata _ c Hc Hname.
    apply list_elem_of_In in Hc. simpl in Hc.
    destruct Hc as [<-|[<-|[<-|[<-|[]]]]]; try discriminate Hname.
    by destruct o. }
  destruct Hok as (row2 & db2 & Hupd).
  exists row2, db2.
  rewrite (update_tag_unfold tag_id d updated db1 row Hold). fold data.
  rewrite Hupd. split; [done|].
  destruct (update_cases Tag tag_id row data updated db1 Hold Hnd Hkeys)
    as [(row2' & db2' & after & Hupd' & Hst & [Hsup _] & Hrow & _)
       |(e & Hupd' & _)]; rewrite Hupd in Hupd'; [|done].
  injection Hupd' as <- <-.
  pose proof (head_filter_resolves Tag tag_id db2 after Hst) as [Hin Hafter].
  split.
  { intros v Hv. rewrite Hrow by by_computation. apply Hsup.
    subst data. unfold TagUpdate.model_dump_exclude_unset.
    rewrite Htitle, Hv. simpl. left. }
  split; [apply Exists_exists; by exists after|].
  destruct (flush_update_rows Tag tag_id row (update_attrs Tag row data)
              updated db1) as [Hsame|(row3 & Hupd3 & _)].
  - unfold _update in Hupd. rewrite Hupd in Hsame. simpl in Hsame. subst db2.
    simpl. do 4 (split; [done|]).
    split; [by destruct (tags db)|exact Hrest].
  - unfold _update in Hupd. rewrite Hupd in Hupd3.
    injection Hupd3 as -> ->. simpl. do 4 (split; [done|]).
    split; [rewrite fmap_app; by destruct (_ <$> tags db)|].
    assert (Hrid : row_id row3 = Some tag_id).
    { apply row_id_getattr. rewrite Hrow by by_computation.
      by apply row_id_getattr. }
    rewrite fmap_app, filter_app. simpl.
    rewrite (bool_decide_eq_true_2 (row_id row = Some tag_id))
      by (by apply row_id_getattr).
    rewrite filter_cons_False, filter_nil, app_nil_r
      by (intros Hne; by apply Hne).
    assert (Hkeep : (λ r, if bool_decide (row_id r = Some tag_id)
                          then row3 else r) <$> tags db = tags db).
    { rewrite <- (list_fmap_id (tags db)) at 2. apply list_fmap_ext.
      intros i r Hr. simpl. rewrite bool_decide_eq_false_2; [done|].
      intros Heq. apply Hfresh, Exists_exists. exists r.
      split; [by eapply list_elem_of_lookup_2|done]. }
    rewrite Hkeep. apply filter_all. intros r Hr Heq.
    apply Hfresh, Exists_exists. by exists r.
Qed.

End TagTest.

Tactic Notation "test_steps" :=
  unfold TestDatabaseManager.assertEqual, TestDatabaseManager.assertGreater,
    TestDatabaseManager.assertTrue, TestDatabaseManager.assertIsNotNone,
    TestDatabaseManager.assertIsNone;
  unfold call, mbind, Endpoint_bind, mret, Endpoint_ret, raise_;
  cbv beta iota zeta.

(** X23. The tag test of the repository passes. On every store in which
    the rows of posts_tags name existing tags, the next value of the tag
    sequence is a valid identifier that no tag carries, and no tag is titled
    "TestTag", [test_tag_operations] runs to its end without a failed
    assertion or an error, and it leaves every table as it found it (the
    tag sequence has advanced by one). *)
Theorem test_tag_operations_passes (db : Database) (created updated : Z) :
  (∀ a, a ∈ posts_tags db → resolves Tag (pt_tag_id a) db) →
  ¬ resolves Tag (tags_id_seq db) db →
  -2147483648 ≤ tags_id_seq db ≤ 2147483647 →
  (∀ t, t ∈ tags db → getattr t "title" ≠ VStr "TestTag") →
  ∃ db',
    TestDatabaseManager.test_tag_operations created updated db
    = (Returns tt, db')
    ∧ same_tables db db'
    ∧ tags_id_seq db' = tags_id_seq db + 1.
Proof.
  intros Hlinks Hfresh Hrange Htitles.
  destruct (create_tag_succeeds
              (TagCreate.mk "TestTag" (Some "Test tag description"))
              created db) as (row & Hcreate & Hid & Htitle & Hdesc & _);
    [simpl; lia|done|done|done|].
  cbv zeta in Hcreate. simpl in Htitle, Hdesc.
  destruct (new_tag_found db row Hlinks Hfresh Hid)
    as (Hone & Hrest & Hposts & Hkept).
  destruct (new_tag_updated db updated row Hlinks Hfresh Hid
              (TagUpdate.mk None (Some (Some "Updated test tag description")))
              eq_refl)
    as (row2 & db2 & Hupd & Hdesc2 & Hres2 & Husers & Hposts2 & Hlinks2 & Hseq
        & Hsome & Hrest2).
  specialize (Hdesc2 _ eq_refl). simpl in Hdesc2.
  assert (Hrid : response_id row = tags_id_seq db)
    by (unfold response_id; by rewrite Hid).
  assert (Hget : get_tag (tags_id_seq db) true
                   (set_table Tag (tags db ++ [row])
                      (set_id_seq Tag (tags_id_seq db + 1) db))
                 = (Ok (Some (tag_response
                                (set_table Tag (tags db ++ [row])
                                   (set_id_seq Tag (tags_id_seq db + 1) db))
                                true row)),
                    set_table Tag (tags db ++ [row])
                      (set_id_seq Tag (tags_id_seq db + 1) db))).
  { unfold get_tag, get_session. session_steps. cbn [tags set_table].
    by rewrite Hone. }
  assert (Hdelete : delete_tag (tags_id_seq db) db2
                    = (Ok true, delete_rows Tag (tags_id_seq db) db2)).
  { unfold delete_tag. by rewrite delete_shape, bool_decide_eq_true_2. }
  assert (Hgone : get_tag (tags_id_seq db) true
                    (delete_rows Tag (tags_id_seq db) db2)
                  = (Ok None, delete_rows Tag (tags_id_seq db) db2)).
  { apply (get_unknown _ _ true true true). apply delete_rows_not_resolves. }
  exists (delete_rows Tag (tags_id_seq db) db2). split; [|split].
  - assert (Hrow_id : row_id row = Some (tags_id_seq db))
      by (by apply row_id_getattr).
    unfold TestDatabaseManager.test_tag_operations. test_steps.
    rewrite Hcreate. cbn [TagResponse.row tag_response].
    rewrite Htitle, Hrid.
    rewrite (bool_decide_eq_true_2 (VStr "TestTag" = VStr "TestTag")) by done.
    cbv beta iota. rewrite Hget. cbv beta iota.
    cbn [TagResponse.row TagResponse.posts tag_response].
    rewrite Hdesc.
    rewrite (bool_decide_eq_true_2
               (VStr "Test tag description" = VStr "Test tag description"))
      by done.
    cbv beta iota. rewrite Hget. cbv beta iota.
    cbn [TagResponse.row TagResponse.posts tag_response length].
    rewrite Hrow_id, Hposts. cbn [length].
    rewrite (bool_decide_eq_true_2 (0%nat = 0%nat)) by done.
    cbv beta iota. rewrite Hupd. cbv beta iota.
    cbn [TagResponse.row tag_response]. rewrite Hdesc2.
    rewrite (bool_decide_eq_true_2
               (VStr "Updated test tag description"
                = VStr "Updated test tag description")) by done.
    cbv beta iota.
    assert (Hall : get_all_tags true db2
                   = (Ok (tag_response db2 true <$> tags db2), db2))
      by reflexivity.
    rewrite Hall. cbv beta iota. rewrite length_fmap.
    rewrite (bool_decide_eq_true_2 (0 < length (tags db2))%nat)
      by (destruct (tags db2); [done|simpl; lia]).
    cbv beta iota. rewrite Hdelete. cbv beta iota. by rewrite Hgone.
  - unfold same_tables. simpl. rewrite Hrest2, Hlinks2, Hkept. done.
  - simpl. done.
Qed.

Lemma test_tag_operations_passes_witness :
  (∀ a, a ∈ posts_tags sample_db → resolves Tag (pt_tag_id a) sample_db)
  ∧ ¬ resolves Tag (tags_id_seq sample_db) sample_db
  ∧ (∀ t, t ∈ tags sample_db → getattr t "title" ≠ VStr "TestTag")
  ∧ ∃ db',
      TestDatabaseManager.test_tag_operations 1700000200 1700000300 sample_db
      = (Returns tt, db')
      ∧ same_tables sample_db db'
      ∧ tags_id_seq db' = tags_id_seq sample_db + 1.
Proof.
  assert (Hlinks : ∀ a, a ∈ posts_tags sample_db →
                        resolves Tag (pt_tag_id a) sample_db)
    by (apply Forall_forall; by_computation).
  assert (Hfresh : ¬ resolves Tag (tags_id_seq sample_db) sample_db)
    by by_computation.
  assert (Hrange : -2147483648 ≤ tags_id_seq sample_db ≤ 2147483647)
    by (simpl; lia).
  assert (Htitles : ∀ t, t ∈ tags sample_db →
                         getattr t "title" ≠ VStr "TestTag")
    by (apply Forall_forall; by_computation).
  split; [exact Hlinks|]. split; [exact Hfresh|]. split; [exact Htitles|].
  exact (test_tag_operations_passes sample_db 1700000200 1700000300
           Hlinks Hfresh Hrange Htitles).
Defined.

(** ** The GraphQL list queries *)



(** ** The user test of the repository *)

Section UserTest.
Context (db : Database) (created updated : Z).
Hypothesis Hauthors :
  ∀ p, p ∈ posts db → ∃ a, getattr p "author_id" = VInt a ∧ resolves User a db.
Hypothesis Hfresh : ¬ resolves User (users_id_seq db) db.
Hypothesis Hrange : -2147483648 ≤ users_id_seq db ≤ 2147483647.
Hypothesis Hfree :
  ∀ u, u ∈ users db →
       getattr u "nickname" ≠ VStr "testuser"
       ∧ getattr u "email" ≠ VStr "test@example.com".

Local Abbreviation user_id := (users_id_seq db).
Local Abbreviation user_data :=
  (UserCreate.mk "Test" "User" "testuser" "test@example.com" "testpass123"
     726468 (Some "Test City") (Some "Other") (Some "Tester")
     (Some "+1-555-0123")).
Local Abbreviation update_data :=
  (UserUpdate.mk None None None None None None
     (Some (Some "New Test City")) None (Some (Some "Senior Tester")) None).

Lemma test_user_created :
  ∃ row,
    let db1 := set_table User (users db ++ [row])
                 (set_id_seq User (user_id + 1) db) in
    create_user user_data created db
    = (Ok (Some (user_response db1 true row)), db1)
    ∧ getattr row "id" = VInt user_id
    ∧ getattr row "email" = VStr "test@example.com"
    ∧ getattr row "nickname" = VStr "testuser".
Proof.
  set (obj := list_to_map (UserCreate.model_dump user_data) : Row).
  set (row := foldl (λ r c, setattr r (col_name c)
                              (insert_value created user_id obj c))
                obj (columns User)).
  exists row.
  assert (Hid : getattr obj "id" = VNone) by reflexivity.
  assert (Hunique : ∀ k v,
    (∀ u, u ∈ users db → getattr u k ≠ v) →
    Is_true (forallb (λ r, negb (bool_decide (getattr r k = v))) (users db))).
  { intros k v Hno. apply forallb_True, Forall_forall. intros r Hr.
    apply negb_True. intros Heq%bool_decide_unpack. by apply (Hno r). }
  assert (Hins : insert User obj created db
    = (Ok row, set_table User (users db ++ [row])
                 (set_id_seq User (user_id + 1) db))).
  { apply (insert_succeeds User obj created db Hid); [|done].
    intros c Hc. change (id_seq User db) with user_id.
    change (table User db) with (users db).
    apply list_elem_of_In in Hc. simpl in Hc.
    destruct Hc as [<-|[<-|[<-|[<-|[<-|[<-|[<-|[<-|[<-|[<-|[<-|[<-|[]]]]]]]]]]]]].
    - assert (Hv : insert_value created user_id obj
                     (mapped_column "id" Integer false true Serial false)
                   = VInt user_id)
        by (cbv [insert_value col_name col_default]; by rewrite Hid).
      rewrite Hv. split; [by apply bool_decide_pack|]. split; [exact I|].
      unfold unique_ok. simpl. apply Hunique. intros u Hu Heq.
        apply Hfresh, Exists_exists. exists u. split; [done|].
        by apply row_id_getattr.
    - split; [|split]; vm_compute; exact I.
    - split; [|split]; vm_compute; exact I.
    - split; [vm_compute; exact I|]. split; [vm_compute; exact I|].
      assert (Hv : insert_value created user_id obj
                     (mapped_column "nickname" (String_ 30) false true
                        NoDefault false) = VStr "testuser")
        by (vm_compute; reflexivity).
      rewrite Hv. unfold unique_ok. simpl. apply Hunique.
      intros u Hu. by apply Hfree.
    - split; [|split]; vm_compute; exact I.
    - split; [vm_compute; exact I|]. split; [vm_compute; exact I|].
      assert (Hv : insert_value created user_id obj
                     (mapped_column "email" (String_ 100) false true
                        NoDefault false) = VStr "test@example.com")
        by (vm_compute; reflexivity).
      rewrite Hv. unfold unique_ok. simpl. apply Hunique.
      intros u Hu. by apply Hfree.
    - split; [|split]; vm_compute; exact I.
    - split; [|split]; vm_compute; exact I.
    - split; [|split]; vm_compute; exact I.
    - split; [|split]; vm_compute; exact I.
    - split; [|split]; vm_compute; exact I.
    - by split; [|split]; vm_compute. }
  assert (Hget : ∀ c v,
    c ∈ columns User → insert_value created user_id obj c = v →
    getattr row (col_name c) = v).
  { intros c v Hc <-. apply insert_attrs; [apply column_names_NoDup|done]. }
  cbv zeta. split.
  - unfold create_user, get_session, _create. fold obj. session_steps.
    by rewrite Hins.
  - split; [|split].
    + apply (Hget (mapped_column "id" Integer false true Serial false));
        [apply list_elem_of_In; simpl; tauto|done].
    + apply (Hget (mapped_column "email" (String_ 100) false true NoDefault
                     false)); [apply list_elem_of_In; simpl; tauto|done].
    + apply (Hget (mapped_column "nickname" (String_ 30) false true NoDefault
                     false)); [apply list_elem_of_In; simpl; tauto|done].
Qed.

End UserTest.

(** A user without posts is deleted alone. *)
Lemma delete_user_without_posts (id : Z) (db : Database) :
  (∀ p, p ∈ posts db → getattr p "author_id" ≠ VInt id) →
  delete_rows User id db
  = set_table User (filter (λ r, row_id r ≠ Some id) (users db)) db.
Proof.
  intros Hnone. unfold delete_rows.
  assert (Hnil : filter (λ p, getattr p "author_id" = VInt id) (posts db) = []).
  { apply filter_nil_iff. intros p Hp. by apply Hnone. }
  rewrite Hnil. simpl.
  assert (Hall : filter (λ p, getattr p "author_id" ≠ VInt id) (posts db)
                 = posts db) by (by apply filter_all).
  rewrite Hall. by destruct db.
Qed.

Section NewUser.
Context (db : Database) (updated : Z) (row : Row).
Hypothesis Hauthors :
  ∀ p, p ∈ posts db → ∃ a, getattr p "author_id" = VInt a ∧ resolves User a db.
Hypothesis Hfresh : ¬ resolves User (users_id_seq db) db.
Hypothesis Hid : getattr row "id" = VInt (users_id_seq db).

Local Abbreviation user_id := (users_id_seq db).
Local Abbreviation db1 :=
  (set_table User (users db ++ [row]) (set_id_seq User (user_id + 1) db)).
Local Abbreviation update_data :=
  (UserUpdate.mk None None None None None None
     (Some (Some "New Test City")) None (Some (Some "Senior Tester")) None).

Lemma new_user_found :
  filter (λ r, row_id r = Some user_id) (users db ++ [row]) = [row]
  ∧ filter (λ r, row_id r ≠ Some user_id) (users db ++ [row]) = users db
  ∧ user_posts db1 user_id = []
  ∧ ∀ p, p ∈ posts db → getattr p "author_id" ≠ VInt user_id.
Proof.
  assert (Hrid : row_id row = Some user_id) by (by apply row_id_getattr).
  assert (Hnone : ∀ r, r ∈ users db → row_id r ≠ Some user_id).
  { intros r Hr Heq. apply Hfresh, Exists_exists. by exists r. }
  assert (Hpost : ∀ p, p ∈ posts db → getattr p "author_id" ≠ VInt user_id).
  { intros p Hp Heq. destruct (Hauthors p Hp) as (a & Ha & Hres).
    rewrite Heq in Ha. injection Ha as <-. by apply Hfresh. }
  assert (Hnil : filter (λ p, getattr p "author_id" = VInt user_id) (posts db)
                 = []).
  { apply filter_nil_iff. intros p Hp. by apply Hpost. }
  split; [|split; [|split]].
  - rewrite filter_app, filter_cons_True, filter_nil by done.
    replace (filter (λ r, row_id r = Some user_id) (users db)) with (@nil Row);
      [done|].
    symmetry. apply filter_nil_iff. intros r Hr. by apply Hnone.
  - rewrite filter_app, filter_cons_False, filter_nil, app_nil_r
      by (intros Hne; by apply Hne).
    by apply filter_all.
  - exact Hnil.
  - exact Hpost.
Qed.

Lemma new_user_updated :
  ∃ row2 db2 after,
    update_user user_id update_data updated db1
    = (Ok (Some (user_response db2 true row2)), db2)
    ∧ getattr row2 "job_title" = VStr "Senior Tester"
    ∧ after ∈ users db2
    ∧ getattr after "job_title" = VStr "Senior Tester"
    ∧ resolves User user_id db2
    ∧ posts db2 = posts db ∧ tags db2 = tags db
    ∧ posts_tags db2 = posts_tags db
    ∧ users_id_seq db2 = user_id + 1
    ∧ filter (λ r, row_id r ≠ Some user_id) (users db2) = users db.
Proof.
  destruct new_user_found as (Hone & Hrest & _ & _).
  assert (Hold : stored User user_id db1 = Some row).
  { unfold stored. simpl. by rewrite Hone. }
  destruct (user_update_keys update_data) as [Hnd Hkeys].
  set (data := UserUpdate.model_dump_exclude_unset update_data) in *.
  assert (Hdata : ∀ k v, (k, v) ∈ data →
    (k = "location" ∧ v = VStr "New Test City")
    ∨ (k = "job_title" ∧ v = VStr "Senior Tester")).
  { intros k v Hin. apply list_elem_of_In in Hin. simpl in Hin.
    destruct Hin as [[= <- <-]|[[= <- <-]|[]]]; by eauto. }
  assert (Hjob : ("job_title", VStr "Senior Tester") ∈ data)
    by (apply list_elem_of_In; simpl; tauto).
  assert (Hok : ∃ row2 db2, _update User user_id row data updated db1
                            = (Ok row2, db2)).
  { apply (update_ok_iff User user_id row data updated db1 Hold Hnd Hkeys).
    intros k v [[-> ->]|[-> ->]]%Hdata _ c Hc Hname;
      apply list_elem_of_In in Hc; simpl in Hc;
      destruct Hc as [<-|[<-|[<-|[<-|[<-|[<-|[<-|[<-|[<-|[<-|[<-|[<-|[]]]]]]]]]]]]];
      try discriminate Hname; by split; [|split]; vm_compute. }
  destruct Hok as (row2 & db2 & Hupd).
  rewrite (update_user_unfold user_id update_data updated db1 row Hold).
  fold data. rewrite Hupd.
  destruct (update_cases User user_id row data updated db1 Hold Hnd Hkeys)
    as [(row2' & db2' & after & Hupd' & Hst & [Hsup _] & Hrow & _)
       |(e & Hupd' & _)]; rewrite Hupd in Hupd'; [|done].
  injection Hupd' as <- <-.
  pose proof (head_filter_resolves User user_id db2 after Hst) as [Hin Hafter].
  exists row2, db2, after. split; [done|].
  split; [rewrite Hrow by by_computation; by apply Hsup|].
  split; [exact Hin|]. split; [by apply Hsup|].
  split; [apply Exists_exists; by exists after|].
  destruct (flush_update_rows User user_id row (update_attrs User row data)
              updated db1) as [Hsame|(row3 & Hupd3 & _)].
  - unfold _update in Hupd. rewrite Hupd in Hsame. simpl in Hsame. subst db2.
    simpl. do 4 (split; [done|]). exact Hrest.
  - unfold _update in Hupd. rewrite Hupd in Hupd3.
    injection Hupd3 as -> ->. simpl. do 4 (split; [done|]).
    rewrite fmap_app, filter_app. simpl.
    rewrite (bool_decide_eq_true_2 (row_id row = Some user_id))
      by (by apply row_id_getattr).
    assert (Hrid : row_id row3 = Some user_id).
    { apply row_id_getattr. rewrite Hrow by by_computation.
      by apply row_id_getattr. }
    rewrite filter_cons_False, filter_nil, app_nil_r
      by (intros Hne; by apply Hne).
    assert (Hkeep : (λ r, if bool_decide (row_id r = Some user_id)
                          then row3 else r) <$> users db = users db).
    { rewrite <- (list_fmap_id (users db)) at 2. apply list_fmap_ext.
      intros i r Hr. simpl. rewrite bool_decide_eq_false_2; [done|].
      intros Heq. apply Hfresh, Exists_exists. exists r.
      split; [by eapply list_elem_of_lookup_2|done]. }
    rewrite Hkeep. apply filter_all. intros r Hr Heq.
    apply Hfresh, Exists_exists. by exists r.
Qed.

End NewUser.

(** Once the job title of some user reads "Senior Tester", a search for the
    job title "Tester" from the first row on has a result, and exactly one
    when at most one is asked for. *)
Lemma tester_found (db2 : Database) (after : Row) (include_posts : bool)
    (limit : nat) :
  after ∈ users db2 →
  getattr after "job_title" = VStr "Senior Tester" →
  ∃ found,
    search_users
      (UserSearch.mk None None None (Some "Tester") include_posts 0 limit) db2
    = (Ok found, db2)
    ∧ ((0 < limit)%nat → (0 < length found)%nat)
    ∧ (limit = 1%nat → length found = 1%nat).
Proof.
  intros Hin Hjob. eexists. split; [reflexivity|].
  rewrite length_fmap. unfold search_rows.
  cbn [UserSearch.skip UserSearch.limit drop].
  assert (Hfilters : user_filters
            (UserSearch.mk None None None (Some "Tester") include_posts 0 limit)
          = [("job_title", "%Tester%")]) by reflexivity.
  rewrite Hfilters.
  assert (Hmatch : after ∈ filter (λ r, or_ [("job_title", "%Tester%")] r)
                             (users db2)).
  { apply list_elem_of_filter. split; [|done].
    unfold or_. simpl. rewrite Hjob. by_computation. }
  destruct (filter _ (users db2)) as [|r l];
    [by apply elem_of_nil in Hmatch|].
  rewrite length_take. simpl. split; [lia|]. intros ->. lia.
Qed.

(** X25. The user test of the repository passes. On every store in which
    the author of every post exists, the next value of the user sequence is
    a valid identifier that no user carries, and no user has the nickname
    "testuser" or the email "test@example.com", [test_user_operations] runs
    to its end without a failed assertion or an error, whatever the default
    of [include_posts] in a search; it leaves every table as it found it
    (the user sequence has advanced by one). *)
Theorem test_user_operations_passes (db : Database) (created updated : Z)
    (include_posts : bool) :
  (∀ p, p ∈ posts db →
        ∃ a, getattr p "author_id" = VInt a ∧ resolves User a db) →
  ¬ resolves User (users_id_seq db) db →
  -2147483648 ≤ users_id_seq db ≤ 2147483647 →
  (∀ u, u ∈ users db →
        getattr u "nickname" ≠ VStr "testuser"
        ∧ getattr u "email" ≠ VStr "test@example.com") →
  ∃ db',
    TestDatabaseManager.test_user_operations created updated include_posts db
    = (Returns tt, db')
    ∧ same_tables db db'
    ∧ users_id_seq db' = users_id_seq db + 1.
Proof.
  intros Hauthors Hfresh Hrange Hfree.
  destruct (test_user_created db created Hfresh Hrange Hfree)
    as (row & Hcreate & Hid & Hemail & Hnick).
  cbv zeta in Hcreate.
  destruct (new_user_found db row Hauthors Hfresh Hid)
    as (Hone & Hrest & Hposts & Hpost).
  destruct (new_user_updated db updated row Hauthors Hfresh Hid)
    as (row2 & db2 & after & Hupd & Hjob2 & Hin & Hjob & Hres2 & Hposts2
        & Htags2 & Hlinks2 & Hseq & Hrest2).
  destruct (tester_found db2 after include_posts 100 Hin Hjob)
    as (found & Hsearch & Hfound & _).
  destruct (tester_found db2 after include_posts 1 Hin Hjob)
    as (page & Hpage & _ & Hone_row).
  specialize (Hfound ltac:(lia)). specialize (Hone_row eq_refl).
  assert (Hrid : response_id row = users_id_seq db)
    by (unfold response_id; by rewrite Hid).
  assert (Hrow_id : row_id row = Some (users_id_seq db))
    by (by apply row_id_getattr).
  assert (Hget : get_user (users_id_seq db) true
                   (set_table User (users db ++ [row])
                      (set_id_seq User (users_id_seq db + 1) db))
                 = (Ok (Some (user_response
                                (set_table User (users db ++ [row])
                                   (set_id_seq User (users_id_seq db + 1) db))
                                true row)),
                    set_table User (users db ++ [row])
                      (set_id_seq User (users_id_seq db + 1) db))).
  { unfold get_user, get_session. session_steps. cbn [users set_table].
    by rewrite Hone. }
  assert (Hdelete : delete_user (users_id_seq db) db2
                    = (Ok true, delete_rows User (users_id_seq db) db2)).
  { unfold delete_user. by rewrite delete_shape, bool_decide_eq_true_2. }
  assert (Hgone : get_user (users_id_seq db) true
                    (delete_rows User (users_id_seq db) db2)
                  = (Ok None, delete_rows User (users_id_seq db) db2)).
  { apply (get_unknown _ _ true true true). apply delete_rows_not_resolves. }
  exists (delete_rows User (users_id_seq db) db2). split; [|split].
  - unfold TestDatabaseManager.test_user_operations. test_steps.
    rewrite Hcreate. cbn [UserResponse.row user_response].
    rewrite Hemail, Hrid.
    rewrite (bool_decide_eq_true_2
               (VStr "test@example.com" = VStr "test@example.com")) by done.
    cbv beta iota. rewrite Hget. cbv beta iota.
    cbn [UserResponse.row UserResponse.posts user_response].
    rewrite Hnick.
    rewrite (bool_decide_eq_true_2 (VStr "testuser" = VStr "testuser"))
      by done.
    cbv beta iota. rewrite Hget. cbv beta iota.
    cbn [UserResponse.row UserResponse.posts user_response length].
    rewrite Hrow_id, Hposts. cbn [length].
    rewrite (bool_decide_eq_true_2 (0%nat = 0%nat)) by done.
    cbv beta iota. rewrite Hupd. cbv beta iota.
    cbn [UserResponse.row user_response]. rewrite Hjob2.
    rewrite (bool_decide_eq_true_2
               (VStr "Senior Tester" = VStr "Senior Tester")) by done.
    cbv beta iota. rewrite Hsearch. cbv beta iota.
    rewrite (bool_decide_eq_true_2 (0 < length found)%nat) by done.
    cbv beta iota. rewrite Hpage. cbv beta iota.
    rewrite (bool_decide_eq_true_2 (length page = 1%nat)) by done.
    cbv beta iota. rewrite Hdelete. cbv beta iota. by rewrite Hgone.
  - rewrite delete_user_without_posts by (rewrite Hposts2; exact Hpost).
    unfold same_tables. simpl. rewrite Hrest2, Hposts2, Htags2, Hlinks2.
    repeat split; reflexivity.
  - rewrite delete_user_without_posts by (rewrite Hposts2; exact Hpost).
    simpl. exact Hseq.
Qed.

Lemma test_user_operations_passes_witness :
  (∀ p, p ∈ posts sample_db →
        ∃ a, getattr p "author_id" = VInt a ∧ resolves User a sample_db)
  ∧ ¬ resolves User (users_id_seq sample_db) sample_db
  ∧ (∀ u, u ∈ users sample_db →
          getattr u "nickname" ≠ VStr "testuser"
          ∧ getattr u "email" ≠ VStr "test@example.com")
  ∧ ∃ db',
      TestDatabaseManager.test_user_operations 1700000200 1700000300 false
        sample_db
      = (Returns tt, db')
      ∧ same_tables sample_db db'
      ∧ users_id_seq db' = users_id_seq sample_db + 1.
Proof.
  assert (Hauthors : ∀ p, p ∈ posts sample_db →
            ∃ a, getattr p "author_id" = VInt a ∧ resolves User a sample_db).
  { assert (H : forallb
      (λ p, match getattr p "author_id" with
            | VInt a => bool_decide (resolves User a sample_db)
            | _ => false
            end) (posts sample_db) = true) by (vm_compute; reflexivity).
    apply Is_true_true, forallb_True in H. rewrite Forall_forall in H.
    intros p Hp. specialize (H p Hp).
    destruct (getattr p "author_id") as [|a| | | |];
      [destruct H| |destruct H..].
    exists a. split; [done|]. by apply bool_decide_unpack in H. }
  assert (Hfresh : ¬ resolves User (users_id_seq sample_db) sample_db)
    by by_computation.
  assert (Hrange : -2147483648 ≤ users_id_seq sample_db ≤ 2147483647)
    by (simpl; lia).
  assert (Hfree : ∀ u, u ∈ users sample_db →
            getattr u "nickname" ≠ VStr "testuser"
            ∧ getattr u "email" ≠ VStr "test@example.com")
    by (apply Forall_forall; by_computation).
  split; [exact Hauthors|]. split; [exact Hfresh|]. split; [exact Hfree|].
  exact (test_user_operations_passes sample_db 1700000200 1700000300 false
           Hauthors Hfresh Hrange Hfree).
Defined.
